(** * Report assembly of the MNE-BIDS pipeline: a shallow embedding

    This development embeds [scripts/report/_01_make_reports.py] and settles
    the properties its specification states about it.

    Conventions of the embedding.
    - Python floats are IEEE binary64 values ([spec_float] with precision 53),
      so comparisons involving NaN behave as in Python.
    - A NumPy array is an [ndarray] of rank 0 to 3 over nested lists.  The
      arrays are kept as they are after [loadmat]'s two-dimensional padding
      has been removed by [squeeze], [ravel], [item] or [atleast_1d];
      broadcasting between arrays of different shape is not modelled and
      raises [ValueError].
    - Effects are threaded through an exception-and-state monad [ES]: an
      exception keeps the state reached so far, as a Python exception keeps
      the mutations made before it.
    - Objects that the code mutates in place (reports, figures) live in
      stores indexed by reference, so that aliasing is kept.
    - Calls into mne, matplotlib, seaborn and pandas are total operations on
      that state, except that reading a path that is not in the artifact
      store raises [FileNotFoundError].  Keyword arguments that only change
      the rendering (colours, line widths, tags, captions, PSD settings) are
      not recorded, and neither are the calls that only prepare what is
      rendered ([_get_reject], [_restrict_analyze_channels], the switch of
      the matplotlib backend) or that write outside the state ([save_logs]).
    - The helpers the module imports from the rest of the pipeline are the
      fields of the class [World], next to the artifact store and the
      process environment. *)

From Stdlib Require Import ZArith QArith Ascii String List Bool.
From Stdlib Require Import Floats.SpecFloat.
From stdpp Require Import base tactics option list gmap strings pretty.

Local Open Scope string_scope.
Local Open Scope list_scope.
Local Open Scope Z_scope.

(** ** Floating point numbers *)

Module Float.

Definition float : Type := spec_float.

Definition prec : Z := 53.
Definition emax : Z := 1024.

Definition add : float -> float -> float := SFadd prec emax.
Definition sub : float -> float -> float := SFsub prec emax.
Definition div : float -> float -> float := SFdiv prec emax.

Definition of_Z (z : Z) : float := binary_normalize prec emax z 0 false.
Definition of_nat (n : nat) : float := of_Z (Z.of_nat n).

(** A decimal literal [a/b] is the correctly rounded quotient. *)
Definition ratio (a b : Z) : float := div (of_Z a) (of_Z b).

Definition zero : float := S754_zero false.
Definition half : float := ratio 1 2.

Definition is_nan (x : float) : bool :=
  match x with S754_nan => true | _ => false end.

(** Python's [x < y], [x <= y] and [x >= y]. *)
Definition lt (x y : float) : bool := SFltb x y.
Definition le (x y : float) : bool := SFleb x y.
Definition ge (x y : float) : bool := SFleb y x.

(** [np.maximum] and [np.minimum] as used by the reductions [max] and
    [min]: a NaN operand wins. *)
Definition max (x y : float) : float :=
  if is_nan x then x else if is_nan y then y else if lt x y then y else x.
Definition min (x y : float) : float :=
  if is_nan x then x else if is_nan y then y else if lt y x then y else x.

#[global] Instance float_eq_dec : EqDecision float.
Proof. solve_decision. Defined.

End Float.

Abbreviation float := Float.float.

(** ** Artifact paths *)

Module BIDS.

(** The entities of an [mne_bids.BIDSPath] that this module sets. *)
Record BIDSPath : Type := {
  subject : option string;
  session : option string;
  task : option string;
  acquisition : option string;
  run : option string;
  processing : option string;
  recording : option string;
  space : option string;
  split : option string;
  suffix : option string;
  extension : option string;
  datatype : option string;
  root : option string
}.

#[global] Instance BIDSPath_eq_dec : EqDecision BIDSPath.
Proof. solve_decision. Defined.

(** [bids_path.copy().update(...)], one function per updated entity. *)
Definition update_run (r : option string) (b : BIDSPath) : BIDSPath :=
  {| subject := subject b; session := session b; task := task b;
     acquisition := acquisition b; run := r; processing := processing b;
     recording := recording b; space := space b; split := split b;
     suffix := suffix b; extension := extension b; datatype := datatype b;
     root := root b |}.
Definition update_processing (x : option string) (b : BIDSPath) : BIDSPath :=
  {| subject := subject b; session := session b; task := task b;
     acquisition := acquisition b; run := run b; processing := x;
     recording := recording b; space := space b; split := split b;
     suffix := suffix b; extension := extension b; datatype := datatype b;
     root := root b |}.
Definition update_suffix (x : option string) (b : BIDSPath) : BIDSPath :=
  {| subject := subject b; session := session b; task := task b;
     acquisition := acquisition b; run := run b; processing := processing b;
     recording := recording b; space := space b; split := split b;
     suffix := x; extension := extension b; datatype := datatype b;
     root := root b |}.
Definition update_extension (x : option string) (b : BIDSPath) : BIDSPath :=
  {| subject := subject b; session := session b; task := task b;
     acquisition := acquisition b; run := run b; processing := processing b;
     recording := recording b; space := space b; split := split b;
     suffix := suffix b; extension := x; datatype := datatype b;
     root := root b |}.
Definition update_task (x : option string) (b : BIDSPath) : BIDSPath :=
  {| subject := subject b; session := session b; task := x;
     acquisition := acquisition b; run := run b; processing := processing b;
     recording := recording b; space := space b; split := split b;
     suffix := suffix b; extension := extension b; datatype := datatype b;
     root := root b |}.

(** What the code opens or tests for existence: the file of a
    [BIDSPath], the left-hemisphere file [f'{fpath}-lh.stc'] next to it,
    or a plain operating-system path. *)
Inductive path : Type :=
| File (b : BIDSPath)
| StcLh (b : BIDSPath)
| OsPath (p : string).

#[global] Instance path_eq_dec : EqDecision path.
Proof. solve_decision. Defined.

End BIDS.

Export BIDS(BIDSPath, path, File, StcLh, OsPath).

(** ** Exceptions and the state monad *)

Inductive exn : Type :=
| FileNotFoundError (p : path)
| KeyError (k : string)
| IndexError
| ValueError (msg : string)
| TypeError
| AttributeError
| AssertionError.

#[global] Instance exn_eq_dec : EqDecision exn.
Proof. solve_decision. Defined.

Definition result (A : Type) : Type := exn + A.

Definition ES (S A : Type) : Type := S -> result A * S.

#[global] Instance ES_ret {S} : MRet (ES S) := fun A a s => (inr a, s).

#[global] Instance ES_bind {S} : MBind (ES S) := fun A B f m s =>
  match m s with
  | (inr a, s') => f a s'
  | (inl e, s') => (inl e, s')
  end.

Definition raise {S A} (e : exn) : ES S A := fun s => (inl e, s).

Definition lift {S A} (r : result A) : ES S A := fun s => (r, s).

Definition gets {S A} (f : S -> A) : ES S A := fun s => (inr (f s), s).

Definition modify {S} (f : S -> S) : ES S unit := fun s => (inr tt, f s).

Definition when {S} (b : bool) (m : ES S unit) : ES S unit :=
  if b then m else mret tt.

(** [for x in xs: body] *)
Fixpoint for_each {S A} (xs : list A) (body : A -> ES S unit) : ES S unit :=
  match xs with
  | [] => mret tt
  | x :: xs' => body x ;; for_each xs' body
  end.

(** A [for] loop that carries a local variable from one iteration to the
    next. *)
Fixpoint for_fold {S A B} (xs : list A) (acc : B) (body : B -> A -> ES S B)
  : ES S B :=
  match xs with
  | [] => mret acc
  | x :: xs' => acc' ← body acc x; for_fold xs' acc' body
  end.

(** [for x in xs: out.append(f(x))] *)
Fixpoint for_collect {S A B} (xs : list A) (body : A -> ES S B)
  : ES S (list B) :=
  match xs with
  | [] => mret []
  | x :: xs' => y ← body x; ys ← for_collect xs' body; mret (y :: ys)
  end.

Definition is_raise {A S} (o : result A * S) : Prop :=
  match o with (inl _, _) => True | (inr _, _) => False end.

(** ** NumPy arrays *)

Module Np.

Inductive ndarray : Type :=
| Nd0 (x : float)
| Nd1 (v : list float)
| Nd2 (m : list (list float))
| Nd3 (t : list (list (list float))).

#[global] Instance ndarray_eq_dec : EqDecision ndarray.
Proof. solve_decision. Defined.

Definition vec_op (f : float -> float -> float) : list float -> list float -> list float :=
  zip_with f.
Definition mat_op (f : float -> float -> float)
  : list (list float) -> list (list float) -> list (list float) :=
  zip_with (vec_op f).

(** Reduction of the first axis by [f], accumulating row after row. *)
Definition reduce0 {A} (f : A -> A -> A) (rows : list A) (empty : A) : A :=
  match rows with
  | [] => empty
  | r :: rs => fold_left f rs r
  end.

Definition vec_sum : list float -> float := fun v => reduce0 Float.add v Float.zero.

(** [a.mean(axis=0)]: the sum along the first axis divided by its
    length. *)
Definition mean0 (a : ndarray) : result ndarray :=
  match a with
  | Nd0 _ => inl (ValueError "axis 0 is out of bounds for array of dimension 0")
  | Nd1 v => inr (Nd0 (Float.div (vec_sum v) (Float.of_nat (length v))))
  | Nd2 m =>
      let n := Float.of_nat (length m) in
      inr (Nd1 (map (fun x => Float.div x n) (reduce0 (vec_op Float.add) m [])))
  | Nd3 t =>
      let n := Float.of_nat (length t) in
      inr (Nd2 (map (map (fun x => Float.div x n)) (reduce0 (mat_op Float.add) t [])))
  end.

(** [a.max(axis=0)] and [a.min(axis=0)]; an empty first axis has no
    identity. *)
Definition extremum0 (f : float -> float -> float) (a : ndarray) : result ndarray :=
  match a with
  | Nd0 _ => inl (ValueError "axis 0 is out of bounds for array of dimension 0")
  | Nd1 [] | Nd2 [] | Nd3 [] =>
      inl (ValueError "zero-size array to reduction operation which has no identity")
  | Nd1 v => inr (Nd0 (reduce0 f v Float.zero))
  | Nd2 m => inr (Nd1 (reduce0 (vec_op f) m []))
  | Nd3 t => inr (Nd2 (reduce0 (mat_op f) t []))
  end.
Definition max0 : ndarray -> result ndarray := extremum0 Float.max.
Definition min0 : ndarray -> result ndarray := extremum0 Float.min.

(** [a.min()] and [a.max()] of a vector of sample times. *)
Definition vmin (v : list float) : result float :=
  match v with
  | [] => inl (ValueError "zero-size array to reduction operation minimum which has no identity")
  | x :: xs => inr (fold_left Float.min xs x)
  end.
Definition vmax (v : list float) : result float :=
  match v with
  | [] => inl (ValueError "zero-size array to reduction operation maximum which has no identity")
  | x :: xs => inr (fold_left Float.max xs x)
  end.

(** The main diagonal of a matrix: entry [i] is [m[i][i]], for as long as
    the rows and columns last. *)
Fixpoint diagonal_from (i : nat) (m : list (list float)) : list float :=
  match m with
  | [] => []
  | row :: rows =>
      match row !! i with
      | Some x => x :: diagonal_from (S i) rows
      | None => []
      end
  end.
Definition diagonal : list (list float) -> list float := diagonal_from 0.

(** The square matrix with [v] on its diagonal and zeros elsewhere. *)
Definition diagflat (v : list float) : list (list float) :=
  imap (fun i x => <[i := x]> (replicate (length v) Float.zero)) v.

(** [np.diag]: extracts the diagonal of a matrix, builds a diagonal
    matrix from a vector, rejects everything else. *)
Definition diag (a : ndarray) : result ndarray :=
  match a with
  | Nd2 m => inr (Nd1 (diagonal m))
  | Nd1 v => inr (Nd2 (diagflat v))
  | _ => inl (ValueError "Input must be 1- or 2-d.")
  end.

Definition same_length {A B} (l : list A) (k : list B) : bool :=
  Nat.eqb (length l) (length k).

Definition same_shape2 (a b : list (list float)) : bool :=
  same_length a b && forallb (fun p => same_length (fst p) (snd p)) (zip a b).

Definition same_shape3 (a b : list (list (list float))) : bool :=
  same_length a b && forallb (fun p => same_shape2 (fst p) (snd p)) (zip a b).

(** Elementwise arithmetic [a (op) b] on arrays of one shape. *)
Definition elementwise (f : float -> float -> float) (a b : ndarray) : result ndarray :=
  let mismatch := inl (ValueError "operands could not be broadcast together") in
  match a, b with
  | Nd0 x, Nd0 y => inr (Nd0 (f x y))
  | Nd1 v, Nd1 w => if same_length v w then inr (Nd1 (vec_op f v w)) else mismatch
  | Nd2 m, Nd2 n => if same_shape2 m n then inr (Nd2 (mat_op f m n)) else mismatch
  | Nd3 t, Nd3 u =>
      if same_shape3 t u then inr (Nd3 (zip_with (mat_op f) t u)) else mismatch
  | _, _ => mismatch
  end.

End Np.

Abbreviation ndarray := Np.ndarray.

(** ** Decoding score files *)

(** One entry of [decoding_data['clusters']]. *)
Record cluster : Type := {
  cluster_times : list float;
  p_value : float
}.

(** The grand-average time-by-time score file written for one contrast. *)
Module GA.
Record decoding_data : Type := {
  times : list float;
  mean : ndarray;
  mean_se : ndarray;
  mean_ci_lower : ndarray;
  mean_ci_upper : ndarray;
  decim : Z;
  clusters : list cluster;
  N : Z;
  cluster_all_times : list float;
  cluster_all_t_values : list float;
  cluster_t_threshold : float;
  cluster_n_permutations : Z
}.
End GA.

(** The time-by-time score file of one subject for one contrast. *)
Module SS.
Record decoding_data : Type := {
  scores : ndarray;
  times : list float;
  decim : Z
}.
End SS.

Inductive kind : Type := single_subject | grand_average.

(** ** Figures *)

Inductive ylim : Type :=
| YlimRange (lo hi : float)
| YlimSymmetric.

#[global] Instance ylim_eq_dec : EqDecision ylim.
Proof. solve_decision. Defined.

(** The calls made on the axes of a figure, in the order they are made.
    [FillBetweenX] carries the threshold shown in its legend label, if it has
    a label. *)
Inductive cmd : Type :=
| SetYlim (l : ylim)
| Axhline (y : float) (label : option string)
| Axvline (x : float)
| FillBetween (x : list float) (y1 y2 : ndarray) (label : string)
| FillBetweenX (x1 x2 : float) (label : option float)
| Plot (x : list float) (y : ndarray) (label : option string)
| Text (s : string)
| SetXlabel (s : string)
| SetYlabel (s : string)
| Legend (loc : string)
| Imshow (m : ndarray) (first last : float)
| Colorbar (label : string)
| Catplot (plot_kind : string) (contrast : list string) (score : list float)
          (score_label : string)
| MapSwarmplot
| MapMeanScore
| MapAxhline (y : float)
| SetTitles
| SetXlabels
| External (made_by : string).

#[global] Instance cmd_eq_dec : EqDecision cmd.
Proof. solve_decision. Defined.

Definition figure : Type := list cmd.

(** The drawing calls run in the monad whose state is the figure drawn. *)
Abbreviation Draw := (ES figure).

Definition ax (c : cmd) : Draw unit := modify (fun f => f ++ [c]).

(** ** Reports *)

Inductive content : Type :=
| AddRaw (raw : BIDSPath)
| AddEvents
| AddEpochs
| AddIca
| AddFigure (figs : list (nat * figure))
| AddEvokeds (index : nat)
| AddBem
| AddTrans (trans : BIDSPath)
| AddCovariance (cov : BIDSPath)
| AddStc (stc : BIDSPath)
| AddHtml (html : string)
| AddCode (code : string)
| AddSysInfo.

Record item : Type := {
  item_content : content;
  item_title : string;
  item_section : option string
}.

Record Report : Type := {
  report_title : string;
  report_items : list item;
  report_css : list string
}.

Inductive level : Type := INFO | WARNING | CRITICAL.

Record log_entry : Type := { log_level : level; log_message : string }.

(** ** Configuration *)

(** The [SimpleNamespace] built by [get_config]; the fields that only
    parameterise the rendering are left out. *)
Module Cfg.
Record t : Type := {
  task : option string;
  task_is_rest : bool;
  runs : list (option string);
  datatype : option string;
  acq : option string;
  rec : option string;
  space : option string;
  proc : option string;
  find_noisy_channels_meg : bool;
  spatial_filter : option string;
  conditions : option (list string);
  all_contrasts : list string;
  decoding_contrasts : list (string * string);
  ch_types : list string;
  time_frequency_conditions : option (list string);
  decode : bool;
  decoding_metric : string;
  decoding_time_generalization : bool;
  n_boot : Z;
  cluster_permutation_p_threshold : float;
  inverse_method : string;
  fs_subject : option string;
  fs_subjects_dir : option string;
  deriv_root : option string;
  bids_root : option string;
  interactive : bool;
  subjects : option (list string);
  exclude_subjects : list string
}.
End Cfg.

(** The user's [config] module, as far as [get_config] and [main] read its
    attributes directly. *)
Module Config.
Record t : Type := {
  task_is_rest : bool;
  acq : option string;
  rec : option string;
  space : option string;
  proc : option string;
  find_noisy_channels_meg : bool;
  spatial_filter : option string;
  conditions : option (list string);
  ch_types : list string;
  time_frequency_conditions : option (list string);
  decode : bool;
  decoding_metric : string;
  decoding_time_generalization : bool;
  n_boot : Z;
  cluster_permutation_p_threshold : float;
  inverse_method : string;
  interactive : bool;
  subjects : option (list string);
  exclude_subjects : list string
}.
End Config.

(** [get_subjects] is called on the [config] module and on the namespace
    [cfg] alike. *)
Inductive settings : Type :=
| OfConfig (config : Config.t)
| OfCfg (cfg : Cfg.t).

(** ** Artifacts *)

Inductive artifact : Type :=
| RawFif
| AutoScoresJson (n_figs : nat)
| EpochsFif
| IcaFif (exclude : list nat)
| ProjFif (descs : list string)
| EvokedsFif (n_evokeds : nat)
| FullEpochsMat (scores : list float)
| TimeByTimeMat (d : SS.decoding_data)
| GrandAverageMat (d : GA.decoding_data)
| TfrH5
| TransFif
| CovFif
| StcFile
| TextFile (text : string).

(** ** What the module takes from its environment

    The artifact store, the process environment, and the helpers of the
    pipeline that are defined outside this module ([_config_utils], [_run],
    [_viz]) and of [mne_bids]. *)
Class World : Type := {
  fs : path -> option artifact;
  environ : string -> option string;
  get_subjects : settings -> list string;
  get_sessions : Config.t -> list (option string);
  get_task : Config.t -> option string;
  get_runs : Config.t -> string -> list (option string);
  get_datatype : Config.t -> option string;
  get_deriv_root : Config.t -> option string;
  get_bids_root : Config.t -> option string;
  get_all_contrasts : Config.t -> list string;
  get_decoding_contrasts : Config.t -> list (string * string);
  get_fs_subjects_dir : Config.t -> result (option string);
  get_fs_subject : Config.t -> string -> option string;
  sanitize_cond_name : string -> string;
  get_noise_cov_bids_path : Cfg.t -> string -> option string -> BIDSPath;
  _update_for_splits : BIDSPath -> bool -> result BIDSPath;
  count_events : option string -> option string -> result string;
  basename : BIDSPath -> string
}.

(** ** Program state *)

Record St : Type := {
  reports : list Report;          (* every [mne.Report] object, by reference *)
  figures : list figure;          (* every figure object, by number *)
  open_figs : gset nat;           (* the figures pyplot still manages *)
  log : list log_entry;
  saved : list (BIDSPath * Report)
}.

Abbreviation M := (ES St).

Definition set_reports (f : list Report -> list Report) (s : St) : St :=
  {| reports := f (reports s); figures := figures s; open_figs := open_figs s;
     log := log s; saved := saved s |}.
Definition set_figures (f : list figure -> list figure) (s : St) : St :=
  {| reports := reports s; figures := f (figures s); open_figs := open_figs s;
     log := log s; saved := saved s |}.
Definition set_open_figs (f : gset nat -> gset nat) (s : St) : St :=
  {| reports := reports s; figures := figures s; open_figs := f (open_figs s);
     log := log s; saved := saved s |}.
Definition set_log (f : list log_entry -> list log_entry) (s : St) : St :=
  {| reports := reports s; figures := figures s; open_figs := open_figs s;
     log := f (log s); saved := saved s |}.
Definition set_saved (f : list (BIDSPath * Report) -> list (BIDSPath * Report))
  (s : St) : St :=
  {| reports := reports s; figures := figures s; open_figs := open_figs s;
     log := log s; saved := f (saved s) |}.

Definition logger_info (msg : string) : M unit :=
  modify (set_log (fun l => l ++ [{| log_level := INFO; log_message := msg |}])).
Definition logger_warning (msg : string) : M unit :=
  modify (set_log (fun l => l ++ [{| log_level := WARNING; log_message := msg |}])).

(** [mne.Report(title=...)] *)
Definition new_report (title : string) : M nat := fun s =>
  (inr (length (reports s)),
   set_reports (fun l => l ++ [{| report_title := title; report_items := [];
                                  report_css := [] |}]) s).

Definition add_item (it : item) (r : Report) : Report :=
  {| report_title := report_title r; report_items := report_items r ++ [it];
     report_css := report_css r |}.
Definition add_css (css : string) (r : Report) : Report :=
  {| report_title := report_title r; report_items := report_items r;
     report_css := report_css r ++ [css] |}.

(** A method of the report object [report] that adds one content item. *)
Definition report_add (report : nat) (c : content) (title : string)
  (section : option string) : M unit :=
  modify (set_reports (alter (add_item
    {| item_content := c; item_title := title; item_section := section |}) report)).

Definition report_add_custom_css (report : nat) (css : string) : M unit :=
  modify (set_reports (alter (add_css css) report)).

(** [report.save(fname=...)] *)
Definition report_save (report : nat) (fname : BIDSPath) : M unit := fun s =>
  match reports s !! report with
  | Some r => (inr tt, set_saved (fun l => l ++ [(fname, r)]) s)
  | None => (inl AttributeError, s)
  end.

(** A new figure registered with pyplot ([plt.subplots] and the plotting
    functions of seaborn and mne). *)
Definition new_figure (f : figure) : M nat := fun s =>
  let n := length (figures s) in
  (inr n, set_open_figs (fun o => {[n]} ∪ o) (set_figures (fun l => l ++ [f]) s)).

Definition plt_subplots : M nat := new_figure [].

(** Runs drawing calls on the axes of figure [fig]. *)
Definition with_axes {A} (fig : nat) (d : Draw A) : M A := fun s =>
  match figures s !! fig with
  | Some f => let '(r, f') := d f in (r, set_figures (<[fig := f']>) s)
  | None => (inl AttributeError, s)
  end.

Definition plt_close (fig : nat) : M unit :=
  modify (set_open_figs (fun o => o ∖ {[fig]})).

Definition plt_close_all : M unit := modify (set_open_figs (fun _ => ∅)).

(** [report.add_figure(fig=...)] renders the figures as they are now. *)
Definition report_add_figure (report : nat) (figs : list nat) (title : string)
  (section : option string) : M unit :=
  s ← gets figures;
  report_add report
    (AddFigure (omap (fun n => f ← s !! n; Some (n, f)) figs)) title section.

(** ** Plotting functions *)

Definition metric_label (metric : string) : string :=
  if String.eqb metric "roc_auc" then "ROC AUC" else metric.

Definition newline : string := String (Ascii.ascii_of_nat 10) EmptyString.
Definition dquote : string := String (Ascii.ascii_of_nat 34) EmptyString.

(** [times.min() < 0 < times.max()] *)
Definition spans_zero {S} (times : list float) : ES S bool :=
  tmin ← lift (Np.vmin times);
  tmax ← lift (Np.vmax times);
  mret (Float.lt tmin Float.zero && Float.lt Float.zero tmax).

Definition _plot_full_epochs_decoding_scores
  (contrasts : list (string * string)) (scores : list (list float))
  (metric : string) (kind_ : kind) : M nat :=
  let metric := metric_label metric in
  let score_label := "Score (" +:+ metric +:+ ")" in
  n ← match contrasts, scores with
      | [], _ => mret 0%nat
      | _ :: _, [] => raise IndexError
      | _ :: _, s0 :: _ => mret (length s0)
      end;
  let contrast_column :=
    flat_map (fun c => replicate n (fst c +:+ " ./." +:+ newline +:+ snd c))
             contrasts in
  score_column ← match scores with
                 | [] => raise (ValueError "need at least one array to concatenate")
                 | _ => mret (concat scores)
                 end;
  (if Np.same_length contrast_column score_column then mret tt
   else raise (ValueError "All arrays must be of the same length"));;
  match kind_ with
  | grand_average =>
      (* a grid of boxplots, with swarmplots on top *)
      fig ← new_figure [Catplot "box" contrast_column score_column score_label];
      with_axes fig (
        ax MapSwarmplot;;
        ax (MapAxhline Float.half);;
        ax SetTitles;;
        ax SetXlabels);;
      mret fig
  | single_subject =>
      (* a grid of swarmplots, with the mean score on top *)
      fig ← new_figure [Catplot "swarm" contrast_column score_column score_label];
      with_axes fig (
        ax MapMeanScore;;
        ax (MapAxhline Float.half);;
        ax SetTitles;;
        ax SetXlabels);;
      mret fig
  end.

Definition _label_time_by_time (decim : Z) (xlabel ylabel : option string)
  : Draw unit :=
  let extra := if 1 <? decim then " (decim=" +:+ pretty decim +:+ ")" else EmptyString in
  match xlabel with
  | Some xlabel => ax (SetXlabel (xlabel +:+ extra))
  | None => mret tt
  end;;
  match ylabel with
  | Some ylabel => ax (SetYlabel (ylabel +:+ extra))
  | None => mret tt
  end.

Definition ylim_scores : ylim :=
  YlimRange (Float.ratio (-25) 1000) (Float.ratio 1025 1000).

Definition _plot_time_by_time_decoding_scores
  (times : list float) (cross_val_scores : ndarray) (metric : string)
  (time_generalization : bool) (decim : Z) : M nat :=
  mean_scores ← lift (Np.mean0 cross_val_scores);
  max_scores ← lift (Np.max0 cross_val_scores);
  min_scores ← lift (Np.min0 cross_val_scores);
  '(mean_scores, max_scores, min_scores) ←
    (if time_generalization then
       (* Only use the diagonal values *)
       mean_scores ← lift (Np.diag mean_scores);
       max_scores ← lift (Np.diag max_scores);
       min_scores ← lift (Np.diag min_scores);
       mret (mean_scores, max_scores, min_scores)
     else mret (mean_scores, max_scores, min_scores));
  fig ← plt_subplots;
  with_axes fig (
    ax (Axhline Float.half (Some "chance"));;
    z ← spans_zero times;
    when z (ax (Axvline Float.zero));;
    ax (FillBetween times min_scores max_scores "range [min, max]");;
    ax (Plot times mean_scores (Some "mean"));;
    _label_time_by_time decim (Some "Time (s)") None;;
    ax (SetYlabel ("Score (" +:+ metric_label metric +:+ ")"));;
    ax (SetYlim ylim_scores);;
    ax (Legend "lower right"));;
  mret fig.

(** The loop over [clusters]: [n] is [n_significant_clusters_plotted]. *)
Definition highlight_cluster (threshold : float) (n : nat) (c : cluster)
  : Draw nat :=
  let cluster_times := cluster_times c in
  let cluster_p := p_value c in
  if Float.ge cluster_p threshold then mret n (* continue *)
  else
    (* Only add the label once *)
    let label := if Nat.eqb n 0 then Some threshold else None in
    x1 ← lift (match head cluster_times with Some x => inr x | None => inl IndexError end);
    x2 ← lift (match last cluster_times with Some x => inr x | None => inl IndexError end);
    ax (FillBetweenX x1 x2 label);;
    mret (S n).

Definition _plot_time_by_time_decoding_scores_gavg
  (cfg : Cfg.t) (decoding_data : GA.decoding_data) : M nat :=
  let times := GA.times decoding_data in
  let mean_scores := GA.mean decoding_data in
  se_lower ← lift (Np.elementwise Float.sub mean_scores (GA.mean_se decoding_data));
  se_upper ← lift (Np.elementwise Float.add mean_scores (GA.mean_se decoding_data));
  let ci_lower := GA.mean_ci_lower decoding_data in
  let ci_upper := GA.mean_ci_upper decoding_data in
  let decim := GA.decim decoding_data in
  '(mean_scores, se_lower, se_upper, ci_lower, ci_upper) ←
    (if Cfg.decoding_time_generalization cfg then
       (* Only use the diagonal values *)
       mean_scores ← lift (Np.diag mean_scores);
       se_lower ← lift (Np.diag se_lower);
       se_upper ← lift (Np.diag se_upper);
       ci_lower ← lift (Np.diag ci_lower);
       ci_upper ← lift (Np.diag ci_upper);
       mret (mean_scores, se_lower, se_upper, ci_lower, ci_upper)
     else mret (mean_scores, se_lower, se_upper, ci_lower, ci_upper));
  let metric := Cfg.decoding_metric cfg in
  let clusters := GA.clusters decoding_data in
  fig ← plt_subplots;
  with_axes fig (
    ax (SetYlim ylim_scores);;
    (* the significant time periods of the cluster-based permutation test *)
    for_fold clusters 0%nat
      (highlight_cluster (Cfg.cluster_permutation_p_threshold cfg));;
    ax (Axhline Float.half (Some "chance"));;
    z ← spans_zero times;
    when z (ax (Axvline Float.zero));;
    ax (FillBetween times ci_lower ci_upper "95% confidence interval");;
    ax (Plot times mean_scores (Some "mean"));;
    ax (Plot times se_lower (Some "mean ± standard error"));;
    ax (Plot times se_upper None);;
    ax (Text ("$N$=" +:+ pretty (GA.N decoding_data)));;
    _label_time_by_time decim (Some "Time (s)") None;;
    ax (SetYlabel ("Score (" +:+ metric_label metric +:+ ")"));;
    ax (Legend "lower right"));;
  mret fig.

Definition plot_time_by_time_decoding_t_values
  (decoding_data : GA.decoding_data) : M nat :=
  let all_times := GA.cluster_all_times decoding_data in
  let all_t_values := GA.cluster_all_t_values decoding_data in
  let t_threshold := GA.cluster_t_threshold decoding_data in
  let decim := GA.decim decoding_data in
  fig ← plt_subplots;
  with_axes fig (
    ax (Plot all_times (Np.Nd1 all_t_values) (Some "observed $t$-values"));;
    ax (Axhline t_threshold (Some "threshold"));;
    ax (Text ("$N$=" +:+ pretty (GA.N decoding_data)));;
    _label_time_by_time decim (Some "Time (s)") None;;
    ax (SetYlabel "$t$-value");;
    ax (Legend "lower right");;
    tmin ← lift (Np.vmin all_t_values);
    tmax ← lift (Np.vmax all_t_values);
    if Float.lt tmin Float.zero && Float.lt Float.zero tmax then
      (* center the y axis around 0 *)
      ax (SetYlim YlimSymmetric)
    else if Float.lt Float.zero tmin && Float.lt Float.zero tmax then
      (* start y axis at zero *)
      ax (SetYlim (YlimRange Float.zero tmax))
    else if Float.lt tmin Float.zero && Float.lt tmax Float.zero then
      ax (SetYlim (YlimRange tmin Float.zero))
    else mret tt);;
  mret fig.

Definition _plot_decoding_time_generalization
  (decoding_data : SS.decoding_data + GA.decoding_data) (metric : string)
  (kind_ : kind) : M nat :=
  let times := match decoding_data with
               | inl d => SS.times d | inr d => GA.times d end in
  let decim := match decoding_data with
               | inl d => SS.decim d | inr d => GA.decim d end in
  mean_scores ←
    match kind_, decoding_data with
    | single_subject, inl d =>
        (* take the mean across CV scores *)
        lift (Np.mean0 (SS.scores d))
    | single_subject, inr _ => raise (KeyError "scores")
    | grand_average, inr d => mret (GA.mean d)
    | grand_average, inl _ => raise (KeyError "mean")
    end;
  fig ← plt_subplots;
  with_axes fig (
    t_first ← lift (match head times with Some x => inr x | None => inl IndexError end);
    t_last ← lift (match last times with Some x => inr x | None => inl IndexError end);
    ax (Imshow mean_scores t_first t_last);;
    (* Indicate time point zero *)
    z ← spans_zero times;
    when z (ax (Axvline Float.zero);; ax (Axhline Float.zero None));;
    (* Indicate diagonal *)
    ax (Plot [t_first; t_last] (Np.Nd1 [t_first; t_last]) None);;
    (* Axis labels *)
    _label_time_by_time decim (Some "Testing time (s)") (Some "Training time (s)");;
    (* Color bar *)
    ax (Colorbar ("Score (" +:+ metric_label metric +:+ ")")));;
  mret fig.

(** ** The report stages *)

Section Program.

Context {W : World}.

Definition exists_ (p : path) : bool :=
  match fs p with Some _ => true | None => false end.

(** Opening a path: a missing file raises. *)
Definition read (p : path) : M artifact :=
  match fs p with
  | Some a => mret a
  | None => raise (FileNotFoundError p)
  end.

Definition bad_file {A} : M A := raise (ValueError "unexpected file content").

Definition read_raw_fif (fname : BIDSPath) : M unit :=
  a ← read (File fname);
  match a with RawFif => mret tt | _ => bad_file end.

Definition read_epochs (fname : BIDSPath) : M unit :=
  a ← read (File fname);
  match a with EpochsFif => mret tt | _ => bad_file end.

(** Returns [ica.exclude]. *)
Definition read_ica (fname : BIDSPath) : M (list nat) :=
  a ← read (File fname);
  match a with IcaFif exclude => mret exclude | _ => bad_file end.

(** Returns the descriptions [p['desc']] of the projectors. *)
Definition read_proj (fname : BIDSPath) : M (list string) :=
  a ← read (File fname);
  match a with ProjFif descs => mret descs | _ => bad_file end.

(** Returns the evokeds of the file, by position. *)
Definition read_evokeds (fname : BIDSPath) : M (list nat) :=
  a ← read (File fname);
  match a with EvokedsFif n => mret (seq 0 n) | _ => bad_file end.

Definition read_tfrs (fname : BIDSPath) : M unit :=
  a ← read (File fname);
  match a with TfrH5 => mret tt | _ => bad_file end.

(** [loadmat] followed by the keys read from a full-epochs score file. *)
Definition loadmat_full_epochs (fname : BIDSPath) : M (list float) :=
  a ← read (File fname);
  match a with
  | FullEpochsMat scores => mret scores
  | GrandAverageMat _ => raise (KeyError "scores")
  | _ => bad_file
  end.

Definition loadmat_time_by_time (fname : BIDSPath) : M SS.decoding_data :=
  a ← read (File fname);
  match a with
  | TimeByTimeMat d => mret d
  | FullEpochsMat _ | GrandAverageMat _ => raise (KeyError "times")
  | _ => bad_file
  end.

Definition loadmat_grand_average (fname : BIDSPath) : M GA.decoding_data :=
  a ← read (File fname);
  match a with
  | GrandAverageMat d => mret d
  | FullEpochsMat _ | TimeByTimeMat _ => raise (KeyError "times")
  | _ => bad_file
  end.

Definition mk_path (cfg : Cfg.t) (subject session task processing suffix
  extension : option string) : BIDSPath :=
  {| BIDS.subject := subject; BIDS.session := session; BIDS.task := task;
     BIDS.acquisition := Cfg.acq cfg; BIDS.run := None;
     BIDS.processing := processing; BIDS.recording := Cfg.rec cfg;
     BIDS.space := Cfg.space cfg; BIDS.split := None; BIDS.suffix := suffix;
     BIDS.extension := extension; BIDS.datatype := Cfg.datatype cfg;
     BIDS.root := Cfg.deriv_root cfg |}.

Definition get_events (cfg : Cfg.t) (subject : string) (session : option string)
  : M unit :=
  let raw_fname := mk_path cfg (Some subject) session (Cfg.task cfg)
                     (Some "filt") (Some "raw") (Some ".fif") in
  for_each (Cfg.runs cfg) (fun run =>
    this_raw_fname ← lift (_update_for_splits (BIDS.update_run run raw_fname) false);
    read_raw_fif this_raw_fname).

Definition get_er_path (cfg : Cfg.t) (subject : string) (session : option string)
  : M BIDSPath :=
  let raw_fname := mk_path cfg (Some subject) session (Some "noise")
                     (Some "filt") (Some "raw") (Some ".fif") in
  lift (_update_for_splits raw_fname true).

(** Plot automated bad channel detection scores. *)
Definition plot_auto_scores_ (cfg : Cfg.t) (subject : string)
  (session : option string) : M (list nat) :=
  let fname_scores := mk_path cfg (Some subject) session (Cfg.task cfg)
                        (Cfg.proc cfg) (Some "scores") (Some ".json") in
  figs ← for_collect (Cfg.runs cfg) (fun run =>
    auto_scores ← read (File (BIDS.update_run run fname_scores));
    match auto_scores with
    | AutoScoresJson n =>
        (* Could be more than 1 fig, e.g. "grad" and "mag" *)
        for_collect (seq 0 n) (fun _ => new_figure [External "plot_auto_scores"])
    | _ => bad_file
    end);
  let all_figs := concat figs in
  match all_figs with
  | [] => raise AssertionError
  | _ => mret all_figs
  end.

Definition report_title_of (cfg : Cfg.t) (subject : string)
  (session : option string) : string :=
  let title := "sub-" +:+ subject in
  let title := match session with
               | Some session => title +:+ ", ses-" +:+ session
               | None => title end in
  match Cfg.task cfg with
  | Some task => title +:+ ", task-" +:+ task
  | None => title
  end.

Definition _gen_empty_report (cfg : Cfg.t) (subject : string)
  (session : option string) : M nat :=
  new_report (report_title_of cfg subject session).

Definition upper (s : string) : string :=
  let up (c : Ascii.ascii) :=
    let n := Ascii.nat_of_ascii c in
    if (Nat.leb 97 n && Nat.leb n 122)%bool then Ascii.ascii_of_nat (n - 32) else c in
  string_of_list_ascii (map up (list_ascii_of_string s)).

(** [needle in haystack] on strings *)
Definition contains (needle haystack : string) : bool :=
  match String.index 0 needle haystack with Some _ => true | None => false end.

Definition mem (x : string) (l : list string) : bool :=
  bool_decide (x ∈ l).

(** [condition in cfg.conditions] *)
Definition in_conditions (cfg : Cfg.t) (condition : string) : M bool :=
  match Cfg.conditions cfg with
  | Some conditions => mret (mem condition conditions)
  | None => raise TypeError
  end.

Definition run_report_preprocessing (cfg : Cfg.t) (subject : string)
  (session : option string) (report : option nat) : M nat :=
  logger_info "Generating preprocessing report …";;
  report ← match report with
           | None => _gen_empty_report cfg subject session
           | Some report => mret report
           end;
  let bids_path := mk_path cfg (Some subject) session (Cfg.task cfg)
                     None None (Some ".fif") in
  fnames_raw_filt ← for_collect (Cfg.runs cfg) (fun run =>
    let fname := BIDS.update_suffix (Some "raw")
                   (BIDS.update_processing (Some "filt")
                      (BIDS.update_run run bids_path)) in
    lift (_update_for_splits fname false));
  let fname_epo_not_clean := BIDS.update_suffix (Some "epo") bids_path in
  let fname_epo_clean :=
    BIDS.update_suffix (Some "epo") (BIDS.update_processing (Some "clean") bids_path) in
  let fname_ica := BIDS.update_suffix (Some "ica") bids_path in
  let fname_ssp := BIDS.update_suffix (Some "proj") bids_path in
  let fname_eog_epochs := BIDS.update_suffix (Some "eog-epo") bids_path in
  let fname_ecg_epochs := BIDS.update_suffix (Some "ecg-epo") bids_path in
  for_each fnames_raw_filt (fun fname =>
    logger_info "Adding filtered raw data to report.";;
    let title := match BIDS.run fname with
                 | Some run => "Raw" +:+ ", run " +:+ run
                 | None => "Raw" end in
    read_raw_fif fname;;
    report_add report (AddRaw fname) title None);;
  er_path ← get_er_path cfg subject session;
  when (exists_ (File er_path)) (
    logger_info "Adding filtered empty-room raw data to report.";;
    read_raw_fif er_path;;
    report_add report (AddRaw er_path) "Empty-Room" None);;
  (* Visualize automated noisy channel detection. *)
  when (Cfg.find_noisy_channels_meg cfg) (
    logger_info "Adding visualization of noisy channel detection to report.";;
    figs ← plot_auto_scores_ cfg subject session;
    report_add_figure report figs "Data Quality" None;;
    for_each figs plt_close);;
  (* Visualize events. *)
  when (negb (Cfg.task_is_rest cfg)) (
    logger_info "Adding events plot to report.";;
    get_events cfg subject session;;
    report_add report AddEvents "Events" None);;
  (* Visualize uncleaned epochs. *)
  logger_info "Adding uncleaned epochs to report.";;
  read_epochs fname_epo_not_clean;;
  report_add report AddEpochs "Epochs (before cleaning)" None;;
  (* Visualize effect of ICA artifact rejection. *)
  when (bool_decide (Cfg.spatial_filter cfg = Some "ica")) (
    logger_info "Adding ICA to report.";;
    read_epochs fname_epo_not_clean;;
    exclude ← read_ica fname_ica;
    match exclude with
    | [] => mret tt
    | _ => report_add report AddIca "ICA" None
    end);;
  (* Visualize effect of SSP artifact rejection. *)
  when (bool_decide (Cfg.spatial_filter cfg = Some "ssp")) (
    for_each [("ecg", fname_ecg_epochs); ("eog", fname_eog_epochs)]
      (fun '(kind_, fname) =>
        if negb (exists_ (File fname)) then mret tt (* continue *)
        else
          logger_info ("Adding " +:+ upper kind_ +:+ " SSP to report.");;
          read_epochs fname;;
          projs ← read_proj fname_ssp;
          let projs := filter (fun desc => contains (upper kind_) desc = true) projs in
          match projs with
          | [] => raise AssertionError (* should exist if the epochs do *)
          | _ =>
              fig ← new_figure [External "plot_projs_joint"];
              report_add_figure report [fig] ("SSP: " +:+ upper kind_) None;;
              plt_close fig
          end));;
  (* Visualize cleaned epochs. *)
  logger_info "Adding cleaned epochs to report.";;
  read_epochs fname_epo_clean;;
  report_add report AddEpochs "Epochs (after cleaning)" None;;
  mret report.

(** [cfg.conditions] as a list, followed by the names of all contrasts, as
    the subject-level stages build it ([None] counts as no condition). *)
Definition conditions_and_contrasts (cfg : Cfg.t) : list string :=
  let conditions := match Cfg.conditions cfg with
                    | None => []
                    | Some conditions => conditions
                    end in
  conditions ++ Cfg.all_contrasts cfg.

Definition replace_char (a b : Ascii.ascii) (s : string) : string :=
  string_of_list_ascii
    (map (fun c => if Ascii.eqb c a then b else c) (list_ascii_of_string s)).

Definition remove_char (a : Ascii.ascii) (s : string) : string :=
  string_of_list_ascii
    (filter (fun c => c ≠ a) (list_ascii_of_string s)).

(** The [processing] entity of the score file of a contrast:
    [f'{a_vs_b}+{analysis}+{cfg.decoding_metric}'] with [_] turned into [-]
    and every [-] removed, where [a_vs_b] has lost its path separators. *)
Definition decoding_processing (cfg : Cfg.t) (contrast : string * string)
  (analysis : string) : string :=
  let '(cond_1, cond_2) := contrast in
  let a_vs_b := remove_char "/"%char (cond_1 +:+ "+" +:+ cond_2) in
  let processing := a_vs_b +:+ "+" +:+ analysis +:+ "+" +:+ Cfg.decoding_metric cfg in
  remove_char "-"%char (replace_char "_"%char "-"%char processing).

Definition fname_decoding (cfg : Cfg.t) (bids_path : BIDSPath)
  (contrast : string * string) (analysis : string) : BIDSPath :=
  BIDS.update_extension (Some ".mat")
    (BIDS.update_suffix (Some "decoding")
       (BIDS.update_processing (Some (decoding_processing cfg contrast analysis))
          bids_path)).

(** [cfg.decode and cfg.decoding_contrasts] *)
Definition decoding_requested (cfg : Cfg.t) : bool :=
  Cfg.decode cfg && match Cfg.decoding_contrasts cfg with [] => false | _ => true end.

Definition run_report_sensor (cfg : Cfg.t) (subject : string)
  (session : option string) (report : option nat) : M nat :=
  logger_info "Generating sensor-space analysis report …";;
  report ← match report with
           | None => _gen_empty_report cfg subject session
           | Some report => mret report
           end;
  let bids_path := mk_path cfg (Some subject) session (Cfg.task cfg)
                     None None (Some ".fif") in
  let fname_epo_clean :=
    BIDS.update_suffix (Some "epo") (BIDS.update_processing (Some "clean") bids_path) in
  let fname_ave := BIDS.update_suffix (Some "ave") bids_path in
  let fname_tfr_pow (cond : string) :=
    BIDS.update_extension (Some ".h5")
      (BIDS.update_suffix (Some ("power+" +:+ cond +:+ "+tfr")) bids_path) in
  let fname_tfr_itc (cond : string) :=
    BIDS.update_extension (Some ".h5")
      (BIDS.update_suffix (Some ("itc+" +:+ cond +:+ "+tfr")) bids_path) in
  let fname_noise_cov := get_noise_cov_bids_path cfg subject session in
  (* Visualize evoked responses. *)
  let conditions := conditions_and_contrasts cfg in
  evokeds ← match conditions with
            | [] => mret []
            | _ => read_evokeds fname_ave
            end;
  logger_info (match evokeds with
               | [] => "No evoked conditions or contrasts found."
               | _ => "Adding " +:+ pretty (length conditions) +:+
                      " evoked signals and contrasts to the report."
               end);;
  (if exists_ (File fname_noise_cov) then
     logger_info ("Reading noise covariance: " +:+ basename fname_noise_cov)
   else
     logger_info "No noise covariance matrix found, not rendering whitened data");;
  for_each (zip conditions evokeds) (fun '(condition, evoked) =>
    is_condition ← in_conditions cfg condition;
    let title := if is_condition : bool then "Condition: " +:+ condition
                 else (* It's a contrast of two conditions. *)
                   "Contrast: " +:+ condition in
    report_add report (AddEvokeds evoked) title None);;
  (* Visualize full-epochs decoding results. *)
  when (decoding_requested cfg) (
    logger_info "Adding full-epochs decoding results to the report.";;
    all_decoding_scores ← for_collect (Cfg.decoding_contrasts cfg) (fun contrast =>
      loadmat_full_epochs (fname_decoding cfg bids_path contrast "FullEpochs"));
    fig ← _plot_full_epochs_decoding_scores (Cfg.decoding_contrasts cfg)
            all_decoding_scores (Cfg.decoding_metric cfg) single_subject;
    report_add_figure report [fig] "Full-epochs Decoding" None;;
    (* close figure to save memory *)
    plt_close fig);;
  (* Visualize time-by-time decoding results. *)
  when (decoding_requested cfg) (
    logger_info "Adding time-by-time decoding results to the report.";;
    read_epochs fname_epo_clean;;
    for_each (Cfg.decoding_contrasts cfg) (fun contrast =>
      let '(cond_1, cond_2) := contrast in
      let section := "Time-by-time decoding: " +:+ cond_1 +:+ " ./. " +:+ cond_2 in
      decoding_data ← loadmat_time_by_time
                        (fname_decoding cfg bids_path contrast "TimeByTime");
      fig ← _plot_time_by_time_decoding_scores
              (SS.times decoding_data) (SS.scores decoding_data)
              (Cfg.decoding_metric cfg) (Cfg.decoding_time_generalization cfg)
              (SS.decim decoding_data);
      report_add_figure report [fig] "Decoding performance over time" (Some section);;
      plt_close fig;;
      when (Cfg.decoding_time_generalization cfg) (
        fig ← _plot_decoding_time_generalization (inl decoding_data)
                (Cfg.decoding_metric cfg) single_subject;
        report_add_figure report [fig] "Time generalization" (Some section);;
        plt_close fig)));;
  (* Visualize TFR as topography. *)
  let conditions := match Cfg.time_frequency_conditions cfg with
                    | None => []
                    | Some conditions => conditions
                    end in
  when (match conditions with [] => false | _ => true end)
    (logger_info "Adding TFR analysis results to the report.");;
  for_each conditions (fun condition =>
    let cond := sanitize_cond_name condition in
    read_tfrs (fname_tfr_pow cond);;
    fig_power ← new_figure [External "power.plot_topo"];
    report_add_figure report [fig_power] ("TFR Power: " +:+ condition) None;;
    plt_close fig_power;;
    read_tfrs (fname_tfr_itc cond);;
    fig_itc ← new_figure [External "itc.plot_topo"];
    report_add_figure report [fig_itc] ("TFR ITC: " +:+ condition) None;;
    plt_close fig_power);;
  mret report.

Definition run_report_source (cfg : Cfg.t) (subject : string)
  (session : option string) (report : option nat) : M nat :=
  logger_info "Generating source-space analysis report …";;
  report ← match report with
           | None => _gen_empty_report cfg subject session
           | Some report => mret report
           end;
  let bids_path := mk_path cfg (Some subject) session (Cfg.task cfg)
                     None None (Some ".fif") in
  (* Use this as a source for the Info dictionary *)
  let fname_info :=
    BIDS.update_suffix (Some "epo") (BIDS.update_processing (Some "clean") bids_path) in
  let fname_trans := BIDS.update_suffix (Some "trans") bids_path in
  if negb (exists_ (File fname_trans)) then
    logger_info "No coregistration found, skipping source space report.";;
    mret report
  else
    let fname_noise_cov := get_noise_cov_bids_path cfg subject session in
    (* Visualize coregistration, noise covariance matrix, & inverse
       solutions. *)
    let conditions := conditions_and_contrasts cfg in
    logger_info "Rendering MRI slices with BEM contours.";;
    report_add report AddBem "BEM" None;;
    logger_info "Rendering sensor alignment (coregistration).";;
    read (File fname_trans);;
    read (File fname_info);;
    report_add report (AddTrans fname_trans) "Sensor alignment" None;;
    logger_info "Rendering noise covariance matrix and corresponding SVD.";;
    read (File fname_noise_cov);;
    read (File fname_info);;
    report_add report (AddCovariance fname_noise_cov) "Noise covariance" None;;
    for_each conditions (fun condition =>
      logger_info ("Rendering inverse solution for " +:+ condition);;
      is_condition ← in_conditions cfg condition;
      if negb (is_condition : bool) then
        (* It's a contrast of two conditions. *)
        mret tt (* continue *)
      else
        let title := "Source: " +:+ sanitize_cond_name condition in
        let method := Cfg.inverse_method cfg in
        let cond_str := sanitize_cond_name condition in
        let inverse_str := method in
        let hemi_str := "hemi" in (* MNE will auto-append '-lh' and '-rh'. *)
        let fname_stc :=
          BIDS.update_extension None
            (BIDS.update_suffix
               (Some (cond_str +:+ "+" +:+ inverse_str +:+ "+" +:+ hemi_str))
               bids_path) in
        when (exists_ (StcLh fname_stc))
          (report_add report (AddStc fname_stc) title None));;
    plt_close_all;; (* close all figures to save memory *)
    mret report.

(** Add system information and the pipeline configuration to the report. *)
Definition add_system_info (report : nat) : M unit :=
  config_path ← match environ "MNE_BIDS_STUDY_CONFIG" with
                | Some p => mret p
                | None => raise (KeyError "MNE_BIDS_STUDY_CONFIG")
                end;
  read (OsPath config_path);;
  report_add report (AddCode config_path) "Configuration file" None;;
  report_add report AddSysInfo "System information" None.

Definition run_report (cfg : Cfg.t) (subject : string)
  (session : option string) : M unit :=
  report ← _gen_empty_report cfg subject session;
  (* kwargs = dict(cfg=cfg, subject=subject, session=session, report=report):
     every stage is handed the object created above *)
  let kwargs_report := Some report in
  report ← run_report_preprocessing cfg subject session kwargs_report;
  report ← run_report_sensor cfg subject session kwargs_report;
  report ← run_report_source cfg subject session kwargs_report;
  (* Add configuration and system info. *)
  add_system_info report;;
  (* Save the report. *)
  let bids_path := mk_path cfg (Some subject) session (Cfg.task cfg)
                     None None (Some ".fif") in
  let fname_report :=
    BIDS.update_extension (Some ".html") (BIDS.update_suffix (Some "report") bids_path) in
  report_save report fname_report.

(** ** The grand-average report *)

Definition event_counts_css : string :=
  ".event-counts {" +:+ newline +:+
  "  display: -webkit-box;" +:+ newline +:+
  "  display: -ms-flexbox;" +:+ newline +:+
  "  display: -webkit-flex;" +:+ newline +:+
  "  display: flex;" +:+ newline +:+
  "  justify-content: center;" +:+ newline +:+
  "  text-align: center;" +:+ newline +:+
  "}" +:+ newline +:+ newline +:+
  "th, td {" +:+ newline +:+
  "  text-align: center;" +:+ newline +:+
  "}" +:+ newline.

Definition add_event_counts (cfg : Cfg.t) (session : option string)
  (report : nat) : M unit :=
  df_events ← match count_events (Cfg.bids_root cfg) session with
              | inr df_events => mret (Some df_events)
              | inl (ValueError _) =>
                  logger_warning "Could not read events.";;
                  mret None
              | inl e => raise e
              end;
  match df_events with
  | Some df_events =>
      report_add report (AddHtml df_events) "Event counts" None;;
      report_add_custom_css report event_counts_css
  | None => mret tt
  end.

(** Add decoding results to the grand average report. *)
Definition add_decoding_grand_average (session : option string) (cfg : Cfg.t)
  (report : nat) : M unit :=
  let bids_path := mk_path cfg (Some "average") session (Cfg.task cfg)
                     None (Some "ave") (Some ".fif") in
  (* Full-epochs decoding *)
  all_decoding_scores ← for_collect (Cfg.decoding_contrasts cfg) (fun contrast =>
    loadmat_full_epochs (fname_decoding cfg bids_path contrast "FullEpochs"));
  fig ← _plot_full_epochs_decoding_scores (Cfg.decoding_contrasts cfg)
          all_decoding_scores (Cfg.decoding_metric cfg) grand_average;
  report_add_figure report [fig] "Full-epochs Decoding" None;;
  (* close figure to save memory *)
  plt_close fig;;
  (* Time-by-time decoding *)
  for_each (Cfg.decoding_contrasts cfg) (fun contrast =>
    let '(cond_1, cond_2) := contrast in
    let section := "Time-by-time decoding: " +:+ cond_1 +:+ " ./. " +:+ cond_2 in
    decoding_data ← loadmat_grand_average
                      (fname_decoding cfg bids_path contrast "TimeByTime");
    (* Plot scores *)
    fig ← _plot_time_by_time_decoding_scores_gavg cfg decoding_data;
    when (Nat.ltb 1 (length (get_subjects (OfCfg cfg)))) (
      report_add_figure report [fig] "Decoding performance over time" (Some section);;
      plt_close fig);;
    (* Plot t-values used to form clusters *)
    when (Nat.ltb 1 (length (get_subjects (OfCfg cfg)))) (
      fig ← plot_time_by_time_decoding_t_values decoding_data;
      report_add_figure report [fig] "t-values based on decoding scores over time"
        (Some section);;
      plt_close fig);;
    when (Cfg.decoding_time_generalization cfg) (
      fig ← _plot_decoding_time_generalization (inr decoding_data)
              (Cfg.decoding_metric cfg) grand_average;
      report_add_figure report [fig] "Time generalization" (Some section);;
      plt_close fig)).

Definition run_report_average (cfg : Cfg.t) (subject : string)
  (session : option string) : M unit :=
  (* Group report *)
  logger_info "Generating grand average report …";;
  let evoked_fname := mk_path cfg (Some subject) session (Cfg.task cfg)
                        None (Some "ave") (Some ".fif") in
  report ← new_report (report_title_of cfg subject session);
  evokeds ← read_evokeds evoked_fname;
  let method := Cfg.inverse_method cfg in
  let inverse_str := method in
  let hemi_str := "hemi" in (* MNE will auto-append '-lh' and '-rh'. *)
  let morph_str := "morph2fsaverage" in
  conditions ← match Cfg.conditions cfg with
               | Some conditions => mret (conditions ++ Cfg.all_contrasts cfg)
               | None => raise AttributeError
               end;
  (* Add event stats. *)
  add_event_counts cfg session report;;
  (* Visualize evoked responses. *)
  for_each (zip conditions evokeds) (fun '(condition, evoked) =>
    is_condition ← in_conditions cfg condition;
    if negb (is_condition : bool) then
      (* It's a contrast of two conditions. *)
      mret tt (* continue *)
    else
      report_add report (AddEvokeds evoked) ("Average: " +:+ condition) None);;
  (* Visualize decoding results. *)
  when (decoding_requested cfg)
    (add_decoding_grand_average session cfg report);;
  (* Visualize forward solution, inverse operator, and inverse solutions. *)
  for_each (zip conditions evokeds) (fun '(condition, evoked) =>
    is_condition ← in_conditions cfg condition;
    let title := if is_condition : bool then "Average: " +:+ condition
                 else (* It's a contrast of two conditions. *)
                   "Average contrast: " +:+ condition in
    let cond_str := sanitize_cond_name condition in
    let fname_stc_avg :=
      BIDS.update_extension None
        (BIDS.update_suffix
           (Some (cond_str +:+ "+" +:+ inverse_str +:+ "+" +:+ morph_str +:+
                  "+" +:+ hemi_str))
           evoked_fname) in
    when (exists_ (StcLh fname_stc_avg))
      (report_add report (AddStc fname_stc_avg) title None));;
  (* Add configuration and system info. *)
  add_system_info report;;
  (* Save the report. *)
  let fname_report :=
    BIDS.update_extension (Some ".html")
      (BIDS.update_suffix (Some "report")
         (BIDS.update_task (Cfg.task cfg) evoked_fname)) in
  report_save report fname_report;;
  plt_close_all.

(** ** Configuration and entry point *)

Definition get_config (config : Config.t) (subject : string) : result Cfg.t :=
  match
    match get_fs_subjects_dir config with
    | inr fs_subjects_dir => inr (fs_subjects_dir, get_fs_subject config subject)
    | inl (ValueError _) => inr (None, None)
    | inl e => inl e
    end
  with
  | inl e => inl e
  | inr (fs_subjects_dir, fs_subject) =>
      inr {|
        Cfg.task := get_task config;
        Cfg.task_is_rest := Config.task_is_rest config;
        Cfg.runs := get_runs config subject;
        Cfg.datatype := get_datatype config;
        Cfg.acq := Config.acq config;
        Cfg.rec := Config.rec config;
        Cfg.space := Config.space config;
        Cfg.proc := Config.proc config;
        Cfg.find_noisy_channels_meg := Config.find_noisy_channels_meg config;
        Cfg.spatial_filter := Config.spatial_filter config;
        Cfg.conditions := Config.conditions config;
        Cfg.all_contrasts := get_all_contrasts config;
        Cfg.decoding_contrasts := get_decoding_contrasts config;
        Cfg.ch_types := Config.ch_types config;
        Cfg.time_frequency_conditions := Config.time_frequency_conditions config;
        Cfg.decode := Config.decode config;
        Cfg.decoding_metric := Config.decoding_metric config;
        Cfg.decoding_time_generalization := Config.decoding_time_generalization config;
        Cfg.n_boot := Config.n_boot config;
        Cfg.cluster_permutation_p_threshold :=
          Config.cluster_permutation_p_threshold config;
        Cfg.inverse_method := Config.inverse_method config;
        Cfg.fs_subject := fs_subject;
        Cfg.fs_subjects_dir := fs_subjects_dir;
        Cfg.deriv_root := get_deriv_root config;
        Cfg.bids_root := get_bids_root config;
        Cfg.interactive := Config.interactive config;
        Cfg.subjects := Config.subjects config;
        Cfg.exclude_subjects := Config.exclude_subjects config
      |}
  end.

(** Modelled from the spec: the decorator [failsafe_run] of [_run.py], which
    wraps [run_report] and [run_report_average] and is not part of this
    module.  "Each task's failure is caught and recorded independently ... so
    that other tasks proceed to completion": the exception of the task is
    caught and logged, and the wrapper returns whether the task succeeded. *)
Definition failsafe_run (task : M unit) : M bool := fun s =>
  match task s with
  | (inr _, s') => (inr true, s')
  | (inl _, s') =>
      (inr false,
       set_log (fun l => l ++ [{| log_level := CRITICAL;
                                  log_message := "A critical error occured." |}]) s')
  end.

(** The subject-level tasks handed to [parallel]: one run of [run_report]
    per pair of [itertools.product(get_subjects(config),
    get_sessions(config))].  The tasks share no state besides the artifact
    store, so they are run one after the other. *)
Definition parallel_run_report (config : Config.t) : M (list bool) :=
  for_collect
    (list_prod (get_subjects (OfConfig config)) (get_sessions config))
    (fun '(subject, session) =>
       cfg ← lift (get_config config subject);
       failsafe_run (run_report cfg subject session)).

(** Make reports. *)
Definition main (config : Config.t) : M unit :=
  logs ← parallel_run_report config;
  (* save_logs(config=config, logs=logs) *)
  let sessions := get_sessions config in
  if Config.task_is_rest config then
    logger_info ("    … skipping " +:+ dquote +:+ "average" +:+ dquote +:+
                 " report for " +:+ dquote +:+ "rest" +:+ dquote +:+ " task.")
    (* return *)
  else
    for_each sessions (fun session =>
      cfg ← lift (get_config config "average");
      failsafe_run (run_report_average cfg "average" session);;
      mret tt).

End Program.

(** * Vocabulary of the properties *)

(** ** Figures *)

(** The spans [x1, x2] shaded by [fill_betweenx] in a figure. *)
Definition highlights (f : figure) : list (float * float) :=
  omap (fun c => match c with
                 | FillBetweenX x1 x2 _ => Some (x1, x2)
                 | _ => None
                 end) f.

(** [(cluster_times[0], cluster_times[-1])] *)
Definition cluster_span (c : cluster) : option (float * float) :=
  match head (cluster_times c), last (cluster_times c) with
  | Some x1, Some x2 => Some (x1, x2)
  | _, _ => None
  end.

(** The test the loop applies: the cluster is not skipped. *)
Definition not_skipped (threshold : float) (c : cluster) : bool :=
  negb (Float.ge (p_value c) threshold).

(** The curves drawn from score arrays in a figure. *)
Definition is_curve (c : cmd) : bool :=
  match c with
  | Plot _ _ _ | FillBetween _ _ _ _ => true
  | _ => false
  end.

Definition curves (f : figure) : figure := List.filter is_curve f.

(** Keeps an array, or takes its diagonal when time generalization is on. *)
Definition on_diagonal (time_generalization : bool) (a : ndarray) : result ndarray :=
  if time_generalization then Np.diag a else inr a.

Definition label_time (decim : Z) : figure :=
  [SetXlabel ("Time (s)" +:+
     (if 1 <? decim then " (decim=" +:+ pretty decim +:+ ")" else EmptyString))].

(** The calls [_plot_time_by_time_decoding_scores_gavg] makes after the
    cluster loop, for the curves it plots. *)
Definition gavg_curves_cmds (cfg : Cfg.t) (d : GA.decoding_data) (z : bool)
  (mean_scores se_lower se_upper ci_lower ci_upper : ndarray) : figure :=
  [Axhline Float.half (Some "chance")] ++
  (if z then [Axvline Float.zero] else []) ++
  [FillBetween (GA.times d) ci_lower ci_upper "95% confidence interval";
   Plot (GA.times d) mean_scores (Some "mean");
   Plot (GA.times d) se_lower (Some "mean ± standard error");
   Plot (GA.times d) se_upper None;
   Text ("$N$=" +:+ pretty (GA.N d))] ++
  label_time (GA.decim d) ++
  [SetYlabel ("Score (" +:+ metric_label (Cfg.decoding_metric cfg) +:+ ")");
   Legend "lower right"].

Definition subject_curves_cmds (times : list float) (metric : string) (decim : Z)
  (z : bool) (mean_scores max_scores min_scores : ndarray) : figure :=
  [Axhline Float.half (Some "chance")] ++
  (if z then [Axvline Float.zero] else []) ++
  [FillBetween times min_scores max_scores "range [min, max]";
   Plot times mean_scores (Some "mean")] ++
  label_time decim ++
  [SetYlabel ("Score (" +:+ metric_label metric +:+ ")");
   SetYlim ylim_scores;
   Legend "lower right"].

(** A figure that shows the mean score curve and no other curve. *)
Definition mean_only (f : figure) : Prop :=
  exists x y, curves f = [Plot x y (Some "mean")].

(** [plot_time_by_time_decoding_t_values] is the one function that labels
    the y axis of a figure with [$t$-value]. *)
Definition t_value_label : cmd := SetYlabel "$t$-value".

Definition is_t_value_figure (f : figure) : Prop := t_value_label ∈ f.

(** ** Relations between the states of a run *)

(** Every outcome of [m], an exception included, leaves the state related
    by [R] to the one it started from. *)
Definition preserves {S A} (R : S -> S -> Prop) (m : ES S A) : Prop :=
  forall s r s', m s = (r, s') -> R s s'.

Definition same_saved (s s' : St) : Prop := saved s' = saved s.

(** Every report object of [s] is still there in [s'], with the same title
    and with the items it had, in front of whatever has been added. *)
Definition report_grows (s s' : St) : Prop :=
  forall r rep,
    reports s !! r = Some rep ->
    exists rep',
      reports s' !! r = Some rep' /\
      report_title rep' = report_title rep /\
      report_items rep `prefix_of` report_items rep'.

Definition no_t_value_label (f f' : figure) : Prop :=
  is_t_value_figure f' -> is_t_value_figure f.

Definition no_new_t_value_figure (s s' : St) : Prop :=
  forall i f',
    figures s' !! i = Some f' -> is_t_value_figure f' ->
    exists f, figures s !! i = Some f /\ is_t_value_figure f.

(** A figure that shows an outcome of the cluster permutation test: the
    curve of t-values, or a shaded cluster. *)
Definition shows_cluster_test (f : figure) : Prop :=
  is_t_value_figure f \/ highlights f <> [].

Definition no_cluster_test_drawn (f f' : figure) : Prop :=
  shows_cluster_test f' -> shows_cluster_test f.

Definition no_new_cluster_test_figure (s s' : St) : Prop :=
  forall i f',
    figures s' !! i = Some f' -> shows_cluster_test f' ->
    exists f, figures s !! i = Some f /\ shows_cluster_test f.

Definition yields {S A} (m : ES S A) (v : A) : Prop :=
  forall s a s', m s = (inr a, s') -> a = v.

(** ** Outcomes of a run *)

Definition always_raises {A} (m : M A) : Prop := forall s, is_raise (m s).

Definition saves_only_on_return {A} (m : M A) : Prop :=
  forall s e s', m s = (inl e, s') -> saved s' = saved s.

Definition never_raises {A} (m : M A) : Prop :=
  forall s, exists a s', m s = (inr a, s').

(** ** Files and report items *)

(** The score files [add_decoding_grand_average] loads for a contrast. *)
Definition grand_average_score_file (cfg : Cfg.t) (session : option string)
  (contrast : string * string) (analysis : string) : path :=
  File (fname_decoding cfg
          (mk_path cfg (Some "average") session (Cfg.task cfg) None (Some "ave")
             (Some ".fif"))
          contrast analysis).

(** The file [run_report] saves the report of a subject and session to. *)
Definition fname_report (cfg : Cfg.t) (subject : string) (session : option string)
  : BIDSPath :=
  BIDS.update_extension (Some ".html")
    (BIDS.update_suffix (Some "report")
       (mk_path cfg (Some subject) session (Cfg.task cfg) None None (Some ".fif"))).

Definition fname_trans (cfg : Cfg.t) (subject : string) (session : option string)
  : BIDSPath :=
  BIDS.update_suffix (Some "trans")
    (mk_path cfg (Some subject) session (Cfg.task cfg) None None (Some ".fif")).

(** What [add_system_info] appends to a report. *)
Definition configuration_item (config_path : string) : item :=
  {| item_content := AddCode config_path; item_title := "Configuration file";
     item_section := None |}.

Definition system_information_item : item :=
  {| item_content := AddSysInfo; item_title := "System information";
     item_section := None |}.

Definition finalized (config_path : string) (rep : Report) : Report :=
  add_item system_information_item (add_item (configuration_item config_path) rep).

Definition info (msg : string) : log_entry :=
  {| log_level := INFO; log_message := msg |}.

Definition skip_message : string :=
  "    … skipping " +:+ dquote +:+ "average" +:+ dquote +:+
  " report for " +:+ dquote +:+ "rest" +:+ dquote +:+ " task.".

(** ** Properties that depend on the artifact store *)

Section Vocabulary.

Context {W : World}.

Definition score_file_missing (cfg : Cfg.t) (session : option string) : Prop :=
  exists contrast analysis,
    contrast ∈ Cfg.decoding_contrasts cfg /\
    (analysis = "FullEpochs" \/ analysis = "TimeByTime") /\
    fs (grand_average_score_file cfg session contrast analysis) = None.

(** The exception of opening a file that is not in the artifact store. *)
Definition missing_artifact_error (e : exn) : Prop :=
  exists p, e = FileNotFoundError p /\ fs p = None.

Definition raises_only_missing {A} (m : M A) : Prop :=
  forall s e s', m s = (inl e, s') -> missing_artifact_error e.

(** The inputs of the grand-average phase are well formed: the condition
    list is set, counting the events gives a table or a [ValueError], and
    the files that are present hold what the phase reads from them, namely
    evoked responses, full-epochs scores that can be plotted together, and
    grand-average statistics that can be plotted. *)
Definition grand_average_inputs_ok (cfg : Cfg.t) (subject : string)
  (session : option string) : Prop :=
  Cfg.conditions cfg <> None /\
  (forall e, count_events (Cfg.bids_root cfg) session = inl e ->
             exists msg, e = ValueError msg) /\
  (forall a,
     fs (File (mk_path cfg (Some subject) session (Cfg.task cfg) None (Some "ave")
                 (Some ".fif"))) = Some a ->
     exists n, a = EvokedsFif n) /\
  (forall contrast a,
     contrast ∈ Cfg.decoding_contrasts cfg ->
     fs (grand_average_score_file cfg session contrast "FullEpochs") = Some a ->
     exists scores, a = FullEpochsMat scores) /\
  (forall all_scores,
     Forall2 (fun contrast scores =>
                fs (grand_average_score_file cfg session contrast "FullEpochs")
                = Some (FullEpochsMat scores))
             (Cfg.decoding_contrasts cfg) all_scores ->
     never_raises (_plot_full_epochs_decoding_scores (Cfg.decoding_contrasts cfg)
                     all_scores (Cfg.decoding_metric cfg) grand_average)) /\
  (forall contrast a,
     contrast ∈ Cfg.decoding_contrasts cfg ->
     fs (grand_average_score_file cfg session contrast "TimeByTime") = Some a ->
     exists d,
       a = GrandAverageMat d /\
       never_raises (_plot_time_by_time_decoding_scores_gavg cfg d) /\
       never_raises (plot_time_by_time_decoding_t_values d) /\
       never_raises (_plot_decoding_time_generalization (inr d)
                       (Cfg.decoding_metric cfg) grand_average)).

(** C1 as stated: when [add_decoding_grand_average] returns, the report
    holds, for every contrast, a figure of the decoding performance over
    time, and that figure is mean-only. *)
Definition renders_mean_only_section (session : option string) (cfg : Cfg.t)
  (report : nat) (s : St) : Prop :=
  forall s',
    add_decoding_grand_average session cfg report s = (inr tt, s') ->
    forall contrast, contrast ∈ Cfg.decoding_contrasts cfg ->
    exists rep it fig f,
      reports s' !! report = Some rep /\
      it ∈ report_items rep /\
      item_title it = "Decoding performance over time" /\
      item_content it = AddFigure [(fig, f)] /\
      mean_only f.

(** No time-by-time score file of the grand average holds a cluster: the
    cluster permutation test has not been run on the scores. *)
Definition stores_no_clusters (cfg : Cfg.t) (session : option string) : Prop :=
  forall contrast d,
    contrast ∈ Cfg.decoding_contrasts cfg ->
    fs (grand_average_score_file cfg session contrast "TimeByTime")
    = Some (GrandAverageMat d) ->
    GA.clusters d = [].

(** C4 as stated: [add_decoding_grand_average] produces no figure of
    t-values and shades no cluster in any figure it makes. *)
Definition no_cluster_assessment (session : option string) (cfg : Cfg.t)
  (report : nat) (s : St) : Prop :=
  forall r s',
    add_decoding_grand_average session cfg report s = (r, s') ->
    forall i f,
      figures s' !! i = Some f -> (length (figures s) <= i)%nat ->
      ~ is_t_value_figure f /\ highlights f = [].

End Vocabulary.

(** * Concrete configurations and artifact stores *)

Module Scenario.

Definition fz (z : Z) : float := Float.of_Z z.

Definition tenths (z : Z) : float := Float.ratio z 10.

(** Configurations after the [eeg_matchingpennies] test: one session-less
    recording per subject, one run, one contrast. *)
Definition pennies (decode time_generalization : bool)
  (time_frequency_conditions : option (list string)) (subjects : list string)
  : Cfg.t := {|
  Cfg.task := Some "matchingpennies";
  Cfg.task_is_rest := false;
  Cfg.runs := [None];
  Cfg.datatype := Some "eeg";
  Cfg.acq := None;
  Cfg.rec := None;
  Cfg.space := None;
  Cfg.proc := None;
  Cfg.find_noisy_channels_meg := false;
  Cfg.spatial_filter := None;
  Cfg.conditions := Some ["raised-left"; "raised-right"];
  Cfg.all_contrasts := ["raised-left - raised-right"];
  Cfg.decoding_contrasts := [("raised-left", "raised-right")];
  Cfg.ch_types := ["eeg"];
  Cfg.time_frequency_conditions := time_frequency_conditions;
  Cfg.decode := decode;
  Cfg.decoding_metric := "roc_auc";
  Cfg.decoding_time_generalization := time_generalization;
  Cfg.n_boot := 5000;
  Cfg.cluster_permutation_p_threshold := Float.ratio 5 100;
  Cfg.inverse_method := "dSPM";
  Cfg.fs_subject := None;
  Cfg.fs_subjects_dir := None;
  Cfg.deriv_root := Some "derivatives";
  Cfg.bids_root := Some "eeg_matchingpennies";
  Cfg.interactive := false;
  Cfg.subjects := Some subjects;
  Cfg.exclude_subjects := []
|}.

(** One subject, decoding without time generalization. *)
Definition cfg_one : Cfg.t := pennies true false None ["05"].

(** One subject, decoding with time generalization. *)
Definition cfg_generalization : Cfg.t := pennies true true None ["05"].

(** One subject, no decoding, one time-frequency condition. *)
Definition cfg_tfr : Cfg.t := pennies false false (Some ["raised-left"]) ["05"].

Definition contrast : string * string := ("raised-left", "raised-right").

(** A grand-average score file over four time points with two clusters,
    one with p = 0.01 and one with p = 0.2. *)
Definition scores_1d : GA.decoding_data := {|
  GA.times := [fz (-1); fz 0; fz 1; fz 2];
  GA.mean := Np.Nd1 [tenths 5; tenths 5; tenths 8; tenths 9];
  GA.mean_se := Np.Nd1 [tenths 1; tenths 1; tenths 1; tenths 1];
  GA.mean_ci_lower := Np.Nd1 [tenths 4; tenths 4; tenths 7; tenths 8];
  GA.mean_ci_upper := Np.Nd1 [tenths 6; tenths 6; tenths 9; fz 1];
  GA.decim := 1;
  GA.clusters := [ {| cluster_times := [fz 1; fz 2]; p_value := Float.ratio 1 100 |};
                   {| cluster_times := [fz (-1)]; p_value := tenths 2 |} ];
  GA.N := 1;
  GA.cluster_all_times := [fz 0; fz 1; fz 2];
  GA.cluster_all_t_values := [fz 0; fz 3; fz 4];
  GA.cluster_t_threshold := fz 2;
  GA.cluster_n_permutations := 1024
|}.

(** The same over two time points, with time-generalization matrices. *)
Definition scores_2d : GA.decoding_data := {|
  GA.times := [fz 0; fz 1];
  GA.mean := Np.Nd2 [[tenths 8; tenths 6]; [tenths 5; tenths 9]];
  GA.mean_se := Np.Nd2 [[tenths 1; tenths 2]; [tenths 2; tenths 1]];
  GA.mean_ci_lower := Np.Nd2 [[tenths 7; tenths 4]; [tenths 3; tenths 8]];
  GA.mean_ci_upper := Np.Nd2 [[tenths 9; tenths 8]; [tenths 7; fz 1]];
  GA.decim := 1;
  GA.clusters := [];
  GA.N := 1;
  GA.cluster_all_times := [];
  GA.cluster_all_t_values := [];
  GA.cluster_t_threshold := S754_nan;
  GA.cluster_n_permutations := 0
|}.

(** Cross-validation scores of one subject: two folds, two time points,
    with and without time generalization. *)
Definition folds_3d : list (list (list float)) :=
  [ [[tenths 8; tenths 6]; [tenths 5; tenths 9]];
    [[tenths 6; tenths 4]; [tenths 3; tenths 7]] ].

Definition subject_scores : SS.decoding_data := {|
  SS.scores := Np.Nd2 [[tenths 5; tenths 8]; [tenths 6; tenths 9]];
  SS.times := [fz 0; fz 1];
  SS.decim := 1
|}.

Definition bids_path (subject : string) : BIDSPath :=
  mk_path cfg_one (Some subject) None (Some "matchingpennies") None None
    (Some ".fif").

Definition with_suffix (processing : option string) (suffix : string)
  (b : BIDSPath) : BIDSPath :=
  BIDS.update_suffix (Some suffix) (BIDS.update_processing processing b).

Definition sanitize (cond : string) : string :=
  remove_char " "%char (remove_char "-"%char (remove_char "_"%char
    (remove_char "/"%char cond))).

(** The artifacts of subject 05, without a coregistration, and of the
    pseudo-subject [average]. *)
Definition files : list (path * artifact) :=
  [ (File (with_suffix (Some "filt") "raw" (bids_path "05")), RawFif);
    (File (with_suffix None "epo" (bids_path "05")), EpochsFif);
    (File (with_suffix (Some "clean") "epo" (bids_path "05")), EpochsFif);
    (File (with_suffix None "ave" (bids_path "05")), EvokedsFif 3);
    (File (fname_decoding cfg_one (bids_path "05") contrast "FullEpochs"),
     FullEpochsMat [tenths 7; tenths 8; tenths 9]);
    (File (fname_decoding cfg_one (bids_path "05") contrast "TimeByTime"),
     TimeByTimeMat subject_scores);
    (File (BIDS.update_extension (Some ".h5")
             (with_suffix None "power+raisedleft+tfr" (bids_path "05"))), TfrH5);
    (File (BIDS.update_extension (Some ".h5")
             (with_suffix None "itc+raisedleft+tfr" (bids_path "05"))), TfrH5);
    (File (with_suffix None "ave" (bids_path "average")), EvokedsFif 3);
    (grand_average_score_file cfg_one None contrast "FullEpochs",
     FullEpochsMat [tenths 8]);
    (grand_average_score_file cfg_one None contrast "TimeByTime",
     GrandAverageMat scores_1d);
    (OsPath "config.py", TextFile "subjects = ['05']") ].

Definition lookup_file (files : list (path * artifact)) (p : path)
  : option artifact :=
  snd <$> list_find (fun entry => entry.1 = p) files ≫= fun found => Some found.2.

Definition selected_subjects (subjects : option (list string))
  (exclude : list string) : list string :=
  filter (fun subject => subject ∉ exclude) (default [] subjects).

Definition world_of (files : list (path * artifact)) : World := {|
  fs := lookup_file files;
  environ := fun key =>
    if String.eqb key "MNE_BIDS_STUDY_CONFIG" then Some "config.py" else None;
  get_subjects := fun settings =>
    match settings with
    | OfConfig config =>
        selected_subjects (Config.subjects config) (Config.exclude_subjects config)
    | OfCfg cfg => selected_subjects (Cfg.subjects cfg) (Cfg.exclude_subjects cfg)
    end;
  get_sessions := fun _ => [None];
  get_task := fun _ => Some "matchingpennies";
  get_runs := fun _ _ => [None];
  get_datatype := fun _ => Some "eeg";
  get_deriv_root := fun _ => Some "derivatives";
  get_bids_root := fun _ => Some "eeg_matchingpennies";
  get_all_contrasts := fun _ => ["raised-left - raised-right"];
  get_decoding_contrasts := fun _ => [contrast];
  get_fs_subjects_dir := fun _ => inl (ValueError "fs_subjects_dir is not set");
  get_fs_subject := fun _ _ => None;
  sanitize_cond_name := sanitize;
  get_noise_cov_bids_path := fun cfg subject session =>
    mk_path cfg (Some subject) session (Cfg.task cfg) None (Some "cov") (Some ".fif");
  _update_for_splits := fun fname _ => inr fname;
  count_events := fun _ _ => inr "<table></table>";
  basename := fun _ => "cov.fif"
|}.

(** Everything is there but the coregistration. *)
Definition world : World := world_of files.

(** The time-by-time score file of the grand average is missing. *)
Definition world_missing : World :=
  world_of (filter (fun entry =>
                      entry.1 ≠ grand_average_score_file cfg_one None contrast "TimeByTime")
                   files).

Definition empty_state : St :=
  {| reports := []; figures := []; open_figs := ∅; log := []; saved := [] |}.

(** A state with one empty report and one earlier figure of t-values. *)
Definition started_state : St :=
  {| reports := [{| report_title := "sub-average"; report_items := [];
                    report_css := [] |}];
     figures := [[t_value_label]]; open_figs := ∅; log := []; saved := [] |}.

Definition gavg_run : result nat * St :=
  _plot_time_by_time_decoding_scores_gavg cfg_one scores_1d empty_state.

Definition folds_run : result nat * St :=
  _plot_time_by_time_decoding_scores [fz 0; fz 1] (Np.Nd3 folds_3d) "roc_auc"
    true 1 empty_state.

Definition generalization_run : result nat * St :=
  _plot_time_by_time_decoding_scores_gavg cfg_generalization scores_2d empty_state.

Definition single_subject_run : result unit * St :=
  add_decoding_grand_average (W := world) None cfg_one 0%nat started_state.

(** The score file of a grand average over one subject: the cluster
    permutation test has not been run, and no cluster is stored. *)
Definition scores_single : GA.decoding_data := {|
  GA.times := [fz (-1); fz 0; fz 1; fz 2];
  GA.mean := Np.Nd1 [tenths 5; tenths 5; tenths 8; tenths 9];
  GA.mean_se := Np.Nd1 [tenths 1; tenths 1; tenths 1; tenths 1];
  GA.mean_ci_lower := Np.Nd1 [tenths 4; tenths 4; tenths 7; tenths 8];
  GA.mean_ci_upper := Np.Nd1 [tenths 6; tenths 6; tenths 9; fz 1];
  GA.decim := 1;
  GA.clusters := [];
  GA.N := 1;
  GA.cluster_all_times := [];
  GA.cluster_all_t_values := [];
  GA.cluster_t_threshold := S754_nan;
  GA.cluster_n_permutations := 0
|}.

Definition files_single : list (path * artifact) :=
  map (fun entry =>
         if decide (entry.1 = grand_average_score_file cfg_one None contrast "TimeByTime")
         then (entry.1, GrandAverageMat scores_single)
         else entry)
      files.

Definition world_single : World := world_of files_single.

Definition cluster_free_run : result unit * St :=
  add_decoding_grand_average (W := world_single) None cfg_one 0%nat started_state.

Definition created : result nat * St :=
  _gen_empty_report cfg_one "05" None empty_state.

Definition preprocessed : result nat * St :=
  run_report_preprocessing (W := world) cfg_one "05" None (Some 0%nat) created.2.

Definition sensor_done : result nat * St :=
  run_report_sensor (W := world) cfg_one "05" None (Some 0%nat) preprocessed.2.

Definition subject_run : result unit * St :=
  run_report (W := world) cfg_one "05" None empty_state.

Definition tfr_run : result nat * St :=
  run_report_sensor (W := world) cfg_tfr "05" None (Some 0%nat) started_state.

Definition config_rest : Config.t := {|
  Config.task_is_rest := true;
  Config.acq := None;
  Config.rec := None;
  Config.space := None;
  Config.proc := None;
  Config.find_noisy_channels_meg := false;
  Config.spatial_filter := None;
  Config.conditions := None;
  Config.ch_types := ["eeg"];
  Config.time_frequency_conditions := None;
  Config.decode := false;
  Config.decoding_metric := "roc_auc";
  Config.decoding_time_generalization := false;
  Config.n_boot := 5000;
  Config.cluster_permutation_p_threshold := Float.ratio 5 100;
  Config.inverse_method := "dSPM";
  Config.interactive := false;
  Config.subjects := Some ["05"];
  Config.exclude_subjects := []
|}.

Definition rest_run : result unit * St := main (W := world) config_rest empty_state.

End Scenario.

(** * The grand-average aggregator *)

Module Aggregator.

Local Open Scope Q_scope.

Record ScoreCurve : Type := {
times : list Q;
values : list Q;
decimation : Z
}.

Record GroupStatistic : Type := {
mean : ScoreCurve;
standard_error : option ScoreCurve;
ci_lower : option ScoreCurve;
ci_upper : option ScoreCurve;
n_subjects : nat
}.

Inductive error : Type := ShapeMismatch.

Definition same_axis (a b : list Q) : bool :=
Nat.eqb (length a) (length b) && forallb (fun p => Qeq_bool (fst p) (snd p)) (zip a b).

(** A curve has one value per time point, on the time axis [axis]. *)
Definition on_axis (axis : list Q) (c : ScoreCurve) : bool :=
same_axis axis (times c) && Nat.eqb (length (values c)) (length axis).

Definition curve_like (c : ScoreCurve) (vs : list Q) : ScoreCurve :=
{| times := times c; values := vs; decimation := decimation c |}.

(** Modelled from the spec: the elementwise arithmetic mean of the spec's
  section 4.2, step 1 ("Mean curve = elementwise arithmetic mean across
  subjects"), computed by adding the curves up one after the other and
  dividing by their number. *)
Definition elementwise_mean (first : list Q) (others : list (list Q)) : list Q :=
let n := inject_Z (Z.of_nat (S (length others))) in
map (fun x => x / n) (fold_left (zip_with Qplus) others first).

(** The values at time point [i] of a list of curves. *)
Definition column (i : nat) (vs : list (list Q)) : list Q :=
map (fun v => nth i v 0) vs.

Section Bootstrap.

(** The seeded generator and the two summary statistics of the bootstrap:
  [resample seed B N] draws [B] resamples of [N] subject indices with
  replacement. *)
Variable Seed : Type.
Variable resample : Seed -> nat -> nat -> list (list nat).
Variable std : list Q -> Q.
Variable percentile : Q -> list Q -> Q.

(** Modelled from the spec: the Grand-Average Aggregator of the spec's
  section 4.2, whose source (the group-average script) is not part of this
  module.  Curves on different time axes are a [ShapeMismatch]; the mean
  is the elementwise mean; for more than one subject the standard error
  and the confidence bounds are the standard deviation and the 2.5th and
  97.5th percentiles, per time point, of the means of [B] resamples; for
  one subject they are absent. *)
Definition aggregate (B : nat) (seed : Seed) (first : ScoreCurve)
(others : list ScoreCurve) : error + GroupStatistic :=
let axis := times first in
if forallb (on_axis axis) (first :: others) then
  let vs := map values others in
  let n := S (length others) in
  let mean_curve := curve_like first (elementwise_mean (values first) vs) in
  match others with
  | [] =>
      inr {| mean := mean_curve; standard_error := None; ci_lower := None;
             ci_upper := None; n_subjects := n |}
  | _ =>
      let pick (indices : list nat) : list (list Q) :=
        map (fun j => nth j (values first :: vs) []) indices in
      let resampled_means :=
        map (fun indices =>
               match pick indices with
               | [] => []
               | v :: rest => elementwise_mean v rest
               end)
            (resample seed B n) in
      let per_time_point (f : list Q -> Q) : ScoreCurve :=
        curve_like first
          (map (fun i => f (column i resampled_means)) (seq 0 (length axis))) in
      inr {| mean := mean_curve;
             standard_error := Some (per_time_point std);
             ci_lower := Some (per_time_point (percentile (25 # 10)));
             ci_upper := Some (per_time_point (percentile (975 # 10)));
             n_subjects := n |}
  end
else inl ShapeMismatch.

End Bootstrap.

(** The arithmetic mean of the values at time point [i]. *)
Definition arithmetic_mean (xs : list Q) : Q :=
fold_right Qplus 0 xs / inject_Z (Z.of_nat (length xs)).

(** Three subjects, two time points. *)
Definition curve (a b : Q) : ScoreCurve :=
{| times := [0; 1]; values := [a; b]; decimation := 1 |}.

End Aggregator.

(** * Vocabulary of the further properties *)

(** ** Names of score files *)

(** A condition name without the characters that the name of a score file
    drops: the path separator, the underscore and the dash. *)
Definition strip_separators (cond : string) : string :=
  remove_char "-"%char (remove_char "_"%char (remove_char "/"%char cond)).

(** ** Figures *)

(** The legend labels of the spans shaded by [fill_betweenx], in the order
    they are drawn. *)
Definition highlight_labels (f : figure) : list (option float) :=
  omap (fun c => match c with
                 | FillBetweenX _ _ label => Some label
                 | _ => None
                 end) f.

(** The state after pyplot has registered a new figure holding [f]. *)
Definition with_new_figure (f : figure) (s : St) : St :=
  set_open_figs (fun o => {[length (figures s)]} ∪ o)
    (set_figures (fun l => l ++ [f]) s).

(** Of the legend labels [labels] of the shaded spans, the first names the
    threshold and the others are empty. *)
Definition only_first_labelled (threshold : float) (labels : list (option float))
  : Prop :=
  match labels with
  | [] => True
  | label :: others => label = Some threshold /\ Forall (fun l => l = None) others
  end.

(** ** Relations between the states of a run that returns *)

(** Every run of [m] that returns leaves the state related by [R] to the
    one it started from. *)
Definition on_return {S A} (R : S -> S -> Prop) (m : ES S A) : Prop :=
  forall s a s', m s = (inr a, s') -> R s s'.

Definition same_open (s s' : St) : Prop := open_figs s' = open_figs s.

(** No figure is open afterwards that was not open before. *)
Definition closes_figures (s s' : St) : Prop := open_figs s' ⊆ open_figs s.

(** The same, and figure [fig] is closed afterwards. *)
Definition closing (fig : nat) (s s' : St) : Prop :=
  open_figs s' ⊆ open_figs s ∖ {[fig]}.

Definition closing_all (figs : list nat) (s s' : St) : Prop :=
  open_figs s' ⊆ open_figs s ∖ list_to_set figs.

(** A run of [m] that returns a figure has registered that figure, and no
    other, with pyplot. *)
Definition opens_result (m : M nat) : Prop :=
  forall s fig s', m s = (inr fig, s') -> open_figs s' = {[fig]} ∪ open_figs s.

Definition opens_results (m : M (list nat)) : Prop :=
  forall s figs s', m s = (inr figs, s') -> open_figs s' = list_to_set figs ∪ open_figs s.

(** No figure object is lost. *)
Definition figures_grow (s s' : St) : Prop :=
  (length (figures s) <= length (figures s'))%nat.

(** Pyplot manages no figure that does not exist. *)
Definition open_figures_exist (s : St) : Prop :=
  forall fig, fig ∈ open_figs s -> (fig < length (figures s))%nat.

(** ** Report objects *)

(** Between [s] and [s'] no report object but number [n] has changed, none
    has been created, and report [n] has kept its title. *)
Definition touches_only (n : nat) (s s' : St) : Prop :=
  length (reports s') = length (reports s) /\
  (forall r, r <> n -> reports s' !! r = reports s !! r) /\
  report_title <$> reports s' !! n = report_title <$> reports s !! n.

(** Between [s] and [s'] the report objects have only gained items, and
    every item gained satisfies [P]; so does every item of a report object
    created in between. *)
Definition adds_only (P : item -> Prop) (s s' : St) : Prop :=
  (forall r rep,
     reports s !! r = Some rep ->
     exists rep' new,
       reports s' !! r = Some rep' /\
       report_items rep' = report_items rep ++ new /\ Forall P new) /\
  (forall r rep',
     reports s !! r = None -> reports s' !! r = Some rep' ->
     Forall P (report_items rep')).

(** ** Report items *)

(** The source-estimate file of a condition of a subject. *)
Definition fname_stc `{W : World} (cfg : Cfg.t) (subject : string) (session : option string)
  (condition : string) : BIDSPath :=
  BIDS.update_extension None
    (BIDS.update_suffix
       (Some (sanitize_cond_name condition +:+ "+" +:+ Cfg.inverse_method cfg +:+
              "+" +:+ "hemi"))
       (mk_path cfg (Some subject) session (Cfg.task cfg) None None (Some ".fif"))).

(** An item that, if it is a source estimate, is the one of a condition of
    [cfg.conditions] whose left-hemisphere file exists. *)
Definition source_estimate_of_condition `{W : World} (cfg : Cfg.t) (subject : string)
  (session : option string) (it : item) : Prop :=
  forall stc,
    item_content it = AddStc stc ->
    exists conditions condition,
      Cfg.conditions cfg = Some conditions /\
      condition ∈ conditions /\
      stc = fname_stc cfg subject session condition /\
      item_title it = "Source: " +:+ sanitize_cond_name condition /\
      fs (StcLh stc) <> None.

(** An item that, if it shows evoked response number [i] of the evoked
    file, is titled after entry [i] of the conditions followed by the
    contrasts: as a condition if the name is in [cfg.conditions], as a
    contrast otherwise. *)
Definition evoked_titled_by_position (cfg : Cfg.t) (it : item) : Prop :=
  forall i,
    item_content it = AddEvokeds i ->
    exists conditions name,
      Cfg.conditions cfg = Some conditions /\
      conditions_and_contrasts cfg !! i = Some name /\
      item_title it = if bool_decide (name ∈ conditions) then "Condition: " +:+ name
                      else "Contrast: " +:+ name.

(** The report section of the time-by-time decoding results of a
    contrast. *)
Definition decoding_section (contrast : string * string) : string :=
  "Time-by-time decoding: " +:+ contrast.1 +:+ " ./. " +:+ contrast.2.

(** The item [report.add_figure] adds for one figure. *)
Definition figure_item (fig : nat) (f : figure) (title : string)
  (section : option string) : item :=
  {| item_content := AddFigure [(fig, f)]; item_title := title;
     item_section := section |}.

(** Report [report] of [s] holds, in the section of [contrast], the figure
    of the decoding performance over time and the figure of t-values that
    the plotting functions make from the grand-average score file of the
    contrast. *)
Definition time_courses_embedded `{W : World} (session : option string) (cfg : Cfg.t)
  (report : nat) (contrast : string * string) (s : St) : Prop :=
  exists rep d fig f fig_t f_t s0 s1 s2 s3,
    reports s !! report = Some rep /\
    fs (grand_average_score_file cfg session contrast "TimeByTime")
    = Some (GrandAverageMat d) /\
    _plot_time_by_time_decoding_scores_gavg cfg d s0 = (inr fig, s1) /\
    figures s1 !! fig = Some f /\
    plot_time_by_time_decoding_t_values d s2 = (inr fig_t, s3) /\
    figures s3 !! fig_t = Some f_t /\
    figure_item fig f "Decoding performance over time"
      (Some (decoding_section contrast)) ∈ report_items rep /\
    figure_item fig_t f_t "t-values based on decoding scores over time"
      (Some (decoding_section contrast)) ∈ report_items rep.

(** An item that, if it shows evoked response number [i] of the evoked
    file, is the grand average of entry [i] of the conditions followed by
    the contrasts, and that entry is a condition of [cfg.conditions]. *)
Definition average_of_condition (cfg : Cfg.t) (it : item) : Prop :=
  forall i,
    item_content it = AddEvokeds i ->
    exists conditions name,
      Cfg.conditions cfg = Some conditions /\
      (conditions ++ Cfg.all_contrasts cfg) !! i = Some name /\
      name ∈ conditions /\
      item_title it = "Average: " +:+ name.

(** An item that is no HTML snippet. *)
Definition not_html (it : item) : Prop :=
  forall html, item_content it <> AddHtml html.

(** The items of the table of event counts: one HTML item if the events
    could be counted, none otherwise. *)
Definition event_counts_items `{W : World} (cfg : Cfg.t) (session : option string) :
  list item :=
  match count_events (Cfg.bids_root cfg) session with
  | inr df_events => [{| item_content := AddHtml df_events;
                         item_title := "Event counts";
                         item_section := None |}]
  | inl _ => []
  end.

(** ** Sections of a subject-level report *)

(** The items of the preprocessing stage. *)
Definition raw_item (fname : BIDSPath) : item :=
  {| item_content := AddRaw fname;
     item_title := match BIDS.run fname with
                   | Some run => "Raw" +:+ ", run " +:+ run
                   | None => "Raw" end;
     item_section := None |}.

(** The items of the events and of the epochs. *)
Definition events_item : item :=
  {| item_content := AddEvents; item_title := "Events"; item_section := None |}.

Definition epochs_item (title : string) : item :=
  {| item_content := AddEpochs; item_title := title; item_section := None |}.

(** An item that holds figures under a title, in a section. *)
Definition figure_titled (title : string) (section : option string) (it : item) : Prop :=
  (exists figs, item_content it = AddFigure figs) /\
  item_title it = title /\ item_section it = section.

(** The report holds an item of which [P] is true. *)
Definition holds (rep : Report) (P : item -> Prop) : Prop :=
  exists it, it ∈ report_items rep /\ P it.

(** Report object [report] of [s] holds an item of which [P] is true. *)
Definition report_holds (report : nat) (P : item -> Prop) (s : St) : Prop :=
  exists rep it, reports s !! report = Some rep /\ it ∈ report_items rep /\ P it.

Section ReportSections.

Context {W : World}.

(** The filtered raw data of a run. *)
Definition fname_raw_filt (cfg : Cfg.t) (subject : string) (session : option string)
  (run : option string) : BIDSPath :=
  BIDS.update_suffix (Some "raw")
    (BIDS.update_processing (Some "filt")
       (BIDS.update_run run
          (mk_path cfg (Some subject) session (Cfg.task cfg) None None (Some ".fif")))).

(** What the preprocessing stage puts into a report whenever it returns:
    the filtered raw data of every run, the events unless the task is a
    resting state, and the epochs before and after cleaning. *)
Definition preprocessing_sections (cfg : Cfg.t) (subject : string)
  (session : option string) (rep : Report) : Prop :=
  (forall run fname,
     run ∈ Cfg.runs cfg ->
     _update_for_splits (fname_raw_filt cfg subject session run) false = inr fname ->
     raw_item fname ∈ report_items rep) /\
  (Cfg.task_is_rest cfg = false -> events_item ∈ report_items rep) /\
  epochs_item "Epochs (before cleaning)" ∈ report_items rep /\
  epochs_item "Epochs (after cleaning)" ∈ report_items rep.

(** The item of evoked response number [evoked], of the condition or
    contrast [name]. *)
Definition evoked_item (conditions : list string) (evoked : nat) (name : string)
  : item :=
  {| item_content := AddEvokeds evoked;
     item_title := if bool_decide (name ∈ conditions) then "Condition: " +:+ name
                   else "Contrast: " +:+ name;
     item_section := None |}.

(** What the sensor stage puts into a report whenever it returns: the
    evoked response of every condition and contrast the evoked file has a
    response for; if decoding is requested, the figure of the full-epochs
    scores and, for every contrast, the figure of the scores over time (and
    of the time generalization, if configured); the power and the
    inter-trial coherence of every time-frequency condition. *)
Definition sensor_sections (cfg : Cfg.t) (subject : string)
  (session : option string) (rep : Report) : Prop :=
  (forall n i name,
     fs (File (BIDS.update_suffix (Some "ave")
                 (mk_path cfg (Some subject) session (Cfg.task cfg) None None
                    (Some ".fif")))) = Some (EvokedsFif n) ->
     (i < n)%nat ->
     conditions_and_contrasts cfg !! i = Some name ->
     exists conditions,
       Cfg.conditions cfg = Some conditions /\
       evoked_item conditions i name ∈ report_items rep) /\
  (decoding_requested cfg = true ->
   holds rep (figure_titled "Full-epochs Decoding" None) /\
   forall contrast,
     contrast ∈ Cfg.decoding_contrasts cfg ->
     holds rep (figure_titled "Decoding performance over time"
          (Some (decoding_section contrast))) /\
     (Cfg.decoding_time_generalization cfg = true ->
      holds rep (figure_titled "Time generalization" (Some (decoding_section contrast))))) /\
  (forall conditions condition,
     Cfg.time_frequency_conditions cfg = Some conditions ->
     condition ∈ conditions ->
     holds rep (figure_titled ("TFR Power: " +:+ condition) None) /\
     holds rep (figure_titled ("TFR ITC: " +:+ condition) None)).

End ReportSections.

(** * Further configurations and artifact stores *)

Module Cases.

Import Scenario.

(** Two subjects, decoding without time generalization. *)
Definition cfg_two : Cfg.t := pennies true false None ["05"; "06"].

(** A resting-state recording of one subject. *)
Definition cfg_rest : Cfg.t := {|
  Cfg.task := Cfg.task cfg_one;
  Cfg.task_is_rest := true;
  Cfg.runs := Cfg.runs cfg_one;
  Cfg.datatype := Cfg.datatype cfg_one;
  Cfg.acq := Cfg.acq cfg_one;
  Cfg.rec := Cfg.rec cfg_one;
  Cfg.space := Cfg.space cfg_one;
  Cfg.proc := Cfg.proc cfg_one;
  Cfg.find_noisy_channels_meg := false;
  Cfg.spatial_filter := None;
  Cfg.conditions := Cfg.conditions cfg_one;
  Cfg.all_contrasts := Cfg.all_contrasts cfg_one;
  Cfg.decoding_contrasts := Cfg.decoding_contrasts cfg_one;
  Cfg.ch_types := Cfg.ch_types cfg_one;
  Cfg.time_frequency_conditions := None;
  Cfg.decode := false;
  Cfg.decoding_metric := Cfg.decoding_metric cfg_one;
  Cfg.decoding_time_generalization := false;
  Cfg.n_boot := Cfg.n_boot cfg_one;
  Cfg.cluster_permutation_p_threshold := Cfg.cluster_permutation_p_threshold cfg_one;
  Cfg.inverse_method := Cfg.inverse_method cfg_one;
  Cfg.fs_subject := None;
  Cfg.fs_subjects_dir := None;
  Cfg.deriv_root := Cfg.deriv_root cfg_one;
  Cfg.bids_root := Cfg.bids_root cfg_one;
  Cfg.interactive := false;
  Cfg.subjects := Cfg.subjects cfg_one;
  Cfg.exclude_subjects := []
|}.

(** One subject, with the scores of the noisy-channel detection and SSP
    projectors to show. *)
Definition cfg_meg : Cfg.t := {|
  Cfg.task := Cfg.task cfg_one;
  Cfg.task_is_rest := false;
  Cfg.runs := Cfg.runs cfg_one;
  Cfg.datatype := Cfg.datatype cfg_one;
  Cfg.acq := Cfg.acq cfg_one;
  Cfg.rec := Cfg.rec cfg_one;
  Cfg.space := Cfg.space cfg_one;
  Cfg.proc := Cfg.proc cfg_one;
  Cfg.find_noisy_channels_meg := true;
  Cfg.spatial_filter := Some "ssp";
  Cfg.conditions := Cfg.conditions cfg_one;
  Cfg.all_contrasts := Cfg.all_contrasts cfg_one;
  Cfg.decoding_contrasts := Cfg.decoding_contrasts cfg_one;
  Cfg.ch_types := Cfg.ch_types cfg_one;
  Cfg.time_frequency_conditions := None;
  Cfg.decode := false;
  Cfg.decoding_metric := Cfg.decoding_metric cfg_one;
  Cfg.decoding_time_generalization := false;
  Cfg.n_boot := Cfg.n_boot cfg_one;
  Cfg.cluster_permutation_p_threshold := Cfg.cluster_permutation_p_threshold cfg_one;
  Cfg.inverse_method := Cfg.inverse_method cfg_one;
  Cfg.fs_subject := None;
  Cfg.fs_subjects_dir := None;
  Cfg.deriv_root := Cfg.deriv_root cfg_one;
  Cfg.bids_root := Cfg.bids_root cfg_one;
  Cfg.interactive := false;
  Cfg.subjects := Cfg.subjects cfg_one;
  Cfg.exclude_subjects := []
|}.

(** One subject, one contrast, and no list of conditions. *)
Definition cfg_no_conditions : Cfg.t := {|
  Cfg.task := Cfg.task cfg_one;
  Cfg.task_is_rest := false;
  Cfg.runs := Cfg.runs cfg_one;
  Cfg.datatype := Cfg.datatype cfg_one;
  Cfg.acq := Cfg.acq cfg_one;
  Cfg.rec := Cfg.rec cfg_one;
  Cfg.space := Cfg.space cfg_one;
  Cfg.proc := Cfg.proc cfg_one;
  Cfg.find_noisy_channels_meg := false;
  Cfg.spatial_filter := None;
  Cfg.conditions := None;
  Cfg.all_contrasts := Cfg.all_contrasts cfg_one;
  Cfg.decoding_contrasts := Cfg.decoding_contrasts cfg_one;
  Cfg.ch_types := Cfg.ch_types cfg_one;
  Cfg.time_frequency_conditions := None;
  Cfg.decode := false;
  Cfg.decoding_metric := Cfg.decoding_metric cfg_one;
  Cfg.decoding_time_generalization := false;
  Cfg.n_boot := Cfg.n_boot cfg_one;
  Cfg.cluster_permutation_p_threshold := Cfg.cluster_permutation_p_threshold cfg_one;
  Cfg.inverse_method := Cfg.inverse_method cfg_one;
  Cfg.fs_subject := None;
  Cfg.fs_subjects_dir := None;
  Cfg.deriv_root := Cfg.deriv_root cfg_one;
  Cfg.bids_root := Cfg.bids_root cfg_one;
  Cfg.interactive := false;
  Cfg.subjects := Cfg.subjects cfg_one;
  Cfg.exclude_subjects := []
|}.

(** The source-estimate file of the condition [raised-left] of subject 05. *)
Definition stc_raised_left : BIDSPath :=
  BIDS.update_extension None
    (with_suffix None (sanitize "raised-left" +:+ "+dSPM+hemi") (bids_path "05")).

(** The artifacts of subject 05 with a coregistration, a noise covariance
    and a source estimate. *)
Definition files_source : list (path * artifact) :=
  files ++
  [ (File (with_suffix None "trans" (bids_path "05")), TransFif);
    (File (with_suffix None "cov" (bids_path "05")), CovFif);
    (StcLh stc_raised_left, StcFile) ].

Definition world_source : World := world_of files_source.

(** The artifacts of subject 05 with the scores of the noisy-channel
    detection, two figures' worth, and the SSP projectors. *)
Definition files_meg : list (path * artifact) :=
  files ++
  [ (File (BIDS.update_extension (Some ".json")
             (with_suffix None "scores" (bids_path "05"))), AutoScoresJson 2);
    (File (with_suffix None "ecg-epo" (bids_path "05")), EpochsFif);
    (File (with_suffix None "proj" (bids_path "05")),
     ProjFif ["ECG-planar-1"; "EOG-planar-1"]) ].

Definition world_meg : World := world_of files_meg.

(** The world of subject 05 without the environment variable that names the
    configuration file. *)
Definition world_without_variable : World := {|
  fs := fs (World := world);
  environ := fun _ => None;
  get_subjects := get_subjects (World := world);
  get_sessions := get_sessions (World := world);
  get_task := get_task (World := world);
  get_runs := get_runs (World := world);
  get_datatype := get_datatype (World := world);
  get_deriv_root := get_deriv_root (World := world);
  get_bids_root := get_bids_root (World := world);
  get_all_contrasts := get_all_contrasts (World := world);
  get_decoding_contrasts := get_decoding_contrasts (World := world);
  get_fs_subjects_dir := get_fs_subjects_dir (World := world);
  get_fs_subject := get_fs_subject (World := world);
  sanitize_cond_name := sanitize_cond_name (World := world);
  get_noise_cov_bids_path := get_noise_cov_bids_path (World := world);
  _update_for_splits := _update_for_splits (World := world);
  count_events := count_events (World := world);
  basename := basename (World := world)
|}.

(** A state in which pyplot still manages an earlier figure. *)
Definition busy_state : St :=
  {| reports := [{| report_title := "sub-05"; report_items := [];
                    report_css := [] |}];
     figures := [[External "earlier"]]; open_figs := {[0%nat]}; log := [];
     saved := [] |}.

Definition t_values_run : result nat * St :=
  plot_time_by_time_decoding_t_values scores_1d empty_state.

Definition auto_scores_run : result (list nat) * St :=
  plot_auto_scores_ (W := world_meg) cfg_meg "05" None busy_state.

Definition meg_run : result nat * St :=
  run_report_preprocessing (W := world_meg) cfg_meg "05" None (Some 0%nat) busy_state.

Definition rest_preprocessing_run : result nat * St :=
  run_report_preprocessing (W := world) cfg_rest "05" None (Some 0%nat) busy_state.

Definition two_subjects_run : result unit * St :=
  add_decoding_grand_average (W := world) None cfg_two 0%nat started_state.

Definition source_run : result nat * St :=
  run_report_source (W := world_source) cfg_one "05" None (Some 0%nat) busy_state.

Definition coregistered_run : result unit * St :=
  run_report (W := world_source) cfg_tfr "05" None empty_state.

Definition average_run : result unit * St :=
  run_report_average (W := world) cfg_one "average" None empty_state.

Definition failed_average_run : result unit * St :=
  run_report_average (W := world_missing) cfg_one "average" None empty_state.

End Cases.

(** * Proofs *)

(** ** Reasoning about monadic runs *)

Section Binds.

Context {S : Type}.

Lemma bind_run {A B} (m : ES S A) (k : A -> ES S B) (s : S) :
  (m ≫= k) s = match m s with
               | (inr a, s') => k a s'
               | (inl e, s') => (inl e, s')
               end.
Proof. reflexivity. Qed.

Lemma bind_inr {A B} (m : ES S A) (k : A -> ES S B) (s s' : S) (b : B) :
  (m ≫= k) s = (inr b, s') ->
  exists a s1, m s = (inr a, s1) /\ k a s1 = (inr b, s').
Proof.
  rewrite bind_run. destruct (m s) as [[e|a] s1]; [discriminate|]. eauto.
Qed.

Lemma bind_raise_l {A B} (m : ES S A) (k : A -> ES S B) (s : S) :
  is_raise (m s) -> is_raise ((m ≫= k) s).
Proof. rewrite bind_run. destruct (m s) as [[e|a] s1]; simpl; tauto. Qed.

Lemma ret_run {A} (a : A) (s : S) : (mret a : ES S A) s = (inr a, s).
Proof. reflexivity. Qed.

Lemma lift_inr {A} (r : result A) (s s' : S) (a : A) :
  lift r s = (inr a, s') -> r = inr a /\ s' = s.
Proof. unfold lift. intros [= -> ->]. auto. Qed.

Lemma when_run (b : bool) (m : ES S unit) (s : S) :
  when b m s = if b then m s else (inr tt, s).
Proof. destruct b; reflexivity. Qed.

End Binds.

Lemma ax_run (c : cmd) (f : figure) : ax c f = (inr tt, f ++ [c]).
Proof. reflexivity. Qed.

(** ** The figure of the grand-average scores *)

Lemma curves_app (f g : figure) : curves (f ++ g) = curves f ++ curves g.
Proof. apply List.filter_app. Qed.

Lemma highlights_app (f g : figure) :
  highlights (f ++ g) = highlights f ++ highlights g.
Proof. unfold highlights. apply omap_app. Qed.

Lemma highlight_loop (threshold : float) (clusters : list cluster) :
  forall (n : nat) (f f' : figure) (r : result nat),
    for_fold clusters n (highlight_cluster threshold) f = (r, f') ->
    exists hl, f' = f ++ hl /\ curves hl = [] /\
      (forall n', r = inr n' ->
         Some <$> highlights hl
         = cluster_span <$> filter (fun c => not_skipped threshold c = true) clusters).
Proof.
  induction clusters as [|c clusters IH]; intros n f f' r H.
  - cbn in H. injection H as <- <-. exists []. rewrite app_nil_r. auto.
  - cbn [for_fold] in H. rewrite bind_run in H.
    unfold highlight_cluster at 1 in H.
    destruct (Float.ge (p_value c) threshold) eqn:Hge.
    + rewrite ret_run in H. apply IH in H.
      rewrite filter_cons_False; [exact H|].
      unfold not_skipped. rewrite Hge. discriminate.
    + rewrite filter_cons_True by (unfold not_skipped; rewrite Hge; reflexivity).
      unfold mbind, ES_bind, lift in H.
      destruct (head (cluster_times c)) as [x1|] eqn:Hhead.
      2:{ injection H as <- <-. exists []. rewrite app_nil_r.
          repeat split; [auto..|discriminate]. }
      destruct (last (cluster_times c)) as [x2|] eqn:Hlast.
      2:{ injection H as <- <-. exists []. rewrite app_nil_r.
          repeat split; [auto..|discriminate]. }
      rewrite ax_run in H. cbn beta iota in H. rewrite ret_run in H.
      apply IH in H. destruct H as (hl & -> & Hcurves & Hhl).
      eexists (_ :: hl). split; [|split].
      * rewrite <- app_assoc. reflexivity.
      * exact Hcurves.
      * intros n' Hr. rewrite fmap_cons. unfold cluster_span at 1.
        rewrite Hhead, Hlast. cbn. f_equal. eauto.
Qed.

Lemma spans_zero_inr {S} (times : list float) (s s' : S) (z : bool) :
  spans_zero times s = (inr z, s') -> s' = s.
Proof.
  unfold spans_zero, mbind, ES_bind, lift.
  destruct (Np.vmin times); [discriminate|].
  destruct (Np.vmax times); [discriminate|].
  rewrite ret_run. intros [= _ ->]. reflexivity.
Qed.

Lemma label_time_run (decim : Z) (f : figure) :
  _label_time_by_time decim (Some "Time (s)") None f = (inr tt, f ++ label_time decim).
Proof. reflexivity. Qed.

Ltac es_atom H :=
  try first
    [ rewrite ret_run in H; simplify_eq
    | rewrite ax_run in H; simplify_eq
    | rewrite label_time_run in H; simplify_eq
    | apply spans_zero_inr in H; subst
    | apply lift_inr in H; destruct H as [H ->] ].

Ltac es_inv H :=
  repeat
    (let a := fresh "a" in
     let s1 := fresh "s" in
     let H1 := fresh "Hs" in
     apply bind_inr in H; destruct H as (a & s1 & H1 & H); es_atom H1);
  es_atom H.

Lemma new_figure_run (f : figure) (s : St) :
  new_figure f s =
    (inr (length (figures s)),
     set_open_figs (fun o => {[length (figures s)]} ∪ o)
       (set_figures (fun l => l ++ [f]) s)).
Proof. reflexivity. Qed.

Lemma with_axes_new {A} (d : Draw A) (f : figure) (s : St) :
  with_axes (length (figures s)) d
    (set_open_figs (fun o => {[length (figures s)]} ∪ o)
       (set_figures (fun l => l ++ [f]) s))
  = (fst (d f),
     set_open_figs (fun o => {[length (figures s)]} ∪ o)
       (set_figures (fun l => l ++ [snd (d f)]) s)).
Proof.
  unfold with_axes. cbn.
  rewrite lookup_app_r, Nat.sub_diag by lia. cbn.
  destruct (d f) as [r f']. cbn. f_equal.
  unfold set_open_figs, set_figures. cbn. f_equal.
  rewrite insert_app_r_alt, Nat.sub_diag by lia. reflexivity.
Qed.

Lemma gavg_figure (cfg : Cfg.t) (d : GA.decoding_data) (s s' : St) (fig : nat) :
  _plot_time_by_time_decoding_scores_gavg cfg d s = (inr fig, s') ->
  exists se0_lower se0_upper mean_scores se_lower se_upper ci_lower ci_upper hl z,
    let tg := Cfg.decoding_time_generalization cfg in
    Np.elementwise Float.sub (GA.mean d) (GA.mean_se d) = inr se0_lower /\
    Np.elementwise Float.add (GA.mean d) (GA.mean_se d) = inr se0_upper /\
    on_diagonal tg (GA.mean d) = inr mean_scores /\
    on_diagonal tg se0_lower = inr se_lower /\
    on_diagonal tg se0_upper = inr se_upper /\
    on_diagonal tg (GA.mean_ci_lower d) = inr ci_lower /\
    on_diagonal tg (GA.mean_ci_upper d) = inr ci_upper /\
    Some <$> highlights hl
      = cluster_span <$>
          filter (fun c => not_skipped (Cfg.cluster_permutation_p_threshold cfg) c = true)
                 (GA.clusters d) /\
    curves hl = [] /\
    fig = length (figures s) /\
    s' = set_open_figs (fun o => {[fig]} ∪ o)
           (set_figures (fun l => l ++
              [[SetYlim ylim_scores] ++ hl ++
               gavg_curves_cmds cfg d z mean_scores se_lower se_upper ci_lower ci_upper]) s).
Proof.
  unfold _plot_time_by_time_decoding_scores_gavg. intros H.
  es_inv H.
  destruct a1 as [[[[mean_scores se_lower] se_upper] ci_lower] ci_upper].
  assert (Hdiag :
    on_diagonal (Cfg.decoding_time_generalization cfg) (GA.mean d) = inr mean_scores /\
    on_diagonal (Cfg.decoding_time_generalization cfg) a = inr se_lower /\
    on_diagonal (Cfg.decoding_time_generalization cfg) a0 = inr se_upper /\
    on_diagonal (Cfg.decoding_time_generalization cfg) (GA.mean_ci_lower d) = inr ci_lower /\
    on_diagonal (Cfg.decoding_time_generalization cfg) (GA.mean_ci_upper d) = inr ci_upper /\
    s0 = s).
  { unfold on_diagonal. destruct (Cfg.decoding_time_generalization cfg).
    - es_inv Hs1. repeat split; auto.
    - es_inv Hs1. repeat split; auto. }
  destruct Hdiag as (Hm & Hl & Hu & Hcl & Hcu & ->). clear Hs1.
  es_inv H.
  match goal with
  | Hw : with_axes _ ?d _ = _ |- _ =>
      rewrite with_axes_new in Hw; destruct (d []) as [r f'] eqn:Hd;
      cbn [fst snd] in Hw; injection Hw as -> <-
  end.
  es_inv Hd.
  match goal with
  | Hf : for_fold _ _ _ _ = _ |- _ =>
      apply highlight_loop in Hf; destruct Hf as (hl & -> & Hcurves & Hhl)
  end.
  match goal with
  | Hz : when ?z _ _ = _ |- _ => rename Hz into Hwhen; set (z0 := z) in *
  end.
  exists a, a0, mean_scores, se_lower, se_upper, ci_lower, ci_upper, hl, z0.
  rewrite when_run in Hwhen. cbn zeta.
  repeat match goal with |- _ /\ _ => split end; eauto.
  unfold gavg_curves_cmds.
  destruct z0; [rewrite ax_run in Hwhen|]; simplify_eq;
    repeat f_equal; cbn; rewrite <- ?app_assoc; reflexivity.
Qed.

Lemma new_figure_lookup (s s' : St) (fig : nat) (f : figure) :
  fig = length (figures s) ->
  s' = set_open_figs (fun o => {[fig]} ∪ o) (set_figures (fun l => l ++ [f]) s) ->
  figures s' !! fig = Some f.
Proof.
  intros -> ->. cbn. rewrite lookup_app_r, Nat.sub_diag by lia. reflexivity.
Qed.

(** ** Comparison of floats *)

Lemma SFcompare_antisym (x y : float) :
  SFcompare x y = CompOpp <$> SFcompare y x.
Proof.
  destruct x as [sx|sx| |sx mx ex], y as [sy|sy| |sy my ey]; cbn;
    try reflexivity;
    try (destruct sx; reflexivity); try (destruct sy; reflexivity);
    try (destruct sx, sy; reflexivity).
  destruct sx, sy; cbn; try reflexivity;
    rewrite (Z.compare_antisym ey ex);
    destruct (ey ?= ex)%Z; cbn; try reflexivity;
    change (Pos.compare_cont Eq mx my) with (mx ?= my)%positive;
    change (Pos.compare_cont Eq my mx) with (my ?= mx)%positive;
    rewrite (Pos.compare_antisym my mx); destruct (my ?= mx)%positive; reflexivity.
Qed.

Lemma SFcompare_not_nan (x y : float) :
  Float.is_nan x = false -> Float.is_nan y = false ->
  exists c, SFcompare x y = Some c.
Proof.
  destruct x as [sx|sx| |sx mx ex], y as [sy|sy| |sy my ey]; cbn;
    try discriminate; eauto.
Qed.

(** Away from NaN, [p >= threshold] fails exactly when [p < threshold]. *)
Lemma not_ge_lt (p threshold : float) :
  Float.is_nan p = false -> Float.is_nan threshold = false ->
  negb (Float.ge p threshold) = Float.lt p threshold.
Proof.
  intros Hp Ht. unfold Float.ge, Float.lt, SFleb, SFltb.
  rewrite (SFcompare_antisym p threshold).
  destruct (SFcompare_not_nan threshold p Ht Hp) as [c ->].
  destruct c; reflexivity.
Qed.

Lemma filter_ext_Forall {A} (P Q : A -> Prop) `{!forall x, Decision (P x)}
  `{!forall x, Decision (Q x)} (l : list A) :
  Forall (fun x => P x <-> Q x) l -> filter P l = filter Q l.
Proof.
  induction 1 as [|x l Hx _ IH]; [reflexivity|].
  rewrite !filter_cons, IH.
  destruct (decide (P x)), (decide (Q x)); tauto.
Qed.

(** C3. In the grand-average time-by-time figure the shaded spans are, in
    order, the spans of exactly those clusters whose p-value is strictly
    below [cfg.cluster_permutation_p_threshold]; a cluster whose p-value is
    greater than or equal to the threshold contributes no span.  The
    p-values and the threshold are numbers (not NaN). *)
Theorem significant_clusters_highlighted
  (cfg : Cfg.t) (d : GA.decoding_data) (s s' : St) (fig : nat) :
  Float.is_nan (Cfg.cluster_permutation_p_threshold cfg) = false ->
  Forall (fun c => Float.is_nan (p_value c) = false) (GA.clusters d) ->
  _plot_time_by_time_decoding_scores_gavg cfg d s = (inr fig, s') ->
  exists f,
    figures s' !! fig = Some f /\
    Some <$> highlights f
    = cluster_span <$>
        filter (fun c => Float.lt (p_value c) (Cfg.cluster_permutation_p_threshold cfg) = true)
               (GA.clusters d).
Proof.
  intros Hthr Hp H.
  apply gavg_figure in H.
  destruct H as (se0l & se0u & m & sl & su & cl & cu & hl & z & _ & _ & _ & _ & _ & _ & _
                 & Hhl & _ & Hfig & Hs').
  eexists. split; [eapply new_figure_lookup; eassumption|].
  rewrite !highlights_app.
  replace (highlights (gavg_curves_cmds cfg d z m sl su cl cu)) with (@nil (float * float))
    by (destruct z; reflexivity).
  change (highlights [SetYlim ylim_scores]) with (@nil (float * float)).
  rewrite app_nil_r, app_nil_l, Hhl. f_equal.
  apply filter_ext_Forall. eapply Forall_impl; [exact Hp|].
  intros c Hc. cbn beta. unfold not_skipped. rewrite not_ge_lt by assumption. tauto.
Qed.

(** ** Diagonals of score matrices *)

Lemma diagonal_from_zip_with (f : float -> float -> float) (m n : list (list float)) :
  forall i,
    Np.diagonal_from i (Np.mat_op f m n)
    = Np.vec_op f (Np.diagonal_from i m) (Np.diagonal_from i n).
Proof.
  unfold Np.mat_op, Np.vec_op. revert n.
  induction m as [|r m IH]; intros [|r' n] i; cbn; try reflexivity.
  - destruct (r !! i); reflexivity.
  - rewrite lookup_zip_with.
    destruct (r !! i) as [x|]; cbn; [|reflexivity].
    destruct (r' !! i) as [y|]; cbn; [|reflexivity].
    f_equal. apply IH.
Qed.

Lemma diagonal_mat_op (f : float -> float -> float) (m n : list (list float)) :
  Np.diagonal (Np.mat_op f m n) = Np.vec_op f (Np.diagonal m) (Np.diagonal n).
Proof. apply diagonal_from_zip_with. Qed.

Lemma diagonal_from_map (g : float -> float) (m : list (list float)) :
  forall i, Np.diagonal_from i (map (map g) m) = map g (Np.diagonal_from i m).
Proof.
  induction m as [|r m IH]; intros i; cbn; [reflexivity|].
  change (map g r) with (g <$> r). rewrite list_lookup_fmap.
  destruct (r !! i); cbn; [|reflexivity]. f_equal. apply IH.
Qed.

Lemma diagonal_fold_left (f : float -> float -> float) (t : list (list (list float))) :
  forall m,
    Np.diagonal (fold_left (Np.mat_op f) t m)
    = fold_left (Np.vec_op f) (map Np.diagonal t) (Np.diagonal m).
Proof.
  induction t as [|m' t IH]; intros m; cbn; [reflexivity|].
  rewrite IH, diagonal_mat_op. reflexivity.
Qed.

(** Reducing the folds of a stack of matrices and then taking the diagonal
    is reducing the diagonals of the folds. *)
Lemma diagonal_reduce0 (f : float -> float -> float) (t : list (list (list float))) :
  Np.diagonal (Np.reduce0 (Np.mat_op f) t [])
  = Np.reduce0 (Np.vec_op f) (map Np.diagonal t) [].
Proof. destruct t as [|m t]; [reflexivity|]. apply diagonal_fold_left. Qed.

Lemma diag_mean0 (t : list (list (list float))) (a b : ndarray) :
  Np.mean0 (Np.Nd3 t) = inr a -> Np.diag a = inr b ->
  Np.mean0 (Np.Nd2 (map Np.diagonal t)) = inr b.
Proof.
  cbn. intros [= <-]. cbn. intros [= <-]. do 2 f_equal.
  unfold Np.diagonal. rewrite diagonal_from_map. rewrite length_map. f_equal.
  symmetry. apply diagonal_reduce0.
Qed.

Lemma diag_extremum0 (f : float -> float -> float) (t : list (list (list float)))
  (a b : ndarray) :
  Np.extremum0 f (Np.Nd3 t) = inr a -> Np.diag a = inr b ->
  Np.extremum0 f (Np.Nd2 (map Np.diagonal t)) = inr b.
Proof.
  destruct t as [|m t]; [discriminate|].
  cbn. intros [= <-]. cbn. intros [= <-]. do 2 f_equal.
  symmetry. apply diagonal_fold_left.
Qed.

Lemma diag_elementwise (f : float -> float -> float) (m n : list (list float))
  (a b : ndarray) :
  Np.elementwise f (Np.Nd2 m) (Np.Nd2 n) = inr a -> Np.diag a = inr b ->
  b = Np.Nd1 (Np.vec_op f (Np.diagonal m) (Np.diagonal n)).
Proof.
  cbn. destruct (Np.same_shape2 m n); [|discriminate].
  intros [= <-]. cbn. intros [= <-]. f_equal. apply diagonal_mat_op.
Qed.

(** ** The figure of the single-subject scores *)

Lemma subject_figure (times : list float) (cross_val_scores : ndarray)
  (metric : string) (tg : bool) (decim : Z) (s s' : St) (fig : nat) :
  _plot_time_by_time_decoding_scores times cross_val_scores metric tg decim s
    = (inr fig, s') ->
  exists mean0 max0 min0 mean_scores max_scores min_scores z,
    Np.mean0 cross_val_scores = inr mean0 /\
    Np.max0 cross_val_scores = inr max0 /\
    Np.min0 cross_val_scores = inr min0 /\
    on_diagonal tg mean0 = inr mean_scores /\
    on_diagonal tg max0 = inr max_scores /\
    on_diagonal tg min0 = inr min_scores /\
    fig = length (figures s) /\
    s' = set_open_figs (fun o => {[fig]} ∪ o)
           (set_figures (fun l => l ++
              [subject_curves_cmds times metric decim z
                 mean_scores max_scores min_scores]) s).
Proof.
  unfold _plot_time_by_time_decoding_scores. intros H.
  es_inv H.
  match goal with
  | a : (ndarray * ndarray * ndarray)%type |- _ =>
      destruct a as [[mean_scores max_scores] min_scores]
  end.
  match goal with
  | Hd : (if tg then _ else _) _ = _ |- _ =>
      assert (Hdiag :
        on_diagonal tg a = inr mean_scores /\
        on_diagonal tg a0 = inr max_scores /\
        on_diagonal tg a1 = inr min_scores /\ s0 = s)
        by (unfold on_diagonal; destruct tg; es_inv Hd; repeat split; auto);
      clear Hd
  end.
  destruct Hdiag as (Hm & Hmx & Hmn & ->).
  es_inv H.
  match goal with
  | Hw : with_axes _ ?d _ = _ |- _ =>
      rewrite with_axes_new in Hw; destruct (d []) as [r f'] eqn:Hd;
      cbn [fst snd] in Hw; injection Hw as -> <-
  end.
  es_inv Hd.
  match goal with
  | Hz : when ?z _ _ = _ |- _ => rename Hz into Hwhen; set (z0 := z) in *
  end.
  exists a, a0, a1, mean_scores, max_scores, min_scores, z0.
  rewrite when_run in Hwhen.
  repeat match goal with |- _ /\ _ => split end; eauto.
  unfold subject_curves_cmds.
  destruct z0; [rewrite ax_run in Hwhen|]; simplify_eq;
    repeat f_equal; cbn; rewrite <- ?app_assoc; reflexivity.
Qed.

Lemma curves_subject (times : list float) (metric : string) (decim : Z) (z : bool)
  (mean_scores max_scores min_scores : ndarray) :
  curves (subject_curves_cmds times metric decim z mean_scores max_scores min_scores)
  = [FillBetween times min_scores max_scores "range [min, max]";
     Plot times mean_scores (Some "mean")].
Proof. destruct z; reflexivity. Qed.

Lemma curves_gavg (cfg : Cfg.t) (d : GA.decoding_data) (z : bool)
  (mean_scores se_lower se_upper ci_lower ci_upper : ndarray) :
  curves (gavg_curves_cmds cfg d z mean_scores se_lower se_upper ci_lower ci_upper)
  = [FillBetween (GA.times d) ci_lower ci_upper "95% confidence interval";
     Plot (GA.times d) mean_scores (Some "mean");
     Plot (GA.times d) se_lower (Some "mean ± standard error");
     Plot (GA.times d) se_upper None].
Proof. destruct z; reflexivity. Qed.

(** C10. With time generalization enabled, the curves of both time-course
    plots are computed from the diagonal entries of the score matrices only.
    Single subject: the mean and the min/max band are the fold-wise mean,
    minimum and maximum of the diagonals of the folds.  Grand average: the
    mean, the standard-error curves and the confidence band are the
    diagonal of the mean, the diagonal of the mean minus and plus the
    diagonal of the standard error, and the diagonals of the confidence
    bounds.  No other curve is drawn from the score arrays. *)
Theorem decoding_plots_use_diagonal :
  (forall (times : list float) (folds : list (list (list float))) (metric : string)
          (decim : Z) (s s' : St) (fig : nat),
     _plot_time_by_time_decoding_scores times (Np.Nd3 folds) metric true decim s
       = (inr fig, s') ->
     exists f mean_scores max_scores min_scores,
       figures s' !! fig = Some f /\
       Np.mean0 (Np.Nd2 (map Np.diagonal folds)) = inr mean_scores /\
       Np.max0 (Np.Nd2 (map Np.diagonal folds)) = inr max_scores /\
       Np.min0 (Np.Nd2 (map Np.diagonal folds)) = inr min_scores /\
       curves f = [FillBetween times min_scores max_scores "range [min, max]";
                   Plot times mean_scores (Some "mean")])
  /\
  (forall (cfg : Cfg.t) (d : GA.decoding_data) (mean se lower upper : list (list float))
          (s s' : St) (fig : nat),
     Cfg.decoding_time_generalization cfg = true ->
     GA.mean d = Np.Nd2 mean ->
     GA.mean_se d = Np.Nd2 se ->
     GA.mean_ci_lower d = Np.Nd2 lower ->
     GA.mean_ci_upper d = Np.Nd2 upper ->
     _plot_time_by_time_decoding_scores_gavg cfg d s = (inr fig, s') ->
     exists f,
       figures s' !! fig = Some f /\
       curves f =
         [FillBetween (GA.times d) (Np.Nd1 (Np.diagonal lower))
            (Np.Nd1 (Np.diagonal upper)) "95% confidence interval";
          Plot (GA.times d) (Np.Nd1 (Np.diagonal mean)) (Some "mean");
          Plot (GA.times d)
            (Np.Nd1 (Np.vec_op Float.sub (Np.diagonal mean) (Np.diagonal se)))
            (Some "mean ± standard error");
          Plot (GA.times d)
            (Np.Nd1 (Np.vec_op Float.add (Np.diagonal mean) (Np.diagonal se)))
            None]).
Proof.
  split.
  - intros times folds metric decim s s' fig H.
    apply subject_figure in H.
    destruct H as (m0 & mx0 & mn0 & m & mx & mn & z & Hm0 & Hmx0 & Hmn0
                   & Hm & Hmx & Hmn & Hfig & Hs').
    cbn [on_diagonal] in Hm, Hmx, Hmn. unfold Np.max0, Np.min0 in *.
    exists (subject_curves_cmds times metric decim z m mx mn), m, mx, mn.
    split; [eapply new_figure_lookup; eassumption|].
    split; [eapply diag_mean0; eassumption|].
    split; [eapply diag_extremum0; eassumption|].
    split; [eapply diag_extremum0; eassumption|].
    apply curves_subject.
  - intros cfg d mean se lower upper s s' fig Htg Hmean Hse Hlower Hupper H.
    apply gavg_figure in H.
    destruct H as (se0l & se0u & m & sl & su & cl & cu & hl & z & Hsub & Hadd
                   & Hm & Hsl & Hsu & Hcl & Hcu & _ & Hcurves & Hfig & Hs').
    rewrite Htg in Hm, Hsl, Hsu, Hcl, Hcu. cbn [on_diagonal] in Hm, Hsl, Hsu, Hcl, Hcu.
    rewrite Hmean, Hse in Hsub, Hadd.
    rewrite Hmean in Hm. rewrite Hlower in Hcl. rewrite Hupper in Hcu.
    pose proof (diag_elementwise _ _ _ _ _ Hsub Hsl) as ->.
    pose proof (diag_elementwise _ _ _ _ _ Hadd Hsu) as ->.
    cbn in Hm, Hcl, Hcu. simplify_eq.
    eexists. split; [eapply new_figure_lookup; eauto|].
    rewrite !curves_app, Hcurves, curves_gavg. reflexivity.
Qed.

(** C1, as the code has it.  Whatever the number of subjects, the figure
    that [_plot_time_by_time_decoding_scores_gavg] builds carries, besides
    the mean curve, the 95% confidence band and the two standard-error
    curves computed from the stored [mean_se], [mean_ci_lower] and
    [mean_ci_upper]: nothing is left out for a single subject. *)
Theorem grand_average_figure_draws_uncertainty
  (cfg : Cfg.t) (d : GA.decoding_data) (s s' : St) (fig : nat) :
  _plot_time_by_time_decoding_scores_gavg cfg d s = (inr fig, s') ->
  exists f se0_lower se0_upper mean_scores se_lower se_upper ci_lower ci_upper,
    let tg := Cfg.decoding_time_generalization cfg in
    figures s' !! fig = Some f /\
    Np.elementwise Float.sub (GA.mean d) (GA.mean_se d) = inr se0_lower /\
    Np.elementwise Float.add (GA.mean d) (GA.mean_se d) = inr se0_upper /\
    on_diagonal tg (GA.mean d) = inr mean_scores /\
    on_diagonal tg se0_lower = inr se_lower /\
    on_diagonal tg se0_upper = inr se_upper /\
    on_diagonal tg (GA.mean_ci_lower d) = inr ci_lower /\
    on_diagonal tg (GA.mean_ci_upper d) = inr ci_upper /\
    curves f =
      [FillBetween (GA.times d) ci_lower ci_upper "95% confidence interval";
       Plot (GA.times d) mean_scores (Some "mean");
       Plot (GA.times d) se_lower (Some "mean ± standard error");
       Plot (GA.times d) se_upper None].
Proof.
  intros H. apply gavg_figure in H.
  destruct H as (se0l & se0u & m & sl & su & cl & cu & hl & z & Hsub & Hadd
                 & Hm & Hsl & Hsu & Hcl & Hcu & _ & Hcurves & Hfig & Hs').
  eexists _, se0l, se0u, m, sl, su, cl, cu. cbn zeta.
  split; [eapply new_figure_lookup; eauto|].
  repeat (split; [assumption|]).
  rewrite !curves_app, Hcurves, curves_gavg. reflexivity.
Qed.

(** ** Relations preserved by every step of a run *)

Section Preserves.

Context {S : Type} (R : S -> S -> Prop) `{!PreOrder R}.

Lemma preserves_ret {A} (a : A) : preserves R (mret a).
Proof. intros s r s' [= _ <-]. reflexivity. Qed.

Lemma preserves_raise {A} (e : exn) : preserves R (raise e : ES S A).
Proof. intros s r s' [= _ <-]. reflexivity. Qed.

Lemma preserves_lift {A} (x : result A) : preserves R (lift x : ES S A).
Proof. intros s r s' [= _ <-]. reflexivity. Qed.

Lemma preserves_gets {A} (f : S -> A) : preserves R (gets f).
Proof. intros s r s' [= _ <-]. reflexivity. Qed.

Lemma preserves_bind {A B} (m : ES S A) (k : A -> ES S B) :
  preserves R m -> (forall a, preserves R (k a)) -> preserves R (m ≫= k).
Proof.
  intros Hm Hk s r s'. rewrite bind_run.
  destruct (m s) as [[e|a] s1] eqn:E.
  - intros [= _ <-]. exact (Hm _ _ _ E).
  - intros H. transitivity s1; [exact (Hm _ _ _ E)|exact (Hk _ _ _ _ H)].
Qed.

Lemma preserves_when (b : bool) (m : ES S unit) :
  preserves R m -> preserves R (when b m).
Proof. destruct b; [auto|]. intros _. apply preserves_ret. Qed.

Lemma preserves_for_each {A} (xs : list A) (body : A -> ES S unit) :
  (forall x, preserves R (body x)) -> preserves R (for_each xs body).
Proof.
  intros Hb. induction xs as [|x xs IH]; cbn [for_each].
  - apply preserves_ret.
  - apply preserves_bind; auto.
Qed.

Lemma preserves_for_collect {A B} (xs : list A) (body : A -> ES S B) :
  (forall x, preserves R (body x)) -> preserves R (for_collect xs body).
Proof.
  intros Hb. induction xs as [|x xs IH]; cbn [for_collect].
  - apply preserves_ret.
  - apply preserves_bind; [auto|]. intros y.
    apply preserves_bind; [auto|]. intros ys. apply preserves_ret.
Qed.

Lemma preserves_for_fold {A B} (xs : list A) (body : B -> A -> ES S B) :
  (forall acc x, preserves R (body acc x)) ->
  forall acc, preserves R (for_fold xs acc body).
Proof.
  intros Hb. induction xs as [|x xs IH]; intros acc; cbn [for_fold].
  - apply preserves_ret.
  - apply preserves_bind; auto.
Qed.

Lemma preserves_modify (f : S -> S) :
  (forall s, R s (f s)) -> preserves R (modify f).
Proof. intros Hf s r s' [= _ <-]. apply Hf. Qed.

End Preserves.

(** A step may rely on what the step before it has returned, and the body
    of a loop on its element being one of the list. *)
Lemma preserves_bind_strong {S A B} (R : S -> S -> Prop) `{!PreOrder R}
  (m : ES S A) (k : A -> ES S B) :
  preserves R m ->
  (forall a s s1, m s = (inr a, s1) -> preserves R (k a)) ->
  preserves R (m ≫= k).
Proof.
  intros Hm Hk s r s'. rewrite bind_run.
  destruct (m s) as [[e|a] s1] eqn:E.
  - intros [= _ <-]. exact (Hm _ _ _ E).
  - intros H. transitivity s1; [exact (Hm _ _ _ E)|exact (Hk _ _ _ E _ _ _ H)].
Qed.

Lemma preserves_for_each_in {S A} (R : S -> S -> Prop) `{!PreOrder R}
  (xs : list A) (body : A -> ES S unit) :
  (forall x, x ∈ xs -> preserves R (body x)) -> preserves R (for_each xs body).
Proof.
  induction xs as [|x xs IH]; intros Hb; cbn [for_each].
  - apply preserves_ret. assumption.
  - apply preserves_bind; [assumption|apply Hb, list_elem_of_here|].
    intros _. apply IH. intros y Hy. apply Hb, list_elem_of_further, Hy.
Qed.

(** Splits a goal [preserves R m] along the structure of [m]. *)
Ltac papply lem := apply lem; try (typeclasses eauto).

Ltac preserves_split :=
  repeat first
    [ papply preserves_ret
    | papply preserves_raise
    | papply preserves_lift
    | papply preserves_gets
    | papply preserves_bind; [|intros ?]
    | papply preserves_when
    | papply preserves_for_each; intros ?
    | papply preserves_for_collect; intros ?
    | papply preserves_for_fold; intros ? ?
    | match goal with
      | |- preserves _ (if ?b then _ else _) => destruct b
      | |- preserves _ (match ?x with _ => _ end) => destruct x
      | |- preserves _ (let '(_, _) := ?x in _) => destruct x
      end ].

Create HintDb es_defs.

#[global] Hint Unfold
  logger_info logger_warning report_add report_add_custom_css plt_close
  plt_close_all plt_subplots report_add_figure spans_zero : es_defs.

#[global] Hint Unfold
  _plot_full_epochs_decoding_scores _plot_time_by_time_decoding_scores
  _plot_time_by_time_decoding_scores_gavg plot_time_by_time_decoding_t_values
  _plot_decoding_time_generalization : es_defs.

#[global] Hint Unfold
  bad_file read_raw_fif read_epochs read_ica read_proj read_evokeds read_tfrs
  loadmat_full_epochs loadmat_time_by_time loadmat_grand_average
  get_events get_er_path plot_auto_scores_ _gen_empty_report in_conditions
  add_system_info add_event_counts add_decoding_grand_average : es_defs.

(** Closes the leaves of a [preserves] goal: the operations on the state,
    for a relation that [solve_R] proves of each single update. *)
Ltac preserves_leaf solve_R :=
  first
    [ papply preserves_modify; intros ?; solve_R
    | let H := fresh in
      intros ? ? ? H;
      cbv [new_report new_figure with_axes report_save read raise mret ES_ret] in H;
      repeat case_match; simplify_eq; solve_R ].

Ltac preserves_auto solve_R :=
  repeat (preserves_split; try (autounfold with es_defs);
          try solve [preserves_leaf solve_R]).

(** Turns a run [H : m s = (r, s')] into the relation [R s s'] that [m]
    preserves, proved by [tac]. *)
Ltac run_preserves R H tac :=
  match type of H with
  | ?m _ = _ =>
      let P := fresh in
      assert (P : preserves R m) by tac; apply P in H; clear P
  end.

(** What every round of a loop establishes for its element, and no later
    round undoes, holds for all elements when the loop returns. *)
Lemma for_each_establishes {A} (I : St -> Prop) (Q : A -> St -> Prop)
  (xs : list A) (body : A -> M unit) :
  (forall x s s', I s -> body x s = (inr tt, s') -> I s' /\ Q x s') ->
  (forall x y s s', Q x s -> body y s = (inr tt, s') -> Q x s') ->
  forall s s', I s -> for_each xs body s = (inr tt, s') ->
  forall x, x ∈ xs -> Q x s'.
Proof.
  intros Hestablish Hstable.
  assert (Hkeep : forall ys x s s', Q x s -> for_each ys body s = (inr tt, s') -> Q x s').
  { induction ys as [|y ys IH]; intros x s s' HQ H; cbn [for_each] in H.
    - injection H as <-. exact HQ.
    - apply bind_inr in H as ([] & s1 & Hy & H). eauto. }
  induction xs as [|y xs IH]; intros s s' HI H x Hx; [inversion Hx|].
  cbn [for_each] in H. apply bind_inr in H as ([] & s1 & Hy & H).
  destruct (Hestablish _ _ _ HI Hy) as [HI1 HQ1].
  apply elem_of_cons in Hx as [->|Hx]; [exact (Hkeep _ _ _ _ HQ1 H)|].
  exact (IH _ _ HI1 H _ Hx).
Qed.

(** *** Nothing is saved *)

#[global] Instance same_saved_preorder : PreOrder same_saved.
Proof. split; [intros s; reflexivity|intros s1 s2 s3 H1 H2; unfold same_saved in *; congruence]. Qed.

Section Saved.

Context {W : World}.

Lemma add_decoding_grand_average_saved (session : option string) (cfg : Cfg.t)
  (report : nat) :
  preserves same_saved (add_decoding_grand_average session cfg report).
Proof. unfold add_decoding_grand_average. preserves_auto ltac:(reflexivity). Qed.

(** *** Runs that always raise *)

Lemma always_raises_bind_l {A B} (m : M A) (k : A -> M B) :
  always_raises m -> always_raises (m ≫= k).
Proof. intros Hm s. apply bind_raise_l, Hm. Qed.

Lemma always_raises_bind_r {A B} (m : M A) (k : A -> M B) :
  (forall a, always_raises (k a)) -> always_raises (m ≫= k).
Proof.
  intros Hk s. rewrite bind_run. destruct (m s) as [[e|a] s1]; [exact I|apply Hk].
Qed.

Lemma always_raises_for_collect {A B} (xs : list A) (body : A -> M B) (x : A) :
  x ∈ xs -> always_raises (body x) -> always_raises (for_collect xs body).
Proof.
  intros Hin Hx. induction xs as [|y xs IH]; [inversion Hin|].
  cbn [for_collect]. apply elem_of_cons in Hin as [Heq|Hin]; [subst y|].
  - apply always_raises_bind_l, Hx.
  - apply always_raises_bind_r. intros ?. apply always_raises_bind_l, IH, Hin.
Qed.

Lemma always_raises_for_each {A} (xs : list A) (body : A -> M unit) (x : A) :
  x ∈ xs -> always_raises (body x) -> always_raises (for_each xs body).
Proof.
  intros Hin Hx. induction xs as [|y xs IH]; [inversion Hin|].
  cbn [for_each]. apply elem_of_cons in Hin as [Heq|Hin]; [subst y|].
  - apply always_raises_bind_l, Hx.
  - apply always_raises_bind_r. intros ?. apply IH, Hin.
Qed.

Lemma read_missing (p : path) :
  fs p = None -> always_raises (read p).
Proof. intros Hp s. unfold read. rewrite Hp. exact I. Qed.

Lemma add_decoding_grand_average_raises (session : option string) (cfg : Cfg.t)
  (report : nat) :
  score_file_missing cfg session ->
  always_raises (add_decoding_grand_average session cfg report).
Proof.
  intros (contrast & analysis & Hin & [-> | ->] & Hfs);
    unfold add_decoding_grand_average; cbn zeta.
  - apply always_raises_bind_l.
    apply (always_raises_for_collect _ _ contrast Hin).
    unfold loadmat_full_epochs. apply always_raises_bind_l, read_missing, Hfs.
  - do 4 (apply always_raises_bind_r; intros ?).
    apply (always_raises_for_each _ _ contrast Hin).
    destruct contrast as [cond_1 cond_2].
    unfold loadmat_grand_average.
    do 2 apply always_raises_bind_l. apply read_missing, Hfs.
Qed.

Lemma decoding_requested_true (cfg : Cfg.t) (contrast : string * string) :
  Cfg.decode cfg = true -> contrast ∈ Cfg.decoding_contrasts cfg ->
  decoding_requested cfg = true.
Proof.
  unfold decoding_requested. intros -> Hin.
  destruct (Cfg.decoding_contrasts cfg); [inversion Hin|reflexivity].
Qed.

Lemma run_report_average_raises (cfg : Cfg.t) (subject : string)
  (session : option string) :
  Cfg.decode cfg = true -> score_file_missing cfg session ->
  always_raises (run_report_average cfg subject session).
Proof.
  intros Hdecode Hmissing. unfold run_report_average; cbn zeta.
  do 6 (apply always_raises_bind_r; intros ?).
  apply always_raises_bind_l.
  destruct Hmissing as (contrast & analysis & Hin & Hrest).
  rewrite (decoding_requested_true cfg contrast Hdecode Hin). cbn [when].
  apply add_decoding_grand_average_raises. exists contrast, analysis. auto.
Qed.

(** *** A run that raises has saved nothing *)

Lemma saves_only_on_return_bind {A B} (m : M A) (k : A -> M B) :
  preserves same_saved m -> (forall a, saves_only_on_return (k a)) ->
  saves_only_on_return (m ≫= k).
Proof.
  intros Hm Hk s e s'. rewrite bind_run.
  destruct (m s) as [[e1|a] s1] eqn:E.
  - intros [= _ <-]. exact (Hm _ _ _ E).
  - intros H. rewrite (Hk _ _ _ _ H). exact (Hm _ _ _ E).
Qed.

Lemma run_report_average_saves_only_on_return (cfg : Cfg.t) (subject : string)
  (session : option string) :
  saves_only_on_return (run_report_average cfg subject session).
Proof.
  unfold run_report_average; cbn zeta.
  repeat (apply saves_only_on_return_bind;
          [solve [preserves_auto ltac:(reflexivity)]|intros ?]).
  intros s e s'. rewrite bind_run. unfold report_save.
  destruct (reports s !! _); [discriminate|]. intros [= _ <-]. reflexivity.
Qed.

(** *** The exception of a missing file *)

Lemma rom_bind_strong {A B} (m : M A) (k : A -> M B) :
  raises_only_missing m ->
  (forall a s s1, m s = (inr a, s1) -> raises_only_missing (k a)) ->
  raises_only_missing (m ≫= k).
Proof.
  intros Hm Hk s e s'. rewrite bind_run.
  destruct (m s) as [[e1|a] s1] eqn:E.
  - intros [= <- <-]. exact (Hm _ _ _ E).
  - intros H. exact (Hk _ _ _ E _ _ _ H).
Qed.

Lemma rom_bind {A B} (m : M A) (k : A -> M B) :
  raises_only_missing m -> (forall a, raises_only_missing (k a)) ->
  raises_only_missing (m ≫= k).
Proof. intros Hm Hk. apply rom_bind_strong; auto. Qed.

Lemma rom_never {A} (m : M A) : never_raises m -> raises_only_missing m.
Proof.
  intros Hm s e s' H. destruct (Hm s) as (a & s1 & E). congruence.
Qed.

Lemma rom_ret {A} (a : A) : raises_only_missing (mret a).
Proof. intros s e s' H. discriminate H. Qed.

Lemma rom_modify (f : St -> St) : raises_only_missing (modify f).
Proof. intros s e s' H. discriminate H. Qed.

Lemma rom_gets {A} (f : St -> A) : raises_only_missing (gets f).
Proof. intros s e s' H. discriminate H. Qed.

Lemma rom_when (b : bool) (m : M unit) :
  raises_only_missing m -> raises_only_missing (when b m).
Proof. destruct b; [auto|]. intros _. apply rom_ret. Qed.

Lemma rom_read (p : path) : raises_only_missing (read p).
Proof.
  intros s e s'. unfold read. destruct (fs p) eqn:Hp; [discriminate|].
  intros [= <- _]. exists p. auto.
Qed.

Lemma rom_for_each {A} (xs : list A) (body : A -> M unit) :
  (forall x, x ∈ xs -> raises_only_missing (body x)) ->
  raises_only_missing (for_each xs body).
Proof.
  induction xs as [|x xs IH]; intros Hb; cbn [for_each].
  - apply rom_ret.
  - apply rom_bind.
    + apply Hb, list_elem_of_here.
    + intros _. apply IH. intros y Hy. apply Hb, list_elem_of_further, Hy.
Qed.

Lemma rom_for_collect {A B} (xs : list A) (body : A -> M B) :
  (forall x, x ∈ xs -> raises_only_missing (body x)) ->
  raises_only_missing (for_collect xs body).
Proof.
  induction xs as [|x xs IH]; intros Hb; cbn [for_collect].
  - apply rom_ret.
  - apply rom_bind.
    + apply Hb, list_elem_of_here.
    + intros y. apply rom_bind; [|intros ?; apply rom_ret].
      apply IH. intros z Hz. apply Hb, list_elem_of_further, Hz.
Qed.

Lemma read_inr (p : path) (s s' : St) (a : artifact) :
  read p s = (inr a, s') -> fs p = Some a.
Proof.
  unfold read. destruct (fs p); [|discriminate]. intros [= <- _]. reflexivity.
Qed.

(** What a loop that collects results has collected when it returns. *)
Lemma for_collect_inr {A B} (xs : list A) (body : A -> M B) :
  forall (s s' : St) (ys : list B),
    for_collect xs body s = (inr ys, s') ->
    Forall2 (fun x y => exists s1 s2, body x s1 = (inr y, s2)) xs ys.
Proof.
  induction xs as [|x xs IH]; intros s s' ys H; cbn [for_collect] in H.
  - injection H as <- _. constructor.
  - apply bind_inr in H as (y & s1 & Hy & H).
    apply bind_inr in H as (ys' & s2 & Hys & H).
    injection H as <- _. constructor; eauto.
Qed.

Lemma loadmat_full_epochs_inr (fname : BIDSPath) (s s' : St) (scores : list float) :
  loadmat_full_epochs fname s = (inr scores, s') ->
  fs (File fname) = Some (FullEpochsMat scores).
Proof.
  unfold loadmat_full_epochs, read. rewrite bind_run.
  destruct (fs (File fname)) as [[]|]; cbn; try discriminate.
  intros [= <- _]. reflexivity.
Qed.

Lemma loadmat_grand_average_inr (fname : BIDSPath) (s s' : St)
  (d : GA.decoding_data) :
  loadmat_grand_average fname s = (inr d, s') ->
  fs (File fname) = Some (GrandAverageMat d).
Proof.
  unfold loadmat_grand_average, read. rewrite bind_run.
  destruct (fs (File fname)) as [[]|]; cbn; try discriminate.
  intros [= <- _]. reflexivity.
Qed.

Lemma rom_report_add_figure (report : nat) (figs : list nat) (title : string)
  (section : option string) :
  raises_only_missing (report_add_figure report figs title section).
Proof. apply rom_bind; [apply rom_gets|intros ?; apply rom_modify]. Qed.

Lemma add_decoding_grand_average_rom (session : option string) (cfg : Cfg.t)
  (subject : string) (report : nat) :
  grand_average_inputs_ok cfg subject session ->
  raises_only_missing (add_decoding_grand_average session cfg report).
Proof.
  intros (_ & _ & _ & Hfull & Hplot & Htbt).
  unfold add_decoding_grand_average. cbn zeta.
  apply rom_bind_strong.
  { apply rom_for_collect. intros contrast Hin.
    unfold loadmat_full_epochs. apply rom_bind_strong; [apply rom_read|].
    intros a s s1 Ha. apply read_inr in Ha.
    destruct (Hfull contrast a Hin Ha) as (scores & ->). apply rom_ret. }
  intros all_scores s s1 Hloop.
  apply rom_bind.
  { apply rom_never, Hplot.
    apply for_collect_inr in Hloop.
    eapply Forall2_impl; [exact Hloop|]. cbn.
    intros contrast scores (s2 & s3 & Hload).
    exact (loadmat_full_epochs_inr _ _ _ _ Hload). }
  intros fig. apply rom_bind; [apply rom_report_add_figure|intros _].
  apply rom_bind; [apply rom_modify|intros _].
  apply rom_for_each. intros [cond_1 cond_2] Hin.
  apply rom_bind_strong.
  { unfold loadmat_grand_average. apply rom_bind_strong; [apply rom_read|].
    intros a s2 s3 Ha. apply read_inr in Ha.
    destruct (Htbt _ a Hin Ha) as (d & -> & _). apply rom_ret. }
  intros d s2 s3 Hload. apply loadmat_grand_average_inr in Hload.
  destruct (Htbt _ _ Hin Hload) as (d' & [= <-] & Hscores & Htvalues & Hgen).
  apply rom_bind; [apply rom_never, Hscores|intros fig'].
  apply rom_bind.
  { apply rom_when, rom_bind; [apply rom_report_add_figure|intros _; apply rom_modify]. }
  intros _. apply rom_bind.
  { apply rom_when, rom_bind; [apply rom_never, Htvalues|intros fig''].
    apply rom_bind; [apply rom_report_add_figure|intros _; apply rom_modify]. }
  intros _. apply rom_when, rom_bind; [apply rom_never, Hgen|intros fig''].
  apply rom_bind; [apply rom_report_add_figure|intros _; apply rom_modify].
Qed.

Lemma run_report_average_rom (cfg : Cfg.t) (subject : string)
  (session : option string) :
  Cfg.decode cfg = true ->
  score_file_missing cfg session ->
  grand_average_inputs_ok cfg subject session ->
  raises_only_missing (run_report_average cfg subject session).
Proof.
  intros Hdecode Hmissing Hok.
  pose proof Hok as (Hconditions & Hevents & Hevoked & _).
  unfold run_report_average. cbn zeta.
  apply rom_bind; [apply rom_modify|intros _].
  apply rom_bind; [intros s e s' H; discriminate H|intros report].
  apply rom_bind.
  { unfold read_evokeds. apply rom_bind_strong; [apply rom_read|].
    intros a s s1 Ha. apply read_inr in Ha.
    destruct (Hevoked a Ha) as (n & ->). apply rom_ret. }
  intros evokeds.
  destruct (Cfg.conditions cfg) as [conditions|] eqn:Hcond; [|contradiction].
  apply rom_bind; [apply rom_ret|intros all_conditions].
  apply rom_bind.
  { unfold add_event_counts. apply rom_bind.
    - destruct (count_events _ _) as [e|df] eqn:Hcount; [|apply rom_ret].
      destruct (Hevents e eq_refl) as (msg & ->).
      apply rom_bind; [apply rom_modify|intros _; apply rom_ret].
    - intros [df|]; [|apply rom_ret].
      apply rom_bind; [apply rom_modify|intros _; apply rom_modify]. }
  intros _. apply rom_bind.
  { apply rom_for_each. intros [condition evoked] _.
    unfold in_conditions. rewrite Hcond.
    apply rom_bind; [apply rom_ret|intros is_condition].
    destruct (negb is_condition); [apply rom_ret|apply rom_modify]. }
  intros _. apply rom_bind_strong.
  { apply rom_when. eapply add_decoding_grand_average_rom, Hok. }
  intros [] s s1 Hreturned.
  destruct Hmissing as (contrast & analysis & Hin & Hrest).
  rewrite (decoding_requested_true cfg contrast Hdecode Hin) in Hreturned.
  cbn [when] in Hreturned.
  pose proof (add_decoding_grand_average_raises session cfg report
                (ex_intro _ contrast (ex_intro _ analysis (conj Hin Hrest))) s) as Hraise.
  rewrite Hreturned in Hraise. destruct Hraise.
Qed.

(** C2. When decoding is enabled and the score file of some contrast, for
    the full epochs or time by time, is missing from the artifact store, the
    grand-average phase ends in an exception, and no report has been saved
    when it does.  When the inputs are otherwise well formed, the exception
    is the [FileNotFoundError] of a file that is not in the store. *)
Theorem missing_score_artifact_aborts_grand_average
  (cfg : Cfg.t) (subject : string) (session : option string) (s : St) :
  Cfg.decode cfg = true ->
  score_file_missing cfg session ->
  exists e s',
    run_report_average cfg subject session s = (inl e, s') /\
    saved s' = saved s /\
    (grand_average_inputs_ok cfg subject session -> missing_artifact_error e).
Proof.
  intros Hdecode Hmissing.
  pose proof (run_report_average_raises cfg subject session Hdecode Hmissing s) as Hraise.
  destruct (run_report_average cfg subject session s) as [[e|[]] s'] eqn:E;
    [|destruct Hraise].
  exists e, s'. split; [reflexivity|]. split.
  - exact (run_report_average_saves_only_on_return cfg subject session _ _ _ E).
  - intros Hok.
    exact (run_report_average_rom cfg subject session Hdecode Hmissing Hok _ _ _ E).
Qed.

End Saved.

(** ** Reports only grow *)

#[global] Instance report_grows_preorder : PreOrder report_grows.
Proof.
  split.
  - intros s r rep H. exists rep. auto.
  - intros s1 s2 s3 H12 H23 r rep H.
    destruct (H12 r rep H) as (rep2 & H2 & Ht2 & Hp2).
    destruct (H23 r rep2 H2) as (rep3 & H3 & Ht3 & Hp3).
    exists rep3. split; [assumption|]. split; [congruence|].
    etransitivity; eassumption.
Qed.

Lemma report_grows_same (s s' : St) :
  reports s' = reports s -> report_grows s s'.
Proof. intros E r rep H. exists rep. rewrite E. auto. Qed.

Lemma report_grows_alter (f : Report -> Report) (report : nat) (s : St) :
  (forall rep, report_title (f rep) = report_title rep /\
               report_items rep `prefix_of` report_items (f rep)) ->
  report_grows s (set_reports (alter f report) s).
Proof.
  intros Hf r rep H. cbn.
  destruct (decide (report = r)) as [->|Hne].
  - exists (f rep). rewrite list_lookup_alter_eq, H. cbn.
    destruct (Hf rep). auto.
  - exists rep. rewrite list_lookup_alter_ne by assumption. auto.
Qed.

Lemma report_grows_new (rep0 : Report) (s : St) :
  report_grows s (set_reports (fun l => l ++ [rep0]) s).
Proof.
  intros r rep H. exists rep. cbn. rewrite lookup_app_l_Some with (x := rep); auto.
Qed.

Ltac solve_report_grows :=
  first
    [ apply report_grows_same; reflexivity
    | apply report_grows_new
    | apply report_grows_alter; intros ?; cbn;
      split; [reflexivity|first [reflexivity|apply prefix_app_r; reflexivity]] ].

(** ** Runs that return a given value *)

Lemma yields_ret {S A} (v : A) : yields (mret v : ES S A) v.
Proof. intros s a s' [= <- _]. reflexivity. Qed.

Lemma yields_bind {S A B} (m : ES S A) (k : A -> ES S B) (v : B) :
  (forall a, yields (k a) v) -> yields (m ≫= k) v.
Proof.
  intros Hk s b s' H. apply bind_inr in H as (a & s1 & _ & H). exact (Hk _ _ _ _ H).
Qed.

Lemma yields_bind_ret {S A B} (a : A) (k : A -> ES S B) (v : B) :
  yields (k a) v -> yields (mret a ≫= k) v.
Proof. intros Hk s b s' H. exact (Hk _ _ _ H). Qed.

(** ** What a report holds *)

Lemma report_holds_at (report : nat) (P : item -> Prop) (s : St) (rep : Report) :
  reports s !! report = Some rep -> report_holds report P s -> holds rep P.
Proof.
  intros Hrep (rep' & it & Hrep' & Hin & HP). rewrite Hrep in Hrep'.
  injection Hrep' as <-. exists it. auto.
Qed.

Lemma report_holds_item (report : nat) (it : item) (s : St) (rep : Report) :
  reports s !! report = Some rep -> report_holds report (eq it) s ->
  it ∈ report_items rep.
Proof.
  intros Hrep H. destruct (report_holds_at _ _ _ _ Hrep H) as (it' & Hin & ->).
  exact Hin.
Qed.

Lemma holds_prefix (rep rep' : Report) (P : item -> Prop) :
  report_items rep `prefix_of` report_items rep' -> holds rep P -> holds rep' P.
Proof.
  intros (new & Hnew) (it & Hin & HP). exists it. split; [|assumption].
  rewrite Hnew. apply elem_of_app. auto.
Qed.

Lemma report_holds_grows (report : nat) (P : item -> Prop) (s s' : St) :
  report_grows s s' -> report_holds report P s -> report_holds report P s'.
Proof.
  intros Hgrows (rep & it & Hrep & Hin & HP).
  destruct (Hgrows _ _ Hrep) as (rep' & Hrep' & _ & Hprefix).
  exists rep', it. split; [assumption|]. split; [|assumption].
  destruct Hprefix as (new & ->). apply elem_of_app. auto.
Qed.

Lemma report_exists_grows (report : nat) (s s' : St) :
  report_grows s s' -> is_Some (reports s !! report) -> is_Some (reports s' !! report).
Proof.
  intros Hgrows [rep Hrep]. destruct (Hgrows _ _ Hrep) as (rep' & Hrep' & _). eauto.
Qed.

Lemma report_add_holds (report : nat) (c : content) (title : string)
  (section : option string) (s s' : St) :
  is_Some (reports s !! report) ->
  report_add report c title section s = (inr tt, s') ->
  report_holds report
    (eq {| item_content := c; item_title := title; item_section := section |}) s'.
Proof.
  intros [rep Hrep] [= <-]. eexists _, _. cbn.
  rewrite list_lookup_alter_eq, Hrep. cbn. split; [reflexivity|].
  split; [|reflexivity]. cbn. apply elem_of_app. right. apply list_elem_of_here.
Qed.

Lemma report_add_figure_holds (report : nat) (figs : list nat) (title : string)
  (section : option string) (s s' : St) :
  is_Some (reports s !! report) ->
  report_add_figure report figs title section s = (inr tt, s') ->
  report_holds report (figure_titled title section) s'.
Proof.
  intros Hrep H. unfold report_add_figure in H.
  apply bind_inr in H as (fs & s1 & [= <- <-] & H).
  destruct (report_add_holds _ _ _ _ _ _ Hrep H) as (rep & it & Hlookup & Hin & <-).
  eexists rep, _. do 2 (split; [eassumption|]). split; [eauto|]. split; reflexivity.
Qed.

(** The report object [Hrep] and the relation [report_grows], over the run
    [Hseg]. *)
Ltac grow_report Hseg Hrep :=
  let G := fresh "G" in
  pose proof Hseg as G;
  run_preserves report_grows G ltac:(preserves_auto ltac:(solve_report_grows));
  apply (report_exists_grows _ _ _ G) in Hrep.

(** Takes the first step off the run [H] of a sequence, as [Hseg]. *)
Ltac step_report H Hrep Hseg :=
  let a := fresh "a" in
  let s := fresh "s" in
  apply bind_inr in H as (a & s & Hseg & H);
  try match type of a with unit => destruct a end;
  grow_report Hseg Hrep.

(** Carries what a report holds along the steps taken so far. *)
Ltac carry_items :=
  repeat match goal with
         | G : report_grows ?a ?b, Q : report_holds _ _ ?a |- _ =>
             apply (report_holds_grows _ _ _ _ G) in Q
         end.

Lemma for_each_holds {A} (report : nat) (P : A -> item -> Prop) (xs : list A)
  (body : A -> M unit) :
  (forall x, preserves report_grows (body x)) ->
  (forall x s s',
     is_Some (reports s !! report) -> body x s = (inr tt, s') ->
     report_holds report (P x) s') ->
  forall s s',
    is_Some (reports s !! report) -> for_each xs body s = (inr tt, s') ->
    is_Some (reports s' !! report) /\
    forall x, x ∈ xs -> report_holds report (P x) s'.
Proof.
  intros Hgrows Hbody s s' Hrep H. split.
  - refine (report_exists_grows _ _ _ _ Hrep).
    revert H. apply preserves_for_each; [typeclasses eauto|exact Hgrows].
  - revert s s' Hrep H.
    apply (for_each_establishes (fun s => is_Some (reports s !! report))
             (fun x s => report_holds report (P x) s)).
    + intros x s s' Hrep H. split; [|eauto].
      exact (report_exists_grows _ _ _ (Hgrows _ _ _ _ H) Hrep).
    + intros x y s s' HQ H. exact (report_holds_grows _ _ _ _ (Hgrows _ _ _ _ H) HQ).
Qed.

Section Stages.

Context {W : World}.

Lemma run_report_preprocessing_grows (cfg : Cfg.t) (subject : string)
  (session : option string) (report : option nat) :
  preserves report_grows (run_report_preprocessing cfg subject session report).
Proof.
  unfold run_report_preprocessing. preserves_auto ltac:(solve_report_grows).
Qed.

Lemma run_report_sensor_grows (cfg : Cfg.t) (subject : string)
  (session : option string) (report : option nat) :
  preserves report_grows (run_report_sensor cfg subject session report).
Proof.
  unfold run_report_sensor. preserves_auto ltac:(solve_report_grows).
Qed.

Lemma run_report_preprocessing_saved (cfg : Cfg.t) (subject : string)
  (session : option string) (report : option nat) :
  preserves same_saved (run_report_preprocessing cfg subject session report).
Proof.
  unfold run_report_preprocessing. preserves_auto ltac:(reflexivity).
Qed.

Lemma run_report_sensor_saved (cfg : Cfg.t) (subject : string)
  (session : option string) (report : option nat) :
  preserves same_saved (run_report_sensor cfg subject session report).
Proof.
  unfold run_report_sensor. preserves_auto ltac:(reflexivity).
Qed.

Lemma run_report_source_saved (cfg : Cfg.t) (subject : string)
  (session : option string) (report : option nat) :
  preserves same_saved (run_report_source cfg subject session report).
Proof.
  unfold run_report_source. preserves_auto ltac:(reflexivity).
Qed.

Lemma run_report_preprocessing_yields (cfg : Cfg.t) (subject : string)
  (session : option string) (report : nat) :
  yields (run_report_preprocessing cfg subject session (Some report)) report.
Proof.
  unfold run_report_preprocessing.
  apply yields_bind; intros ?. apply yields_bind_ret.
  repeat (cbn zeta; apply yields_bind; intros ?). apply yields_ret.
Qed.

Lemma run_report_sensor_yields (cfg : Cfg.t) (subject : string)
  (session : option string) (report : nat) :
  yields (run_report_sensor cfg subject session (Some report)) report.
Proof.
  unfold run_report_sensor.
  apply yields_bind; intros ?. apply yields_bind_ret.
  repeat (cbn zeta; apply yields_bind; intros ?). apply yields_ret.
Qed.

Lemma run_report_source_yields (cfg : Cfg.t) (subject : string)
  (session : option string) (report : nat) :
  yields (run_report_source cfg subject session (Some report)) report.
Proof.
  unfold run_report_source.
  apply yields_bind; intros ?. apply yields_bind_ret. cbn zeta.
  destruct (negb _);
    repeat (cbn zeta; apply yields_bind; intros ?); apply yields_ret.
Qed.

Lemma add_system_info_inr (report : nat) (s s' : St) :
  add_system_info report s = (inr tt, s') ->
  exists config_path,
    environ "MNE_BIDS_STUDY_CONFIG" = Some config_path /\
    s' = set_reports (alter (finalized config_path) report) s.
Proof.
  unfold add_system_info, read. intros H.
  destruct (environ "MNE_BIDS_STUDY_CONFIG") as [config_path|]; [|discriminate].
  exists config_path. split; [reflexivity|].
  rewrite bind_run, ret_run, bind_run in H.
  destruct (fs (OsPath config_path)); [|discriminate].
  rewrite ret_run in H. cbv [report_add modify mbind ES_bind] in H.
  injection H as <-. destruct s. unfold set_reports, finalized. cbn. f_equal.
  rewrite list_alter_alter_eq. reflexivity.
Qed.

Lemma add_system_info_run (report : nat) (s : St) (config_path : string)
  (a : artifact) :
  environ "MNE_BIDS_STUDY_CONFIG" = Some config_path ->
  fs (OsPath config_path) = Some a ->
  add_system_info report s
  = (inr tt, set_reports (alter (finalized config_path) report) s).
Proof.
  intros Henv Hfs. unfold add_system_info, read.
  rewrite Henv, bind_run, ret_run, bind_run, Hfs, ret_run.
  cbv [report_add modify mbind ES_bind].
  destruct s. unfold set_reports, finalized. cbn. do 2 f_equal.
  rewrite list_alter_alter_eq. reflexivity.
Qed.

(** C7. In a subject-level run that does not fail, the three content stages
    have run in the order preprocessing, sensor, source, each on the report
    object created at the start; the configuration file and the system
    information have then been appended to what the stages left, and the
    report saved is that finalized report. *)
Theorem finalization_precedes_save
  (cfg : Cfg.t) (subject : string) (session : option string) (s s' : St) :
  run_report cfg subject session s = (inr tt, s') ->
  exists s0 s1 s2 s3 report rep config_path,
    _gen_empty_report cfg subject session s = (inr report, s0) /\
    run_report_preprocessing cfg subject session (Some report) s0 = (inr report, s1) /\
    run_report_sensor cfg subject session (Some report) s1 = (inr report, s2) /\
    run_report_source cfg subject session (Some report) s2 = (inr report, s3) /\
    reports s3 !! report = Some rep /\
    environ "MNE_BIDS_STUDY_CONFIG" = Some config_path /\
    saved s' = saved s ++ [(fname_report cfg subject session, finalized config_path rep)].
Proof.
  unfold run_report. intros H.
  apply bind_inr in H as (report & s0 & Hgen & H). cbn zeta in H.
  apply bind_inr in H as (r1 & s1 & Hpre & H).
  apply bind_inr in H as (r2 & s2 & Hsensor & H).
  apply bind_inr in H as (r3 & s3 & Hsource & H).
  apply bind_inr in H as ([] & s4 & Hinfo & H).
  pose proof (run_report_preprocessing_yields _ _ _ _ _ _ _ Hpre) as ->.
  pose proof (run_report_sensor_yields _ _ _ _ _ _ _ Hsensor) as ->.
  pose proof (run_report_source_yields _ _ _ _ _ _ _ Hsource) as ->.
  apply add_system_info_inr in Hinfo as (config_path & Henv & ->).
  unfold report_save in H. cbn [reports set_reports] in H.
  rewrite list_lookup_alter_eq in H.
  destruct (reports s3 !! report) as [rep|] eqn:Hrep; [|discriminate].
  cbn in H. injection H as <-.
  exists s0, s1, s2, s3, report, rep, config_path.
  repeat (split; [assumption|]). cbn. f_equal.
  rewrite (run_report_source_saved _ _ _ _ _ _ _ Hsource).
  rewrite (run_report_sensor_saved _ _ _ _ _ _ _ Hsensor).
  rewrite (run_report_preprocessing_saved _ _ _ _ _ _ _ Hpre).
  unfold _gen_empty_report, new_report in Hgen. injection Hgen as _ <-. reflexivity.
Qed.

Lemma run_report_source_skip (cfg : Cfg.t) (subject : string)
  (session : option string) (report : nat) (s : St) :
  fs (File (fname_trans cfg subject session)) = None ->
  run_report_source cfg subject session (Some report) s
  = (inr report,
     set_log (fun l => l ++ [info "No coregistration found, skipping source space report."])
       (set_log (fun l => l ++ [info "Generating source-space analysis report …"]) s)).
Proof.
  intros Hfs. unfold run_report_source, exists_. cbn zeta.
  fold (fname_trans cfg subject session). rewrite Hfs. reflexivity.
Qed.

Lemma in_conditions_inr (cfg : Cfg.t) (condition : string) (s s' : St) (b : bool) :
  in_conditions cfg condition s = (inr b, s') ->
  exists conditions,
    Cfg.conditions cfg = Some conditions /\ b = bool_decide (condition ∈ conditions).
Proof.
  unfold in_conditions. destruct (Cfg.conditions cfg) as [conditions|]; [|discriminate].
  intros [= <- _]. eauto.
Qed.

(** *** The sections of the stages *)

Lemma for_collect_lift {A B} (xs : list A) (f : A -> result B) (s s' : St)
  (ys : list B) :
  for_collect xs (fun x => lift (f x)) s = (inr ys, s') ->
  s' = s /\ forall x y, x ∈ xs -> f x = inr y -> y ∈ ys.
Proof.
  revert ys s'. induction xs as [|x xs IH]; intros ys s' H; cbn [for_collect] in H.
  - injection H as <- <-. split; [reflexivity|]. intros x y Hx. inversion Hx.
  - apply bind_inr in H as (y & s1 & Hy & H).
    apply bind_inr in H as (ys' & s2 & Hys & H). injection H as <- <-.
    apply lift_inr in Hy as [Hy ->].
    destruct (IH _ _ Hys) as [-> Hin]. split; [reflexivity|].
    intros x' y' Hx' Hy'. apply elem_of_cons in Hx' as [->|Hx'].
    + rewrite Hy in Hy'. injection Hy' as <-. apply list_elem_of_here.
    + apply list_elem_of_further. eauto.
Qed.

Lemma run_report_preprocessing_sections (cfg : Cfg.t) (subject : string)
  (session : option string) (report r : nat) (s s' : St) :
  is_Some (reports s !! report) ->
  run_report_preprocessing cfg subject session (Some report) s = (inr r, s') ->
  forall rep, reports s' !! report = Some rep ->
  preprocessing_sections cfg subject session rep.
Proof.
  intros Hrep H rep Hfinal. unfold run_report_preprocessing in H. cbn zeta in H.
  step_report H Hrep Hlog.
  apply bind_inr in H as (report' & s1 & [= <- <-] & H).
  apply bind_inr in H as (fnames & s1 & Hfnames & H).
  apply for_collect_lift in Hfnames as [-> Hfnames].
  pose proof Hrep as Hrep0. step_report H Hrep Hraws.
  apply (for_each_holds report (fun fname => eq (raw_item fname))) in Hraws
    as [_ Hraws];
    [ |intros fname; preserves_auto ltac:(solve_report_grows)
      |clear; intros fname s s' Hrep H|exact Hrep0].
  2:{ step_report H Hrep Hlog. step_report H Hrep Hread.
      exact (report_add_holds _ _ _ _ _ _ Hrep H). }
  step_report H Hrep Her_path. step_report H Hrep Her. step_report H Hrep Hnoisy.
  pose proof Hrep as Hrep1. step_report H Hrep Hevents.
  assert (Hevents' : Cfg.task_is_rest cfg = false ->
                     report_holds report (eq events_item) s5).
  { clear H. intros Hrest. rewrite Hrest in Hevents. cbn [negb when] in Hevents.
    step_report Hevents Hrep1 Hlog'. step_report Hevents Hrep1 Hget.
    exact (report_add_holds _ _ _ _ _ _ Hrep1 Hevents). }
  step_report H Hrep Hlog1. step_report H Hrep Hread1.
  pose proof Hrep as Hrep2. step_report H Hrep Hbefore.
  apply (report_add_holds _ _ _ _ _ _ Hrep2) in Hbefore.
  step_report H Hrep Hica. step_report H Hrep Hssp. step_report H Hrep Hlog2.
  step_report H Hrep Hread2.
  pose proof Hrep as Hrep3. step_report H Hrep Hafter.
  apply (report_add_holds _ _ _ _ _ _ Hrep3) in Hafter.
  injection H as <- <-.
  split; [|split; [|split]].
  - intros run fname Hrun Hfname.
    pose proof (Hraws _ (Hfnames _ _ Hrun Hfname)) as Hitem. carry_items.
    exact (report_holds_item _ _ _ _ Hfinal Hitem).
  - intros Hrest. specialize (Hevents' Hrest). carry_items.
    exact (report_holds_item _ _ _ _ Hfinal Hevents').
  - carry_items. exact (report_holds_item _ _ _ _ Hfinal Hbefore).
  - exact (report_holds_item _ _ _ _ Hfinal Hafter).
Qed.

Lemma read_evokeds_inr (fname : BIDSPath) (s s' : St) (evokeds : list nat) :
  read_evokeds fname s = (inr evokeds, s') ->
  exists n, fs (File fname) = Some (EvokedsFif n) /\ evokeds = seq 0 n /\ s' = s.
Proof.
  unfold read_evokeds, read. rewrite bind_run.
  destruct (fs (File fname)) as [[]|]; cbn; try discriminate.
  intros [= <- <-]. eauto.
Qed.

Lemma elem_of_zip_seq_2 {A} (xs : list A) (n : nat) (x : A) (i : nat) :
  xs !! i = Some x -> (i < n)%nat -> (x, i) ∈ zip xs (seq 0 n).
Proof.
  intros Hx Hi. apply (list_elem_of_lookup_2 _ i).
  apply lookup_zip_with_Some. exists x, i. split; [reflexivity|].
  split; [assumption|]. apply lookup_seq. auto.
Qed.

Lemma run_report_sensor_sections (cfg : Cfg.t) (subject : string)
  (session : option string) (report r : nat) (s s' : St) :
  is_Some (reports s !! report) ->
  run_report_sensor cfg subject session (Some report) s = (inr r, s') ->
  forall rep, reports s' !! report = Some rep ->
  sensor_sections cfg subject session rep.
Proof.
  intros Hrep H rep Hfinal. unfold run_report_sensor in H. cbn zeta in H.
  step_report H Hrep Hlog.
  apply bind_inr in H as (report' & s1 & [= <- <-] & H).
  step_report H Hrep Hevokeds. rename a into evokeds.
  step_report H Hrep Hlog1. step_report H Hrep Hlog2.
  pose proof Hrep as Hrep0. step_report H Hrep Hloop.
  apply (for_each_holds report
           (fun '(name, evoked) it =>
              exists conditions,
                Cfg.conditions cfg = Some conditions /\
                it = evoked_item conditions evoked name)) in Hloop
    as [_ Hloop];
    [ |intros [name evoked]; preserves_auto ltac:(solve_report_grows)
      |clear; intros [name evoked] s s' Hrep H|exact Hrep0].
  2:{ apply bind_inr in H as (b & s1 & Hb & H).
      pose proof Hb as Hb'. apply in_conditions_inr in Hb' as (conditions & Hc & ->).
      grow_report Hb Hrep.
      destruct (report_add_holds _ _ _ _ _ _ Hrep H) as (rep & it & Hlookup & Hin & <-).
      eexists rep, _. do 2 (split; [eassumption|]).
      exists conditions. split; [assumption|]. unfold evoked_item.
      destruct (bool_decide (name ∈ conditions)); reflexivity. }
  pose proof Hrep as Hrep1. step_report H Hrep Hfull.
  assert (Hfull' : decoding_requested cfg = true ->
                   report_holds report (figure_titled "Full-epochs Decoding" None) s5).
  { clear H. intros Hdecode. rewrite Hdecode in Hfull. cbn [when] in Hfull.
    step_report Hfull Hrep1 Hlog'. step_report Hfull Hrep1 Hscores.
    step_report Hfull Hrep1 Hfig. pose proof Hrep1 as Hrep2.
    step_report Hfull Hrep1 Hadd.
    apply (report_add_figure_holds _ _ _ _ _ _ Hrep2) in Hadd.
    grow_report Hfull Hrep1. carry_items. exact Hadd. }
  pose proof Hrep as Hrep2. step_report H Hrep Htime.
  assert (Htime' :
    decoding_requested cfg = true ->
    forall contrast,
      contrast ∈ Cfg.decoding_contrasts cfg ->
      report_holds report
        (figure_titled "Decoding performance over time"
           (Some (decoding_section contrast))) s6 /\
      (Cfg.decoding_time_generalization cfg = true ->
       report_holds report
         (figure_titled "Time generalization" (Some (decoding_section contrast))) s6)).
  { clear H. intros Hdecode. rewrite Hdecode in Htime. cbn [when] in Htime.
    step_report Htime Hrep2 Hlog'. step_report Htime Hrep2 Hread.
    intros contrast Hin. split; [|intros Hgeneralization].
    - revert contrast Hin.
      apply (for_each_holds report
               (fun contrast =>
                  figure_titled "Decoding performance over time"
                    (Some (decoding_section contrast)))) in Htime
        as [_ Htime];
        [exact Htime|intros [cond_1 cond_2]; preserves_auto ltac:(solve_report_grows)
        |clear; intros [cond_1 cond_2] s s' Hrep H|exact Hrep2].
      step_report H Hrep Hload. step_report H Hrep Hfig.
      pose proof Hrep as Hrep'. step_report H Hrep Hadd.
      apply (report_add_figure_holds _ _ _ _ _ _ Hrep') in Hadd.
      step_report H Hrep Hclose. grow_report H Hrep. carry_items. exact Hadd.
    - revert contrast Hin. rewrite Hgeneralization in Htime.
      apply (for_each_holds report
               (fun contrast =>
                  figure_titled "Time generalization"
                    (Some (decoding_section contrast)))) in Htime
        as [_ Htime];
        [exact Htime|intros [cond_1 cond_2]; preserves_auto ltac:(solve_report_grows)
        |clear; intros [cond_1 cond_2] s s' Hrep H|exact Hrep2].
      step_report H Hrep Hload. step_report H Hrep Hfig.
      step_report H Hrep Hadd. step_report H Hrep Hclose.
      cbn [when] in H. step_report H Hrep Hfig'.
      pose proof Hrep as Hrep'. step_report H Hrep Hadd'.
      apply (report_add_figure_holds _ _ _ _ _ _ Hrep') in Hadd'.
      grow_report H Hrep. carry_items. exact Hadd'. }
  step_report H Hrep Hlog3.
  pose proof Hrep as Hrep3. step_report H Hrep Htfr.
  assert (Htfr' :
    forall conditions condition,
      Cfg.time_frequency_conditions cfg = Some conditions ->
      condition ∈ conditions ->
      report_holds report (figure_titled ("TFR Power: " +:+ condition) None) s8 /\
      report_holds report (figure_titled ("TFR ITC: " +:+ condition) None) s8).
  { clear H. intros conditions condition Hconditions Hin.
    rewrite Hconditions in Htfr. split; revert condition Hin.
    - apply (for_each_holds report
               (fun condition => figure_titled ("TFR Power: " +:+ condition) None))
        in Htfr as [_ Htfr];
        [exact Htfr|intros condition; preserves_auto ltac:(solve_report_grows)
        |clear; intros condition s s' Hrep H|exact Hrep3].
      step_report H Hrep Hread. step_report H Hrep Hfig.
      pose proof Hrep as Hrep'. step_report H Hrep Hadd.
      apply (report_add_figure_holds _ _ _ _ _ _ Hrep') in Hadd.
      grow_report H Hrep. carry_items. exact Hadd.
    - apply (for_each_holds report
               (fun condition => figure_titled ("TFR ITC: " +:+ condition) None))
        in Htfr as [_ Htfr];
        [exact Htfr|intros condition; preserves_auto ltac:(solve_report_grows)
        |clear; intros condition s s' Hrep H|exact Hrep3].
      do 6 (let Hseg := fresh "Hseg" in step_report H Hrep Hseg).
      pose proof Hrep as Hrep'. step_report H Hrep Hadd.
      apply (report_add_figure_holds _ _ _ _ _ _ Hrep') in Hadd.
      grow_report H Hrep. carry_items. exact Hadd. }
  injection H as <- <-.
  split; [|split].
  - intros n i name Hfs Hi Hname.
    assert (evokeds = seq 0 n) as ->.
    { destruct (conditions_and_contrasts cfg); [discriminate Hname|].
      apply read_evokeds_inr in Hevokeds as (n' & Hfs' & -> & _).
      rewrite Hfs in Hfs'. injection Hfs' as <-. reflexivity. }
    pose proof (Hloop _ (elem_of_zip_seq_2 _ _ _ _ Hname Hi)) as Hitem.
    carry_items.
    destruct (report_holds_at _ _ _ _ Hfinal Hitem) as (it & Hin & conditions & Hc & ->).
    exists conditions. auto.
  - intros Hdecode. specialize (Hfull' Hdecode).
    split; [carry_items; exact (report_holds_at _ _ _ _ Hfinal Hfull')|].
    intros contrast Hin. destruct (Htime' Hdecode contrast Hin) as [Hperf Hgen].
    split; [carry_items; exact (report_holds_at _ _ _ _ Hfinal Hperf)|].
    intros Hgeneralization. specialize (Hgen Hgeneralization). carry_items.
    exact (report_holds_at _ _ _ _ Hfinal Hgen).
  - intros conditions condition Hconditions Hin.
    destruct (Htfr' _ _ Hconditions Hin) as [Hpower Hitc].
    split; [exact (report_holds_at _ _ _ _ Hfinal Hpower)
           |exact (report_holds_at _ _ _ _ Hfinal Hitc)].
Qed.

Lemma preprocessing_sections_prefix (cfg : Cfg.t) (subject : string)
  (session : option string) (rep rep' : Report) :
  report_items rep `prefix_of` report_items rep' ->
  preprocessing_sections cfg subject session rep ->
  preprocessing_sections cfg subject session rep'.
Proof.
  intros (new & Hnew) (Hraw & Hevents & Hbefore & Hafter).
  unfold preprocessing_sections. rewrite Hnew.
  split; [|split; [|split]]; intros; apply elem_of_app; left; eauto.
Qed.

Lemma sensor_sections_prefix (cfg : Cfg.t) (subject : string)
  (session : option string) (rep rep' : Report) :
  report_items rep `prefix_of` report_items rep' ->
  sensor_sections cfg subject session rep ->
  sensor_sections cfg subject session rep'.
Proof.
  intros Hprefix (Hevoked & Hdecoding & Htfr). split; [|split].
  - intros n i name Hfs Hi Hname.
    destruct (Hevoked _ _ _ Hfs Hi Hname) as (conditions & Hc & Hin).
    exists conditions. split; [assumption|].
    destruct Hprefix as (new & Hnew). rewrite Hnew. apply elem_of_app. auto.
  - intros Hdecode. destruct (Hdecoding Hdecode) as [Hfull Htime].
    split; [exact (holds_prefix _ _ _ Hprefix Hfull)|].
    intros contrast Hin. destruct (Htime _ Hin) as [Hperf Hgen].
    split; [exact (holds_prefix _ _ _ Hprefix Hperf)|].
    intros Hgeneralization. exact (holds_prefix _ _ _ Hprefix (Hgen Hgeneralization)).
  - intros conditions condition Hconditions Hin.
    destruct (Htfr _ _ Hconditions Hin) as [Hpower Hitc].
    split; eapply holds_prefix; eassumption.
Qed.

Lemma finalized_prefix (config_path : string) (rep : Report) :
  report_items rep `prefix_of` report_items (finalized config_path rep).
Proof.
  unfold finalized. cbn. rewrite <- app_assoc. apply prefix_app_r. reflexivity.
Qed.

(** C5. When the coregistration ([trans]) artifact of the subject does not
    exist, the source-space stage gives back the report object it was
    handed, with no report, figure or saved file changed, after logging the
    informational skip.  With the preprocessing and sensor stages done and
    the configuration file at hand, the run then returns without an
    exception, and the report it saves holds everything the preprocessing
    and sensor stages put into it, followed by the configuration and system
    information: the saved report contains the sections of the
    preprocessing stage (raw data, events, epochs before and after
    cleaning) and those of the sensor stage (evoked responses, decoding
    figures, time-frequency figures). *)
Theorem missing_coregistration_skips_source_stage
  (cfg : Cfg.t) (subject : string) (session : option string)
  (s s0 s1 s2 : St) (report r1 r2 : nat) (config_path : string)
  (config_file : artifact) :
  fs (File (fname_trans cfg subject session)) = None ->
  _gen_empty_report cfg subject session s = (inr report, s0) ->
  run_report_preprocessing cfg subject session (Some report) s0 = (inr r1, s1) ->
  run_report_sensor cfg subject session (Some report) s1 = (inr r2, s2) ->
  environ "MNE_BIDS_STUDY_CONFIG" = Some config_path ->
  fs (OsPath config_path) = Some config_file ->
  exists s3 s' rep1 rep2,
    run_report_source cfg subject session (Some report) s2 = (inr report, s3) /\
    reports s3 = reports s2 /\ figures s3 = figures s2 /\
    open_figs s3 = open_figs s2 /\ saved s3 = saved s2 /\
    log s3 = log s2 ++
      [info "Generating source-space analysis report …";
       info "No coregistration found, skipping source space report."] /\
    reports s1 !! report = Some rep1 /\
    reports s2 !! report = Some rep2 /\
    report_items rep1 `prefix_of` report_items rep2 /\
    run_report cfg subject session s = (inr tt, s') /\
    saved s' = saved s ++
      [(fname_report cfg subject session, finalized config_path rep2)] /\
    preprocessing_sections cfg subject session rep1 /\
    preprocessing_sections cfg subject session (finalized config_path rep2) /\
    sensor_sections cfg subject session (finalized config_path rep2).
Proof.
  intros Htrans Hgen Hpre Hsensor Henv Hfs.
  pose proof (run_report_source_skip cfg subject session report s2 Htrans) as Hsource.
  assert (Hrep0 : exists rep0, reports s0 !! report = Some rep0).
  { unfold _gen_empty_report, new_report in Hgen. injection Hgen as <- <-.
    eexists. cbn. rewrite lookup_app_r, Nat.sub_diag by lia. reflexivity. }
  destruct Hrep0 as (rep0 & Hrep0).
  destruct (run_report_preprocessing_grows _ _ _ _ _ _ _ Hpre _ _ Hrep0)
    as (rep1 & Hrep1 & _ & _).
  destruct (run_report_sensor_grows _ _ _ _ _ _ _ Hsensor _ _ Hrep1)
    as (rep2 & Hrep2 & _ & Hprefix).
  pose proof (run_report_preprocessing_sections _ _ _ _ _ _ _
                (mk_is_Some _ _ Hrep0) Hpre _ Hrep1) as Hsections1.
  pose proof (run_report_sensor_sections _ _ _ _ _ _ _
                (mk_is_Some _ _ Hrep1) Hsensor _ Hrep2) as Hsections2.
  assert (Hrun : exists s',
            run_report cfg subject session s = (inr tt, s') /\
            saved s' = saved s ++
              [(fname_report cfg subject session, finalized config_path rep2)]).
  { eexists. unfold run_report.
    rewrite bind_run, Hgen. cbn zeta.
    rewrite bind_run, Hpre, bind_run, Hsensor, bind_run, Hsource, bind_run.
    rewrite (add_system_info_run _ _ _ _ Henv Hfs).
    unfold report_save. cbn [reports set_reports set_log].
    rewrite list_lookup_alter_eq, Hrep2. cbn.
    split; [reflexivity|]. cbn. f_equal.
    rewrite (run_report_sensor_saved _ _ _ _ _ _ _ Hsensor).
    rewrite (run_report_preprocessing_saved _ _ _ _ _ _ _ Hpre).
    unfold _gen_empty_report, new_report in Hgen. injection Hgen as _ <-. reflexivity. }
  destruct Hrun as (s' & Hrun & Hsaved).
  eexists _, s', rep1, rep2.
  split; [exact Hsource|].
  do 4 (split; [reflexivity|]).
  split; [cbn; rewrite <- app_assoc; reflexivity|].
  do 6 (split; [assumption|]).
  split.
  - apply (preprocessing_sections_prefix _ _ _ rep1); [|assumption].
    etransitivity; [exact Hprefix|apply finalized_prefix].
  - apply (sensor_sections_prefix _ _ _ rep2); [apply finalized_prefix|assumption].
Qed.

End Stages.

(** ** Figures of t-values *)

#[global] Instance no_t_value_label_preorder : PreOrder no_t_value_label.
Proof. split; unfold no_t_value_label; [intros f; tauto|intros f g h; tauto]. Qed.

#[global] Instance no_new_t_value_figure_preorder : PreOrder no_new_t_value_figure.
Proof.
  split.
  - intros s i f H Ht. eauto.
  - intros s1 s2 s3 H12 H23 i f3 H3 Ht3.
    destruct (H23 i f3 H3 Ht3) as (f2 & H2 & Ht2). eauto.
Qed.

Lemma no_new_t_value_figure_same (s s' : St) :
  figures s' = figures s -> no_new_t_value_figure s s'.
Proof. intros E i f H Ht. rewrite E in H. eauto. Qed.

Lemma new_figure_no_t_value (f : figure) :
  ~ is_t_value_figure f -> preserves no_new_t_value_figure (new_figure f).
Proof.
  intros Hf s r s' [= _ <-] i f' H Ht. cbn in H.
  apply lookup_app_Some in H as [H|[_ H]]; [eauto|].
  apply list_lookup_singleton_Some in H as [_ <-]. contradiction.
Qed.

Lemma with_axes_no_t_value {A} (fig : nat) (d : Draw A) :
  preserves no_t_value_label d -> preserves no_new_t_value_figure (with_axes fig d).
Proof.
  intros Hd s r s'. unfold with_axes.
  destruct (figures s !! fig) as [f|] eqn:Hfig.
  - destruct (d f) as [r' f'] eqn:Hdf. intros [= _ <-] i g H Ht. cbn in H.
    destruct (decide (fig = i)) as [->|Hne].
    + rewrite list_lookup_insert_eq in H by (eapply lookup_lt_Some; eassumption).
      injection H as <-. exists f. split; [assumption|].
      exact (Hd _ _ _ Hdf Ht).
    + rewrite list_lookup_insert_ne in H by assumption. eauto.
  - intros [= _ <-]. reflexivity.
Qed.

Lemma ax_no_t_value (c : cmd) :
  c <> t_value_label -> preserves no_t_value_label (ax c).
Proof.
  intros Hc f r f' [= _ <-] Ht. unfold is_t_value_figure in *.
  apply elem_of_app in Ht as [Ht|Ht]; [exact Ht|].
  apply list_elem_of_singleton in Ht. congruence.
Qed.

#[global] Hint Unfold _label_time_by_time highlight_cluster : es_defs.

Ltac draw_no_t_value :=
  repeat (preserves_split; try (autounfold with es_defs);
          try (progress cbn beta iota zeta);
          try solve [apply ax_no_t_value; cbn; discriminate]).

Ltac figures_no_t_value :=
  repeat (preserves_split; try (autounfold with es_defs);
          try (progress cbn beta iota zeta);
          try solve
            [ first
                [ apply with_axes_no_t_value; draw_no_t_value
                | apply new_figure_no_t_value; unfold is_t_value_figure;
                  rewrite ?elem_of_cons, ?elem_of_nil; cbn;
                  intuition discriminate
                | preserves_leaf ltac:(apply no_new_t_value_figure_same; reflexivity) ] ]).

Section TValues.

Context {W : World}.

(** Whatever the score files hold, [add_decoding_grand_average] produces no
    figure of t-values in a grand-average run with exactly one subject:
    every figure that carries the t-value axis afterwards, whether the run
    returned or raised, was one before. *)
Lemma single_subject_no_t_value_figure
  (session : option string) (cfg : Cfg.t) (report : nat) (s s' : St)
  (r : result unit) :
  length (get_subjects (OfCfg cfg)) = 1%nat ->
  add_decoding_grand_average session cfg report s = (r, s') ->
  forall i f',
    figures s' !! i = Some f' -> is_t_value_figure f' ->
    exists f, figures s !! i = Some f /\ is_t_value_figure f.
Proof.
  intros Hn. revert s r s'.
  change (preserves no_new_t_value_figure
            (add_decoding_grand_average session cfg report)).
  unfold add_decoding_grand_average. rewrite Hn. cbn [Nat.ltb Nat.leb when].
  figures_no_t_value.
Qed.

End TValues.

#[global] Instance no_cluster_test_drawn_preorder : PreOrder no_cluster_test_drawn.
Proof. split; unfold no_cluster_test_drawn; [intros f; tauto|intros f g h; tauto]. Qed.

#[global] Instance no_new_cluster_test_figure_preorder :
  PreOrder no_new_cluster_test_figure.
Proof.
  split.
  - intros s i f H Ht. eauto.
  - intros s1 s2 s3 H12 H23 i f3 H3 Ht3.
    destruct (H23 i f3 H3 Ht3) as (f2 & H2 & Ht2). eauto.
Qed.

Lemma no_new_cluster_test_figure_same (s s' : St) :
  figures s' = figures s -> no_new_cluster_test_figure s s'.
Proof. intros E i f H Ht. rewrite E in H. eauto. Qed.

Lemma new_figure_no_cluster_test (f : figure) :
  ~ shows_cluster_test f -> preserves no_new_cluster_test_figure (new_figure f).
Proof.
  intros Hf s r s' [= _ <-] i f' H Ht. cbn in H.
  apply lookup_app_Some in H as [H|[_ H]]; [eauto|].
  apply list_lookup_singleton_Some in H as [_ <-]. contradiction.
Qed.

Lemma with_axes_no_cluster_test {A} (fig : nat) (d : Draw A) :
  preserves no_cluster_test_drawn d ->
  preserves no_new_cluster_test_figure (with_axes fig d).
Proof.
  intros Hd s r s'. unfold with_axes.
  destruct (figures s !! fig) as [f|] eqn:Hfig.
  - destruct (d f) as [r' f'] eqn:Hdf. intros [= _ <-] i g H Ht. cbn in H.
    destruct (decide (fig = i)) as [->|Hne].
    + rewrite list_lookup_insert_eq in H by (eapply lookup_lt_Some; eassumption).
      injection H as <-. exists f. split; [assumption|].
      exact (Hd _ _ _ Hdf Ht).
    + rewrite list_lookup_insert_ne in H by assumption. eauto.
  - intros [= _ <-]. reflexivity.
Qed.

Lemma ax_no_cluster_test (c : cmd) :
  c <> t_value_label -> highlights [c] = [] ->
  preserves no_cluster_test_drawn (ax c).
Proof.
  intros Hc Hhl f r f' [= _ <-] [Ht|Ht]; unfold shows_cluster_test, is_t_value_figure in *.
  - apply elem_of_app in Ht as [Ht|Ht]; [left; exact Ht|].
    apply list_elem_of_singleton in Ht. congruence.
  - rewrite highlights_app, Hhl, app_nil_r in Ht. right. exact Ht.
Qed.

Ltac draw_no_cluster_test :=
  repeat (preserves_split; try (autounfold with es_defs);
          try (progress cbn beta iota zeta);
          try solve [apply ax_no_cluster_test; [cbn; discriminate|reflexivity]]).

Ltac figures_no_cluster_test :=
  repeat (preserves_split; try (autounfold with es_defs);
          try (progress cbn beta iota zeta);
          try solve
            [ first
                [ apply with_axes_no_cluster_test; draw_no_cluster_test
                | apply new_figure_no_cluster_test;
                  unfold shows_cluster_test, is_t_value_figure;
                  rewrite ?elem_of_cons, ?elem_of_nil; cbn;
                  intuition discriminate
                | preserves_leaf ltac:(apply no_new_cluster_test_figure_same; reflexivity) ] ]).

(** ** Figures of the cluster permutation test *)

Section ClusterTest.

Context {W : World}.

Lemma gavg_no_cluster_test (cfg : Cfg.t) (d : GA.decoding_data) :
  GA.clusters d = [] ->
  preserves no_new_cluster_test_figure (_plot_time_by_time_decoding_scores_gavg cfg d).
Proof.
  intros Hclusters. unfold _plot_time_by_time_decoding_scores_gavg.
  cbn zeta. rewrite Hclusters. cbn [for_fold].
  figures_no_cluster_test.
Qed.

(** C4. In a grand-average run with exactly one subject, on score files
    that hold no cluster (the cluster permutation test is not run on one
    subject), [add_decoding_grand_average] produces no figure of t-values
    and shades no cluster: no figure it makes, whether it returns or raises,
    carries the t-value axis or a highlighted span. *)
Theorem single_subject_no_cluster_test
  (session : option string) (cfg : Cfg.t) (report : nat) (s : St) :
  length (get_subjects (OfCfg cfg)) = 1%nat ->
  stores_no_clusters cfg session ->
  no_cluster_assessment session cfg report s.
Proof.
  intros Hn Hstored r s' Hrun.
  assert (Hnone : no_new_cluster_test_figure s s').
  { revert s r s' Hrun.
    change (preserves no_new_cluster_test_figure
              (add_decoding_grand_average session cfg report)).
    unfold add_decoding_grand_average. rewrite Hn. cbn [Nat.ltb Nat.leb when].
    do 4 (apply preserves_bind; try (typeclasses eauto);
          [solve [figures_no_cluster_test]|intros ?]).
    apply preserves_for_each_in; [typeclasses eauto|]. intros [cond_1 cond_2] Hin.
    apply preserves_bind_strong; [typeclasses eauto| |].
    { figures_no_cluster_test. }
    intros d s1 s2 Hd. apply loadmat_grand_average_inr in Hd.
    apply preserves_bind; [typeclasses eauto| |intros ?].
    { apply gavg_no_cluster_test. exact (Hstored _ _ Hin Hd). }
    figures_no_cluster_test. }
  intros i f Hf Hi.
  assert (Hnot : ~ shows_cluster_test f).
  { intros Hshows. destruct (Hnone _ _ Hf Hshows) as (f0 & Hf0 & _).
    apply lookup_lt_Some in Hf0. lia. }
  unfold shows_cluster_test in Hnot. split; [tauto|].
  destruct (highlights f); [reflexivity|]. exfalso. apply Hnot. right. discriminate.
Qed.

End ClusterTest.

(** ** The entry point *)

Section Main.

Context {W : World}.

(** C9. For a resting-state task, [main] stops after the subject-level
    reports: whatever it returns, the reports, the figures and the saved
    files are those the subject-level phase left, and the log has gained at
    most the message that the average report is skipped.  No step of the
    grand-average phase has run. *)
Theorem rest_task_skips_grand_average
  (config : Config.t) (s s' : St) (r : result unit) :
  Config.task_is_rest config = true ->
  main config s = (r, s') ->
  exists logs s1,
    parallel_run_report config s = (logs, s1) /\
    reports s' = reports s1 /\
    figures s' = figures s1 /\
    open_figs s' = open_figs s1 /\
    saved s' = saved s1 /\
    match logs with
    | inr _ => r = inr tt /\ log s' = log s1 ++ [info skip_message]
    | inl e => r = inl e /\ log s' = log s1
    end.
Proof.
  intros Hrest. unfold main. rewrite bind_run, Hrest.
  destruct (parallel_run_report config s) as [[e|logs] s1].
  - intros [= <- <-]. exists (inl e), s1. auto 10.
  - intros [= <- <-]. exists (inr logs), s1. cbn. auto 10.
Qed.

End Main.

(** * Concrete runs *)

Module Runs.

Import Scenario.

(** *** The figure of the grand-average scores *)

Lemma significant_clusters_highlighted_witness :
  exists f,
    figures gavg_run.2 !! 0%nat = Some f /\
    Some <$> highlights f = [Some (fz 1, fz 2)].
Proof.
  destruct (significant_clusters_highlighted cfg_one scores_1d empty_state
              gavg_run.2 0%nat) as (f & Hf & Hhl).
  - reflexivity.
  - repeat constructor.
  - vm_compute. reflexivity.
  - exists f. split; [exact Hf|]. rewrite Hhl. vm_compute. reflexivity.
Defined.

Lemma grand_average_figure_draws_uncertainty_witness :
  GA.N scores_1d = 1 /\
  exists f, figures gavg_run.2 !! 0%nat = Some f /\ length (curves f) = 4%nat.
Proof.
  split; [reflexivity|].
  destruct (grand_average_figure_draws_uncertainty cfg_one scores_1d empty_state
              gavg_run.2 0%nat)
    as (f & ? & ? & ? & ? & ? & ? & ? & Hf & _ & _ & _ & _ & _ & _ & _ & Hcurves).
  - vm_compute. reflexivity.
  - exists f. split; [exact Hf|]. rewrite Hcurves. reflexivity.
Defined.

Lemma decoding_plots_use_diagonal_witness :
  (exists f, figures folds_run.2 !! 0%nat = Some f /\
     curves f =
       [FillBetween [fz 0; fz 1]
          (Np.Nd1 [Float.min (tenths 8) (tenths 6); Float.min (tenths 9) (tenths 7)])
          (Np.Nd1 [Float.max (tenths 8) (tenths 6); Float.max (tenths 9) (tenths 7)])
          "range [min, max]";
        Plot [fz 0; fz 1]
          (Np.Nd1 [Float.div (Float.add (tenths 8) (tenths 6)) (fz 2);
                   Float.div (Float.add (tenths 9) (tenths 7)) (fz 2)])
          (Some "mean")]) /\
  (exists f, figures generalization_run.2 !! 0%nat = Some f /\
     curves f =
       [FillBetween [fz 0; fz 1] (Np.Nd1 [tenths 7; tenths 8])
          (Np.Nd1 [tenths 9; fz 1]) "95% confidence interval";
        Plot [fz 0; fz 1] (Np.Nd1 [tenths 8; tenths 9]) (Some "mean");
        Plot [fz 0; fz 1]
          (Np.Nd1 [Float.sub (tenths 8) (tenths 1); Float.sub (tenths 9) (tenths 1)])
          (Some "mean ± standard error");
        Plot [fz 0; fz 1]
          (Np.Nd1 [Float.add (tenths 8) (tenths 1); Float.add (tenths 9) (tenths 1)])
          None]).
Proof.
  split.
  - destruct (proj1 decoding_plots_use_diagonal [fz 0; fz 1] folds_3d "roc_auc" 1
                empty_state folds_run.2 0%nat)
      as (f & m & mx & mn & Hf & Hm & Hmx & Hmn & Hcurves).
    + vm_compute. reflexivity.
    + exists f. split; [exact Hf|]. rewrite Hcurves.
      vm_compute in Hm, Hmx, Hmn. injection Hm as <-. injection Hmx as <-.
      injection Hmn as <-. vm_compute. reflexivity.
  - destruct (proj2 decoding_plots_use_diagonal cfg_generalization scores_2d
                [[tenths 8; tenths 6]; [tenths 5; tenths 9]]
                [[tenths 1; tenths 2]; [tenths 2; tenths 1]]
                [[tenths 7; tenths 4]; [tenths 3; tenths 8]]
                [[tenths 9; tenths 8]; [tenths 7; fz 1]]
                empty_state generalization_run.2 0%nat)
      as (f & Hf & Hcurves); try reflexivity.
    exists f. split; [exact Hf|]. rewrite Hcurves. reflexivity.
Defined.

(** *** The grand-average decoding section of a single subject *)

Lemma single_subject_run_returns :
  single_subject_run = (inr tt, single_subject_run.2).
Proof. vm_compute. reflexivity. Qed.

(** With one subject the figure of the decoding performance over time is
    built, with its confidence band and standard-error curves, but the
    report gets the full-epochs figure only. *)
Lemma single_subject_section_not_rendered :
  length (get_subjects (World := world) (OfCfg cfg_one)) = 1%nat /\
  ~ renders_mean_only_section (W := world) None cfg_one 0%nat started_state /\
  exists f,
    figures single_subject_run.2 !! 2%nat = Some f /\
    length (curves f) = 4%nat /\
    ~ mean_only f.
Proof.
  split; [reflexivity|]. split.
  - intros H.
    destruct (H _ single_subject_run_returns contrast)
      as (rep & it & fig & f & Hrep & Hin & Htitle & _).
    + apply list_elem_of_here.
    + vm_compute in Hrep. injection Hrep as <-.
      apply list_elem_of_singleton in Hin. subst it. discriminate Htitle.
  - eexists. split; [vm_compute; reflexivity|].
    split; [reflexivity|]. intros (x & y & Hmean). discriminate Hmean.
Qed.

(** On the score file of one subject, which holds no cluster, the figure of
    the scores is figure 2: it has no t-value axis and no shaded span. *)
Lemma single_subject_no_cluster_test_witness :
  exists f,
    figures cluster_free_run.2 !! 2%nat = Some f /\
    ~ is_t_value_figure f /\ highlights f = [].
Proof.
  eexists. split; [vm_compute; reflexivity|].
  apply (single_subject_no_cluster_test (W := world_single) None cfg_one 0%nat
           started_state) with (r := cluster_free_run.1) (s' := cluster_free_run.2)
                               (i := 2%nat).
  - reflexivity.
  - intros c d Hin Hfs. apply list_elem_of_singleton in Hin. subst c.
    vm_compute in Hfs. injection Hfs as <-. reflexivity.
  - unfold cluster_free_run. apply surjective_pairing.
  - vm_compute. reflexivity.
  - cbn. lia.
Defined.

(** *** A missing score file *)

Lemma grand_average_inputs_ok_missing :
  grand_average_inputs_ok (W := world_missing) cfg_one "average" None.
Proof.
  repeat split.
  - discriminate.
  - intros e He. discriminate He.
  - intros a Ha. vm_compute in Ha. injection Ha as <-. eauto.
  - intros c a Hin Ha. apply list_elem_of_singleton in Hin as ->.
    vm_compute in Ha. injection Ha as <-. eauto.
  - intros all_scores Hall.
    apply Forall2_cons_inv_l in Hall as (scores & rest & Hscores & Hrest & ->).
    apply Forall2_nil_inv_l in Hrest as ->.
    vm_compute in Hscores. injection Hscores as <-.
    intros s. unfold _plot_full_epochs_decoding_scores, mbind, ES_bind. cbn.
    rewrite with_axes_new. cbn. eauto.
  - intros c a Hin Ha. apply list_elem_of_singleton in Hin as ->.
    vm_compute in Ha. discriminate Ha.
Qed.

Lemma missing_score_artifact_aborts_grand_average_witness :
  exists e s',
    run_report_average (W := world_missing) cfg_one "average" None empty_state
      = (inl e, s') /\
    saved s' = saved empty_state /\
    missing_artifact_error (W := world_missing) e.
Proof.
  destruct (missing_score_artifact_aborts_grand_average (W := world_missing)
              cfg_one "average" None empty_state)
    as (e & s' & Hrun & Hsaved & Hkind).
  - reflexivity.
  - exists contrast, "TimeByTime". split; [apply list_elem_of_here|].
    split; [right; reflexivity|]. vm_compute. reflexivity.
  - exists e, s'. split; [exact Hrun|]. split; [exact Hsaved|].
    exact (Hkind grand_average_inputs_ok_missing).
Defined.

(** The exception of that run is the missing file. *)
Example missing_score_artifact_is_reported :
  (run_report_average (W := world_missing) cfg_one "average" None empty_state).1
  = inl (FileNotFoundError
           (grand_average_score_file cfg_one None contrast "TimeByTime")).
Proof. vm_compute. reflexivity. Qed.

(** *** The report of subject 05, who has no coregistration *)

Lemma missing_coregistration_skips_source_stage_witness :
  exists s' rep,
    subject_run = (inr tt, s') /\
    saved s' = [(fname_report cfg_one "05" None, rep)] /\
    preprocessing_sections (W := world) cfg_one "05" None rep /\
    sensor_sections (W := world) cfg_one "05" None rep /\
    map item_title (report_items rep)
    = ["Raw"; "Events"; "Epochs (before cleaning)"; "Epochs (after cleaning)";
       "Condition: raised-left"; "Condition: raised-right";
       "Contrast: raised-left - raised-right";
       "Full-epochs Decoding"; "Decoding performance over time";
       "Configuration file"; "System information"].
Proof.
  destruct (missing_coregistration_skips_source_stage (W := world) cfg_one "05" None
              empty_state created.2 preprocessed.2 sensor_done.2 0%nat 0%nat 0%nat
              "config.py" (TextFile "subjects = ['05']"))
    as (s3 & s' & rep1 & rep2 & _ & _ & _ & _ & _ & _ & _ & Hrep2 & _ & Hrun & Hsaved
        & _ & Hpre & Hsensor);
    try (vm_compute; reflexivity).
  exists s', (finalized "config.py" rep2).
  do 4 (split; [assumption|]).
  vm_compute in Hrep2. injection Hrep2 as <-. reflexivity.
Defined.

Lemma finalization_precedes_save_witness :
  exists rep config_path,
    saved subject_run.2
    = [(fname_report cfg_one "05" None, finalized config_path rep)].
Proof.
  destruct (finalization_precedes_save (W := world) cfg_one "05" None empty_state
              subject_run.2)
    as (s0 & s1 & s2 & s3 & report & rep & config_path & _ & _ & _ & _ & _ & _ & Hsaved).
  - vm_compute. reflexivity.
  - exists rep, config_path. exact Hsaved.
Defined.

(** *** The time-frequency figures of the sensor stage *)

(** C6, at a configuration with one time-frequency condition: the sensor
    stage returns, the figure it has embedded under [TFR ITC] is figure 2,
    and pyplot still holds that figure open, whereas the power figure
    embedded just before it has been closed. *)
Theorem tfr_itc_figure_left_open :
  exists s' rep,
    tfr_run = (inr 0%nat, s') /\
    reports s' !! 0%nat = Some rep /\
    {| item_content := AddFigure [(2%nat, [External "itc.plot_topo"])];
       item_title := "TFR ITC: raised-left"; item_section := None |}
      ∈ report_items rep /\
    {| item_content := AddFigure [(1%nat, [External "power.plot_topo"])];
       item_title := "TFR Power: raised-left"; item_section := None |}
      ∈ report_items rep /\
    2%nat ∈ open_figs s' /\
    1%nat ∉ open_figs s'.
Proof.
  exists tfr_run.2. eexists.
  split; [vm_compute; reflexivity|].
  split; [vm_compute; reflexivity|].
  split; [do 4 apply list_elem_of_further; apply list_elem_of_here|].
  split; [do 3 apply list_elem_of_further; apply list_elem_of_here|].
  split; apply (bool_decide_unpack _); vm_compute; exact I.
Qed.

(** *** A resting-state task *)

Lemma rest_task_skips_grand_average_witness :
  saved rest_run.2 = saved (parallel_run_report (W := world) config_rest empty_state).2.
Proof.
  destruct (rest_task_skips_grand_average (W := world) config_rest empty_state
              rest_run.2 rest_run.1)
    as (logs & s1 & Hphase & _ & _ & _ & Hsaved & _).
  - reflexivity.
  - vm_compute. reflexivity.
  - rewrite Hphase. exact Hsaved.
Defined.

End Runs.

(** * The mean curve of the aggregator *)

Module AggregatorProofs.

Import Aggregator.
Local Open Scope Q_scope.

Lemma fold_left_Qplus (xs : list Q) (a : Q) :
fold_left Qplus xs a == a + fold_right Qplus 0 xs.
Proof.
revert a. induction xs as [|x xs IH]; intros a; cbn.
- ring.
- rewrite IH. ring.
Qed.

Lemma nth_zip_with_Qplus (v w : list Q) (i : nat) :
length w = length v ->
nth i (zip_with Qplus v w) 0 == nth i v 0 + nth i w 0.
Proof.
revert w i. induction v as [|x v IH]; intros [|y w] [|i] Hlen; cbn in *;
  try discriminate; try ring.
apply IH. lia.
Qed.

Lemma nth_fold_zip_with (others : list (list Q)) :
forall (first : list Q) (i : nat),
  Forall (fun v => length v = length first) others ->
  nth i (fold_left (zip_with Qplus) others first) 0
  == fold_left Qplus (column i others) (nth i first 0).
Proof.
induction others as [|v others IH]; intros first i Hlen; cbn.
- reflexivity.
- apply Forall_cons in Hlen as [Hv Hothers].
  rewrite IH.
  + rewrite !fold_left_Qplus, nth_zip_with_Qplus by assumption. reflexivity.
  + rewrite length_zip_with, Hv, Nat.min_id.
    eapply Forall_impl; [exact Hothers|]. cbn. intros w Hw. exact Hw.
Qed.

Lemma nth_map_div (n : Q) (v : list Q) (i : nat) :
nth i (map (fun x => x / n) v) 0 == nth i v 0 / n.
Proof.
revert i. induction v as [|x v IH]; intros [|i]; cbn;
  try reflexivity; try (unfold Qdiv; ring). apply IH.
Qed.

Lemma elementwise_mean_spec (first : list Q) (others : list (list Q)) (i : nat) :
Forall (fun v => length v = length first) others ->
nth i (elementwise_mean first others) 0
== arithmetic_mean (column i (first :: others)).
Proof.
intros Hlen. unfold elementwise_mean, arithmetic_mean.
rewrite nth_map_div, nth_fold_zip_with, fold_left_Qplus by assumption.
cbn [column map fold_right length]. unfold column. rewrite length_map.
reflexivity.
Qed.

Lemma on_axis_length (axis : list Q) (c : ScoreCurve) :
on_axis axis c = true -> length (values c) = length axis.
Proof.
unfold on_axis. intros H. apply andb_prop in H as [_ H].
apply Nat.eqb_eq in H. exact H.
Qed.

(** C8. For two or more subject curves on one time axis the aggregator
  returns a group statistic whose mean curve is, at every time point, the
  arithmetic mean of the subjects' values there; whatever the resample
  count, the seed, the generator and the summary statistics of the
  bootstrap, the mean curve is the same. *)
Theorem mean_is_arithmetic_mean
(Seed : Type) (resample : Seed -> nat -> nat -> list (list nat))
(std : list Q -> Q) (percentile : Q -> list Q -> Q)
(B : nat) (seed : Seed) (first : ScoreCurve) (others : list ScoreCurve) :
others <> [] ->
Forall (fun c => on_axis (times first) c = true) (first :: others) ->
exists gs,
  aggregate Seed resample std percentile B seed first others = inr gs /\
  n_subjects gs = S (length others) /\
  times (mean gs) = times first /\
  (forall i,
     nth i (values (mean gs)) 0
     == arithmetic_mean (column i (map values (first :: others)))) /\
  (forall (Seed' : Type) (resample' : Seed' -> nat -> nat -> list (list nat))
          (std' : list Q -> Q) (percentile' : Q -> list Q -> Q)
          (B' : nat) (seed' : Seed'),
     exists gs',
       aggregate Seed' resample' std' percentile' B' seed' first others = inr gs' /\
       mean gs' = mean gs).
Proof.
intros Hn Haxis.
assert (Hall : forallb (on_axis (times first)) (first :: others) = true).
{ apply forallb_forall. intros c Hc. rewrite Forall_forall in Haxis.
  apply Haxis. apply list_elem_of_In. exact Hc. }
unfold aggregate. rewrite Hall.
destruct others as [|c others]; [contradiction|].
eexists. split; [reflexivity|]. cbn [mean n_subjects curve_like times values].
split; [reflexivity|]. split; [reflexivity|]. split.
- intros i. cbn [map]. apply elementwise_mean_spec.
  apply Forall_cons in Haxis as [Hfirst Hothers].
  change (values c :: map values others) with (values <$> (c :: others)).
  rewrite Forall_fmap. eapply Forall_impl; [exact Hothers|].
  cbn. intros c' Hc'. rewrite (on_axis_length _ _ Hc'), (on_axis_length _ _ Hfirst).
  reflexivity.
- intros Seed' resample' std' percentile' B' seed'.
  eexists. split; [reflexivity|]. reflexivity.
Qed.

Lemma mean_is_arithmetic_mean_witness :
exists gs,
  aggregate unit (fun _ B n => repeat (seq 0 n) B) (fun _ => 0) (fun _ _ => 0)
    2000 tt (curve (1 # 2) (9 # 10)) [curve (6 # 10) (8 # 10); curve (7 # 10) (1 # 1)]
  = inr gs /\
  nth 0 (values (mean gs)) 0 == 6 # 10 /\
  nth 1 (values (mean gs)) 0 == 9 # 10.
Proof.
destruct (mean_is_arithmetic_mean unit (fun _ B n => repeat (seq 0 n) B)
            (fun _ => 0) (fun _ _ => 0) 2000 tt (curve (1 # 2) (9 # 10))
            [curve (6 # 10) (8 # 10); curve (7 # 10) (1 # 1)])
  as (gs & Hgs & _ & _ & Hmean & _).
- discriminate.
- repeat constructor.
- exists gs. split; [exact Hgs|].
  split; rewrite Hmean; reflexivity.
Defined.

End AggregatorProofs.

(** * Further properties of the report module *)

(** ** Names of score files *)

Lemma list_ascii_of_string_app (s t : string) :
  list_ascii_of_string (s +:+ t) = list_ascii_of_string s ++ list_ascii_of_string t.
Proof. induction s as [|c s IH]; [reflexivity|]. simpl. rewrite IH. reflexivity. Qed.

Lemma string_of_list_ascii_app (l k : list ascii) :
  string_of_list_ascii (l ++ k) = string_of_list_ascii l +:+ string_of_list_ascii k.
Proof. induction l as [|c l IH]; [reflexivity|]. simpl. rewrite IH. reflexivity. Qed.

Lemma remove_char_app (a : ascii) (s t : string) :
  remove_char a (s +:+ t) = remove_char a s +:+ remove_char a t.
Proof.
  unfold remove_char.
  rewrite list_ascii_of_string_app, filter_app, string_of_list_ascii_app. reflexivity.
Qed.

Lemma replace_char_app (a b : ascii) (s t : string) :
  replace_char a b (s +:+ t) = replace_char a b s +:+ replace_char a b t.
Proof.
  unfold replace_char.
  rewrite list_ascii_of_string_app, map_app, string_of_list_ascii_app. reflexivity.
Qed.

(** [s.replace('_', '-').replace('-', '')] keeps the characters of [s]
    that are neither an underscore nor a dash. *)
Lemma replace_then_remove (s : string) :
  remove_char "-"%char (replace_char "_"%char "-"%char s)
  = remove_char "-"%char (remove_char "_"%char s).
Proof.
  unfold remove_char, replace_char.
  rewrite !list_ascii_of_string_of_list_ascii. f_equal.
  induction (list_ascii_of_string s) as [|c l IH]; [reflexivity|].
  cbn [map]. rewrite !filter_cons.
  destruct (Ascii.eqb_spec c "_"%char) as [->|Hne].
  - rewrite decide_False by (intros H; apply H; reflexivity).
    rewrite (decide_False (P := "_"%char ≠ "_"%char)) by (intros H; apply H; reflexivity).
    exact IH.
  - rewrite (decide_True (P := c ≠ "_"%char)) by assumption.
    rewrite filter_cons. destruct (decide (c ≠ "-"%char)); rewrite IH; reflexivity.
Qed.

Lemma remove_char_elem (a c : ascii) (s : string) :
  c ∈ list_ascii_of_string (remove_char a s) -> c <> a /\ c ∈ list_ascii_of_string s.
Proof.
  unfold remove_char. rewrite list_ascii_of_string_of_list_ascii.
  intros H. apply list_elem_of_filter in H. exact H.
Qed.

(** X1. The [processing] entity of a score file never holds an underscore
    or a dash, whatever the names of the conditions, the analysis and the
    metric: with the metric [roc_auc] the file is named after [rocauc]. *)
Theorem decoding_processing_has_no_dash_or_underscore
  (cfg : Cfg.t) (contrast : string * string) (analysis : string) :
  Forall (fun c => c <> "_"%char /\ c <> "-"%char)
    (list_ascii_of_string (decoding_processing cfg contrast analysis)).
Proof.
  destruct contrast as [cond_1 cond_2]. unfold decoding_processing.
  rewrite replace_then_remove. apply Forall_forall. intros c H.
  apply remove_char_elem in H as [Hdash H].
  apply remove_char_elem in H as [Hunderscore _]. auto.
Qed.

Lemma remove_char_absent (a : ascii) (s : string) :
  a ∉ list_ascii_of_string s -> remove_char a s = s.
Proof.
  intros Ha. unfold remove_char.
  rewrite <- (string_of_list_ascii_of_string s) at 2. f_equal.
  induction (list_ascii_of_string s) as [|c l IH]; [reflexivity|].
  apply not_elem_of_cons in Ha as [Hne Ha].
  rewrite filter_cons_True by congruence. rewrite IH by assumption. reflexivity.
Qed.

Lemma remove_char_removes (a : ascii) (s : string) :
  a ∉ list_ascii_of_string (remove_char a s).
Proof. intros H. apply remove_char_elem in H as [H _]. congruence. Qed.

Lemma remove_char_keeps_absent (a b : ascii) (s : string) :
  a ∉ list_ascii_of_string s -> a ∉ list_ascii_of_string (remove_char b s).
Proof. intros Ha H. apply remove_char_elem in H as [_ H]. contradiction. Qed.

(** Stripping the separators twice is stripping them once. *)
Lemma strip_separators_stripped (cond : string) :
  remove_char "-"%char (remove_char "_"%char (remove_char "/"%char
    (strip_separators cond)))
  = strip_separators cond.
Proof.
  rewrite (remove_char_absent "/"%char).
  2:{ unfold strip_separators.
      do 2 apply remove_char_keeps_absent. apply remove_char_removes. }
  rewrite (remove_char_absent "_"%char).
  2:{ unfold strip_separators.
      apply remove_char_keeps_absent, remove_char_removes. }
  apply remove_char_absent. unfold strip_separators. apply remove_char_removes.
Qed.

(** The score file of a contrast depends on the names of its conditions
    only up to the path separators, underscores and dashes in them. *)
Lemma decoding_processing_strip (cfg : Cfg.t) (cond_1 cond_2 analysis : string) :
  decoding_processing cfg (strip_separators cond_1, strip_separators cond_2) analysis
  = decoding_processing cfg (cond_1, cond_2) analysis.
Proof.
  unfold decoding_processing. rewrite !replace_then_remove.
  rewrite !remove_char_app, !strip_separators_stripped. reflexivity.
Qed.

(** X2. Two contrasts whose condition names differ only in path separators,
    underscores and dashes are read from one and the same score file. *)
Theorem contrasts_share_score_file
  (cfg : Cfg.t) (bids_path : BIDSPath) (cond_1 cond_2 cond_1' cond_2' analysis : string) :
  strip_separators cond_1 = strip_separators cond_1' ->
  strip_separators cond_2 = strip_separators cond_2' ->
  fname_decoding cfg bids_path (cond_1, cond_2) analysis
  = fname_decoding cfg bids_path (cond_1', cond_2') analysis.
Proof.
  intros H1 H2. unfold fname_decoding.
  rewrite <- (decoding_processing_strip cfg cond_1 cond_2).
  rewrite <- (decoding_processing_strip cfg cond_1' cond_2').
  rewrite H1, H2. reflexivity.
Qed.

(** ** Running drawing calls *)

Lemma draw_ax {A} (c : cmd) (k : unit -> Draw A) (f : figure) :
  (ax c ≫= k) f = k tt (f ++ [c]).
Proof. reflexivity. Qed.

Lemma draw_label {A} (decim : Z) (k : unit -> Draw A) (f : figure) :
  (_label_time_by_time decim (Some "Time (s)") None ≫= k) f
  = k tt (f ++ label_time decim).
Proof. reflexivity. Qed.

Lemma lift_bind {S A B} (r : result A) (k : A -> ES S B) (s : S) :
  (lift r ≫= k) s = match r with inr a => k a s | inl e => (inl e, s) end.
Proof. destruct r; reflexivity. Qed.

Lemma draw_lift {A B} (r : result A) (k : A -> Draw B) (f : figure) :
  (lift r ≫= k) f = match r with inr a => k a f | inl e => (inl e, f) end.
Proof. destruct r; reflexivity. Qed.

Ltac draw_in H :=
  repeat (first [rewrite draw_ax in H | rewrite draw_label in H | rewrite draw_lift in H];
          cbn beta in H).

Ltac draw :=
  repeat (first [rewrite draw_ax | rewrite draw_label | rewrite draw_lift]; cbn beta).

(** Brings nested list concatenations into one right-nested form. *)
Ltac norm_app := repeat (progress (rewrite <- ?app_assoc; cbn [app])).

(** ** The plotting functions *)

Lemma flat_map_replicate_length {A B} (n : nat) (g : A -> B) (l : list A) :
  length (flat_map (fun c => replicate n (g c)) l) = (length l * n)%nat.
Proof.
  induction l as [|x l IH]; [reflexivity|].
  cbn [flat_map]. rewrite length_app, length_replicate, IH. cbn. lia.
Qed.

(** X3. The full-epochs plot checks nothing but the total number of scores:
    with at least one contrast and a non-empty first score array, it returns
    a new open figure exactly when the score arrays together hold as many
    scores as there are contrasts times the scores of the first array, and
    raises [ValueError] otherwise, before any figure is made.  The figure is
    a grid of boxplots for the grand average and of swarmplots for a single
    subject, over the concatenated scores, with the chance level marked. *)
Theorem full_epochs_plot_checks_total_length
  (contrasts : list (string * string)) (first : list float)
  (rest : list (list float)) (metric : string) (kind_ : kind) (s : St) :
  contrasts <> [] -> first <> [] ->
  if decide (length (concat (first :: rest)) = (length contrasts * length first)%nat)
  then exists column cmds,
         _plot_full_epochs_decoding_scores contrasts (first :: rest) metric kind_ s
         = (inr (length (figures s)),
            with_new_figure
              (Catplot (match kind_ with
                        | grand_average => "box"
                        | single_subject => "swarm"
                        end)
                 column (concat (first :: rest))
                 ("Score (" +:+ metric_label metric +:+ ")") :: cmds) s) /\
         length column = length (concat (first :: rest)) /\
         MapAxhline Float.half ∈ cmds
  else _plot_full_epochs_decoding_scores contrasts (first :: rest) metric kind_ s
       = (inl (ValueError "All arrays must be of the same length"), s).
Proof.
  intros Hcontrasts Hfirst.
  destruct contrasts as [|c contrasts]; [contradiction|].
  unfold _plot_full_epochs_decoding_scores. cbn zeta.
  rewrite bind_run, ret_run, bind_run, ret_run, bind_run.
  unfold Np.same_length. rewrite flat_map_replicate_length.
  destruct (decide _) as [Heq|Hne].
  - rewrite <- Heq, Nat.eqb_refl, ret_run.
    destruct kind_; rewrite bind_run, new_figure_run, bind_run, with_axes_new;
      draw; rewrite ax_run; cbn [fst snd]; rewrite ret_run; eexists _, _;
      (split; [reflexivity|]);
      (split; [rewrite flat_map_replicate_length; congruence|]);
      apply list_elem_of_further, list_elem_of_here.
  - destruct (Nat.eqb_spec (length (c :: contrasts) * length first)
                (length (concat (first :: rest)))) as [Heq|_]; [congruence|].
    reflexivity.
Qed.

(** *** The figure of t-values *)

Lemma t_values_axes (d : GA.decoding_data) (s : St) :
  exists f (r : result unit),
    plot_time_by_time_decoding_t_values d s
    = (match r with inr _ => inr (length (figures s)) | inl e => inl e end,
       with_new_figure f s) /\
    let base := [Plot (GA.cluster_all_times d) (Np.Nd1 (GA.cluster_all_t_values d))
                   (Some "observed $t$-values");
                 Axhline (GA.cluster_t_threshold d) (Some "threshold");
                 Text ("$N$=" +:+ pretty (GA.N d))] ++
                label_time (GA.decim d) ++
                [SetYlabel "$t$-value"; Legend "lower right"] in
    match Np.vmin (GA.cluster_all_t_values d), Np.vmax (GA.cluster_all_t_values d) with
    | inr tmin, inr tmax =>
        r = inr tt /\
        f = base ++
            (if Float.lt tmin Float.zero && Float.lt Float.zero tmax then
               [SetYlim YlimSymmetric]
             else if Float.lt Float.zero tmin && Float.lt Float.zero tmax then
               [SetYlim (YlimRange Float.zero tmax)]
             else if Float.lt tmin Float.zero && Float.lt tmax Float.zero then
               [SetYlim (YlimRange tmin Float.zero)]
             else [])
    | inl e, _ | _, inl e => r = inl e /\ f = base
    end.
Proof.
  unfold plot_time_by_time_decoding_t_values, plt_subplots. cbn zeta.
  rewrite bind_run, new_figure_run, bind_run, with_axes_new.
  match goal with |- context [fst (?D [])] => destruct (D []) as [rd f] eqn:HD end.
  cbn [fst snd]. exists f, rd. split.
  { destruct rd as [e|[]]; [reflexivity|]. rewrite ret_run. reflexivity. }
  draw_in HD. cbn [app] in HD.
  destruct (Np.vmin (GA.cluster_all_t_values d)) as [e|tmin].
  { injection HD as <- <-. auto. }
  destruct (Np.vmax (GA.cluster_all_t_values d)) as [e|tmax].
  { injection HD as <- <-. auto. }
  draw_in HD.
  repeat match type of HD with
         | (if ?b then _ else _) _ = _ => destruct b
         end;
    first [rewrite ax_run in HD|rewrite ret_run in HD]; injection HD as <- <-;
    (split; [reflexivity|]); rewrite <- ?app_assoc; cbn [app];
    rewrite ?app_nil_r; reflexivity.
Qed.

(** X4. The figure of t-values is made before the t-values are looked at:
    without any t-value the function raises [ValueError], and the figure it
    has made stays registered with pyplot. *)
Theorem t_values_plot_without_values_leaves_figure_open
  (d : GA.decoding_data) (s : St) :
  GA.cluster_all_t_values d = [] ->
  exists f msg,
    plot_time_by_time_decoding_t_values d s
    = (inl (ValueError msg), with_new_figure f s).
Proof.
  intros Hempty. destruct (t_values_axes d s) as (f & r & Hrun & Hf).
  rewrite Hempty in Hf. cbn [Np.vmin Np.vmax] in Hf. destruct Hf as [-> ->].
  eexists _, _. exact Hrun.
Qed.

Lemma lt_zero_antisym (x : float) :
  Float.lt x Float.zero = true -> Float.lt Float.zero x = false.
Proof.
  unfold Float.lt, Float.zero, SFltb, SFcompare.
  destruct x as [[]|[]| |[] m e]; congruence.
Qed.

(** X5. The figure of t-values sets the limits of its y axis in three
    cases only, and zero is on the axis in each of them: symmetric limits
    when the smallest t-value is negative and the largest positive, limits
    from zero to the largest when all are positive, from the smallest to
    zero when all are negative.  When the smallest or the largest t-value is
    zero or not a number, no limit is set. *)
Theorem t_values_axis_holds_zero
  (d : GA.decoding_data) (s s' : St) (fig : nat) (tmin tmax : float) :
  plot_time_by_time_decoding_t_values d s = (inr fig, s') ->
  Np.vmin (GA.cluster_all_t_values d) = inr tmin ->
  Np.vmax (GA.cluster_all_t_values d) = inr tmax ->
  exists f,
    figures s' !! fig = Some f /\
    forall l,
      SetYlim l ∈ f <->
      (l = YlimSymmetric /\
       Float.lt tmin Float.zero = true /\ Float.lt Float.zero tmax = true) \/
      (l = YlimRange Float.zero tmax /\
       Float.lt Float.zero tmin = true /\ Float.lt Float.zero tmax = true) \/
      (l = YlimRange tmin Float.zero /\
       Float.lt tmin Float.zero = true /\ Float.lt tmax Float.zero = true).
Proof.
  intros Hrun Hmin Hmax. destruct (t_values_axes d s) as (f & r & Hrun' & Hf).
  rewrite Hmin, Hmax in Hf. cbn zeta in Hf. destruct Hf as [-> ->].
  rewrite Hrun in Hrun'. injection Hrun' as -> ->.
  eexists. split.
  { unfold with_new_figure. cbn. rewrite lookup_app_r, Nat.sub_diag by lia. reflexivity. }
  intros l. unfold label_time.
  pose proof (lt_zero_antisym tmin) as Hmin0.
  pose proof (lt_zero_antisym tmax) as Hmax0.
  destruct (Float.lt tmin Float.zero), (Float.lt Float.zero tmax),
           (Float.lt Float.zero tmin), (Float.lt tmax Float.zero);
    cbn [andb];
    rewrite ?elem_of_app, ?elem_of_cons, ?elem_of_nil;
    try (specialize (Hmin0 eq_refl)); try (specialize (Hmax0 eq_refl));
    split; intros H; try discriminate;
    repeat match goal with
           | H : _ \/ _ |- _ => destruct H
           | H : _ /\ _ |- _ => destruct H
           | H : False |- _ => destruct H
           end;
    try discriminate; simplify_eq; auto 10.
Qed.

(** *** The legend of the shaded clusters *)

Lemma highlight_labels_app (f g : figure) :
  highlight_labels (f ++ g) = highlight_labels f ++ highlight_labels g.
Proof. unfold highlight_labels. apply omap_app. Qed.

Lemma highlight_labels_length (f : figure) :
  length (highlight_labels f) = length (highlights f).
Proof.
  induction f as [|c f IH]; [reflexivity|].
  destruct c; try exact IH. change (S (length (highlight_labels f)) = S (length (highlights f))).
  f_equal. exact IH.
Qed.

Lemma highlight_loop_labels (threshold : float) (clusters : list cluster) :
  forall (n : nat) (f f' : figure) (r : result nat),
    for_fold clusters n (highlight_cluster threshold) f = (r, f') ->
    exists hl, f' = f ++ hl /\
      match n with
      | O => only_first_labelled threshold (highlight_labels hl)
      | S _ => Forall (fun l => l = None) (highlight_labels hl)
      end.
Proof.
  induction clusters as [|c clusters IH]; intros n f f' r H.
  - cbn in H. injection H as <- <-. exists []. rewrite app_nil_r.
    split; [reflexivity|]. destruct n; cbn; auto.
  - cbn [for_fold] in H. rewrite bind_run in H.
    unfold highlight_cluster at 1 in H.
    destruct (Float.ge (p_value c) threshold).
    + rewrite ret_run in H. apply IH in H. exact H.
    + destruct (head (cluster_times c)) as [x1|]; draw_in H.
      2:{ injection H as <- <-. exists []. rewrite app_nil_r.
          split; [reflexivity|]. destruct n; cbn; auto. }
      destruct (last (cluster_times c)) as [x2|]; draw_in H.
      2:{ injection H as <- <-. exists []. rewrite app_nil_r.
          split; [reflexivity|]. destruct n; cbn; auto. }
      rewrite ret_run in H.
      apply IH in H. destruct H as (hl & -> & Hhl).
      eexists (_ :: hl). split; [rewrite <- app_assoc; reflexivity|].
      destruct n; cbn; auto.
Qed.

(** The figure of the grand-average scores, with the cluster loop kept as
    it runs. *)
Lemma gavg_figure_loop (cfg : Cfg.t) (d : GA.decoding_data) (s s' : St) (fig : nat) :
  _plot_time_by_time_decoding_scores_gavg cfg d s = (inr fig, s') ->
  exists n hl rest,
    for_fold (GA.clusters d) 0%nat
      (highlight_cluster (Cfg.cluster_permutation_p_threshold cfg))
      [SetYlim ylim_scores]
    = (inr n, [SetYlim ylim_scores] ++ hl) /\
    highlight_labels rest = [] /\
    figures s' !! fig = Some ([SetYlim ylim_scores] ++ hl ++ rest).
Proof.
  intros H. unfold _plot_time_by_time_decoding_scores_gavg in H.
  es_inv H.
  destruct a1 as [[[[mean_scores se_lower] se_upper] ci_lower] ci_upper].
  assert (s0 = s) as ->.
  { destruct (Cfg.decoding_time_generalization cfg); es_inv Hs1; reflexivity. }
  clear Hs1. es_inv H.
  match goal with
  | Hw : with_axes _ ?D _ = _ |- _ =>
      rewrite with_axes_new in Hw; destruct (D []) as [rd f'] eqn:HD;
      cbn [fst snd] in Hw; injection Hw as -> <-
  end.
  draw_in HD. cbn [app] in HD.
  apply bind_inr in HD as (n & f1 & Hloop & HD).
  pose proof (highlight_loop_labels _ _ _ _ _ _ Hloop) as (hl & -> & _).
  draw_in HD.
  apply bind_inr in HD as (z' & f2 & Hz & HD).
  apply spans_zero_inr in Hz as ->.
  apply bind_inr in HD as ([] & f3 & Hwhen & HD).
  draw_in HD. rewrite ax_run in HD. injection HD as <-.
  exists n, hl,
    (gavg_curves_cmds cfg d z' mean_scores se_lower se_upper ci_lower ci_upper).
  split; [exact Hloop|]. split; [destruct z'; reflexivity|].
  cbn [figures set_open_figs set_figures].
  rewrite lookup_app_r by reflexivity. rewrite Nat.sub_diag. cbn [lookup list_lookup].
  rewrite when_run in Hwhen. subst f'. unfold gavg_curves_cmds.
  destruct z'; [rewrite ax_run in Hwhen|]; injection Hwhen as <-;
    norm_app; reflexivity.
Qed.

(** X6. In the figure of the grand-average scores, the legend entry of the
    cluster permutation test is added once: of the spans shaded for the
    significant clusters, the first carries the label with the threshold
    and no other carries a label. *)
Theorem significant_clusters_labelled_once
  (cfg : Cfg.t) (d : GA.decoding_data) (s s' : St) (fig : nat) :
  _plot_time_by_time_decoding_scores_gavg cfg d s = (inr fig, s') ->
  exists f,
    figures s' !! fig = Some f /\
    length (highlight_labels f) = length (highlights f) /\
    only_first_labelled (Cfg.cluster_permutation_p_threshold cfg) (highlight_labels f).
Proof.
  intros H. apply gavg_figure_loop in H as (n & hl & rest & Hloop & Hrest & Hf).
  eexists. split; [exact Hf|].
  apply highlight_loop_labels in Hloop as (hl' & Heq & Hlabels).
  apply app_inv_head in Heq as <-.
  split.
  - apply highlight_labels_length.
  - rewrite !highlight_labels_app, Hrest, app_nil_r. exact Hlabels.
Qed.

(** ** Figures that stay open *)

#[global] Instance same_open_preorder : PreOrder same_open.
Proof.
  split; [intros s; reflexivity|].
  intros s1 s2 s3 H1 H2. unfold same_open in *. congruence.
Qed.

#[global] Instance closes_figures_preorder : PreOrder closes_figures.
Proof.
  split; [intros s; unfold closes_figures; reflexivity|].
  intros s1 s2 s3 H1 H2. unfold closes_figures in *. set_solver.
Qed.

Section OnReturn.

Context {S : Type} (R : S -> S -> Prop) `{!PreOrder R}.

Lemma on_return_preserves {A} (m : ES S A) : preserves R m -> on_return R m.
Proof. intros H s a s' E. exact (H _ _ _ E). Qed.

Lemma on_return_bind {A B} (m : ES S A) (k : A -> ES S B) :
  on_return R m -> (forall a, on_return R (k a)) -> on_return R (m ≫= k).
Proof.
  intros Hm Hk s b s' H. apply bind_inr in H as (a & s1 & Hma & Hka).
  transitivity s1; [exact (Hm _ _ _ Hma)|exact (Hk _ _ _ _ Hka)].
Qed.

Lemma on_return_ret {A} (a : A) : on_return R (mret a).
Proof. intros s a' s' [= _ <-]. reflexivity. Qed.

Lemma on_return_raise {A} (e : exn) : on_return R (raise e : ES S A).
Proof. intros s a s' H. discriminate H. Qed.

Lemma on_return_when (b : bool) (m : ES S unit) :
  on_return R m -> on_return R (when b m).
Proof. destruct b; [auto|]. intros _. apply on_return_ret. Qed.

Lemma on_return_for_each {A} (xs : list A) (body : A -> ES S unit) :
  (forall x, on_return R (body x)) -> on_return R (for_each xs body).
Proof.
  intros Hb. induction xs as [|x xs IH]; cbn [for_each].
  - apply on_return_ret.
  - apply on_return_bind; auto.
Qed.

Lemma on_return_for_collect {A B} (xs : list A) (body : A -> ES S B) :
  (forall x, on_return R (body x)) -> on_return R (for_collect xs body).
Proof.
  intros Hb. induction xs as [|x xs IH]; cbn [for_collect].
  - apply on_return_ret.
  - apply on_return_bind; [auto|]. intros y.
    apply on_return_bind; [auto|]. intros ys. apply on_return_ret.
Qed.

End OnReturn.

Lemma same_open_closes {A} (m : M A) :
  preserves same_open m -> on_return closes_figures m.
Proof. intros H s a s' E. unfold closes_figures. rewrite (H _ _ _ E). reflexivity. Qed.

Lemma plt_close_closing (fig : nat) : on_return (closing fig) (plt_close fig).
Proof. intros s [] s' [= <-]. unfold closing. cbn. reflexivity. Qed.

Lemma plt_close_closes (fig : nat) : on_return closes_figures (plt_close fig).
Proof. intros s [] s' [= <-]. unfold closes_figures. cbn. set_solver. Qed.

Lemma plt_close_all_closes : on_return closes_figures plt_close_all.
Proof. intros s [] s' [= <-]. unfold closes_figures. cbn. set_solver. Qed.

(** A figure closed in the first part of a run, or in the second. *)
Lemma closing_bind_l {A B} (fig : nat) (m : M A) (k : A -> M B) :
  on_return (closing fig) m -> (forall a, on_return closes_figures (k a)) ->
  on_return (closing fig) (m ≫= k).
Proof.
  intros Hm Hk s b s' H. apply bind_inr in H as (a & s1 & Hma & Hka).
  specialize (Hm _ _ _ Hma). specialize (Hk _ _ _ _ Hka).
  unfold closing, closes_figures in *. set_solver.
Qed.

Lemma closing_bind_r {A B} (fig : nat) (m : M A) (k : A -> M B) :
  on_return closes_figures m -> (forall a, on_return (closing fig) (k a)) ->
  on_return (closing fig) (m ≫= k).
Proof.
  intros Hm Hk s b s' H. apply bind_inr in H as (a & s1 & Hma & Hka).
  specialize (Hm _ _ _ Hma). specialize (Hk _ _ _ _ Hka).
  unfold closing, closes_figures in *. set_solver.
Qed.

(** A figure made, then closed by what follows. *)
Lemma opens_then_closing {B} (m : M nat) (k : nat -> M B) :
  opens_result m -> (forall fig, on_return (closing fig) (k fig)) ->
  on_return closes_figures (m ≫= k).
Proof.
  intros Hm Hk s b s' H. apply bind_inr in H as (fig & s1 & Hma & Hka).
  specialize (Hm _ _ _ Hma). specialize (Hk _ _ _ _ Hka).
  unfold closing, closes_figures in *. rewrite Hm in Hk. set_solver.
Qed.

Lemma opens_results_then_closing {B} (m : M (list nat)) (k : list nat -> M B) :
  opens_results m -> (forall figs, on_return (closing_all figs) (k figs)) ->
  on_return closes_figures (m ≫= k).
Proof.
  intros Hm Hk s b s' H. apply bind_inr in H as (fig & s1 & Hma & Hka).
  specialize (Hm _ _ _ Hma). specialize (Hk _ _ _ _ Hka).
  unfold closing_all, closes_figures in *. rewrite Hm in Hk. set_solver.
Qed.

Lemma closing_all_bind_r {A B} (figs : list nat) (m : M A) (k : A -> M B) :
  on_return closes_figures m -> (forall a, on_return (closing_all figs) (k a)) ->
  on_return (closing_all figs) (m ≫= k).
Proof.
  intros Hm Hk s b s' H. apply bind_inr in H as (a & s1 & Hma & Hka).
  specialize (Hm _ _ _ Hma). specialize (Hk _ _ _ _ Hka).
  unfold closing_all, closes_figures in *. set_solver.
Qed.

(** [for fig in figs: plt.close(fig)] *)
Lemma close_each (figs : list nat) :
  on_return (closing_all figs) (for_each figs plt_close).
Proof.
  induction figs as [|fig figs IH]; intros s [] s' H.
  - injection H as <-. unfold closing_all. set_solver.
  - cbn [for_each] in H. apply bind_inr in H as ([] & s1 & Hclose & H).
    injection Hclose as <-. specialize (IH _ _ _ H).
    unfold closing_all in *. cbn in *. set_solver.
Qed.

(** *** The figures the plotting functions make *)

Lemma opens_bind {A} (m : M A) (k : A -> M nat) :
  preserves same_open m -> (forall a, opens_result (k a)) -> opens_result (m ≫= k).
Proof.
  intros Hm Hk s fig s' H. apply bind_inr in H as (a & s1 & Hma & Hka).
  rewrite (Hk _ _ _ _ Hka). rewrite (Hm _ _ _ Hma). reflexivity.
Qed.

Lemma opens_raise (e : exn) : opens_result (raise e).
Proof. intros s fig s' H. discriminate H. Qed.

Lemma opens_new_figure (f : figure) : opens_result (new_figure f).
Proof. intros s fig s' [= <- <-]. reflexivity. Qed.

Lemma with_axes_same_open {A} (fig : nat) (d : Draw A) :
  preserves same_open (with_axes fig d).
Proof.
  intros s r s'. unfold with_axes.
  destruct (figures s !! fig); [destruct (d f)|]; intros [= _ <-]; reflexivity.
Qed.

(** [fig, ax = plt.subplots(); ...; return fig] *)
Lemma opens_drawn {A} (f : figure) (d : nat -> Draw A) :
  opens_result (fig ← new_figure f; with_axes fig (d fig);; mret fig).
Proof.
  intros s fig s' H. apply bind_inr in H as (n & s1 & Hnew & H).
  apply bind_inr in H as (a & s2 & Haxes & H). injection H as <- <-.
  rewrite (with_axes_same_open _ _ _ _ _ Haxes).
  exact (opens_new_figure _ _ _ _ Hnew).
Qed.

Ltac same_open_auto := preserves_auto ltac:(reflexivity).

Ltac opens_auto :=
  repeat first
    [ apply opens_raise
    | apply opens_new_figure
    | apply (opens_drawn _ (fun _ => _))
    | apply opens_bind; [solve [same_open_auto]|intros ?]
    | match goal with
      | |- opens_result (if ?b then _ else _) => destruct b
      | |- opens_result (match ?x with _ => _ end) => destruct x
      | |- opens_result (let '(_, _) := ?x in _) => destruct x
      end ].

Lemma opens_full_epochs (contrasts : list (string * string))
  (scores : list (list float)) (metric : string) (kind_ : kind) :
  opens_result (_plot_full_epochs_decoding_scores contrasts scores metric kind_).
Proof. unfold _plot_full_epochs_decoding_scores. cbn zeta. opens_auto. Qed.

Lemma opens_time_by_time (times : list float) (cross_val_scores : ndarray)
  (metric : string) (tg : bool) (decim : Z) :
  opens_result (_plot_time_by_time_decoding_scores times cross_val_scores metric tg decim).
Proof.
  unfold _plot_time_by_time_decoding_scores, plt_subplots. opens_auto.
Qed.

Lemma opens_gavg (cfg : Cfg.t) (d : GA.decoding_data) :
  opens_result (_plot_time_by_time_decoding_scores_gavg cfg d).
Proof.
  unfold _plot_time_by_time_decoding_scores_gavg, plt_subplots. cbn zeta. opens_auto.
Qed.

Lemma opens_t_values (d : GA.decoding_data) :
  opens_result (plot_time_by_time_decoding_t_values d).
Proof.
  unfold plot_time_by_time_decoding_t_values, plt_subplots. cbn zeta. opens_auto.
Qed.

Lemma opens_time_generalization (d : SS.decoding_data + GA.decoding_data)
  (metric : string) (kind_ : kind) :
  opens_result (_plot_decoding_time_generalization d metric kind_).
Proof.
  unfold _plot_decoding_time_generalization, plt_subplots. cbn zeta. opens_auto.
Qed.

Lemma opens_results_ret (s s' : St) (figs : list nat) :
  (mret [] : M (list nat)) s = (inr figs, s') -> open_figs s' = list_to_set figs ∪ open_figs s.
Proof. intros [= <- <-]. set_solver. Qed.

Lemma opens_each_new {A} (xs : list A) (f : figure) :
  opens_results (for_collect xs (fun _ => new_figure f)).
Proof.
  induction xs as [|x xs IH]; intros s figs s' H; cbn [for_collect] in H.
  - injection H as <- <-. set_solver.
  - apply bind_inr in H as (fig & s1 & Hnew & H).
    apply bind_inr in H as (rest & s2 & Hrest & H). injection H as <- <-.
    rewrite (IH _ _ _ Hrest), (opens_new_figure _ _ _ _ Hnew). set_solver.
Qed.

Lemma opens_concat {A} (xs : list A) (body : A -> M (list nat)) :
  (forall x, opens_results (body x)) ->
  forall s figss s',
    for_collect xs body s = (inr figss, s') ->
    open_figs s' = list_to_set (concat figss) ∪ open_figs s.
Proof.
  intros Hbody. induction xs as [|x xs IH]; intros s figss s' H; cbn [for_collect] in H.
  - injection H as <- <-. set_solver.
  - apply bind_inr in H as (figs & s1 & Hx & H).
    apply bind_inr in H as (rest & s2 & Hrest & H). injection H as <- <-.
    rewrite (IH _ _ _ Hrest), (Hbody _ _ _ _ Hx). cbn [concat].
    rewrite list_to_set_app_L. set_solver.
Qed.

Section Figures.

Context {W : World}.

Lemma read_same_open (p : path) : preserves same_open (read p).
Proof. intros s r s'. unfold read. destruct (fs p); intros [= _ <-]; reflexivity. Qed.

Lemma opens_auto_scores (cfg : Cfg.t) (subject : string) (session : option string) :
  opens_results (plot_auto_scores_ cfg subject session).
Proof.
  intros s figs s' H. unfold plot_auto_scores_ in H. cbn zeta in H.
  apply bind_inr in H as (figss & s1 & Hloop & H).
  destruct (concat figss) as [|fig rest] eqn:Hconcat; [discriminate|].
  injection H as <- <-. rewrite <- Hconcat.
  revert Hloop. apply opens_concat. intros run s0 figs0 s2 Hrun.
  apply bind_inr in Hrun as (a & s3 & Hread & Hrun).
  rewrite <- (read_same_open _ _ _ _ Hread).
  destruct a; try discriminate. exact (opens_each_new _ _ _ _ _ Hrun).
Qed.

(** X7. When [plot_auto_scores_] returns, it returns at least one figure,
    and the figures it returns are exactly the ones it has newly registered
    with pyplot.  Without any run it raises [AssertionError]. *)
Theorem plot_auto_scores_returns_open_figures
  (cfg : Cfg.t) (subject : string) (session : option string) (s : St) :
  (forall figs s',
     plot_auto_scores_ cfg subject session s = (inr figs, s') ->
     figs <> [] /\ open_figs s' = list_to_set figs ∪ open_figs s) /\
  (Cfg.runs cfg = [] ->
   plot_auto_scores_ cfg subject session s = (inl AssertionError, s)).
Proof.
  split.
  - intros figs s' H. split.
    + unfold plot_auto_scores_ in H. cbn zeta in H.
      apply bind_inr in H as (figss & s1 & _ & H).
      destruct (concat figss); [discriminate|]. injection H as <- _. discriminate.
    + exact (opens_auto_scores _ _ _ _ _ _ H).
  - intros Hruns. unfold plot_auto_scores_. rewrite Hruns. reflexivity.
Qed.

End Figures.

(** Proves that a run that returns has closed the figures it made. *)
Ltac opens_lemma :=
  first
    [ apply opens_new_figure
    | apply opens_full_epochs
    | apply opens_time_by_time
    | apply opens_gavg
    | apply opens_t_values
    | apply opens_time_generalization ].

Ltac closes_auto :=
  repeat first
    [ apply plt_close_closes
    | apply plt_close_all_closes
    | apply plt_close_closing
    | apply close_each
    | match goal with
      | |- on_return _ (if ?b then _ else _) => destruct b
      | |- on_return _ (match ?x with _ => _ end) => destruct x
      | |- on_return _ (let '(_, _) := ?x in _) => destruct x
      end
    | match goal with
      | |- on_return closes_figures (_ ≫= _) =>
          first
            [ apply opens_then_closing; [solve [opens_lemma]|intros ?]
            | apply opens_results_then_closing; [solve [apply opens_auto_scores]|intros ?]
            | papply on_return_bind; [|intros ?] ]
      | |- on_return closes_figures _ =>
          first
            [ papply on_return_ret
            | papply on_return_raise
            | papply on_return_when
            | papply on_return_for_each; intros ?
            | papply on_return_for_collect; intros ?
            | solve [apply same_open_closes; same_open_auto] ]
      | |- on_return (closing _) _ =>
          first
            [ solve [apply closing_bind_l; [closes_auto|intros ?; closes_auto]]
            | apply closing_bind_r; [|intros ?] ]
      | |- on_return (closing_all _) _ =>
          apply closing_all_bind_r; [|intros ?]
      end ].

Section Closing.

Context {W : World}.

(** X8. When the preprocessing stage returns, it has closed every figure it
    made: no figure is registered with pyplot that was not before. *)
Theorem preprocessing_closes_its_figures
  (cfg : Cfg.t) (subject : string) (session : option string) (report : option nat)
  (s s' : St) (r : nat) :
  run_report_preprocessing cfg subject session report s = (inr r, s') ->
  open_figs s' ⊆ open_figs s.
Proof.
  revert s r s'.
  change (on_return closes_figures (run_report_preprocessing cfg subject session report)).
  unfold run_report_preprocessing. closes_auto.
Qed.

(** X9. Without time-frequency conditions, the sensor stage that returns has
    closed every figure it made. *)
Theorem sensor_stage_closes_its_decoding_figures
  (cfg : Cfg.t) (subject : string) (session : option string) (report : option nat)
  (s s' : St) (r : nat) :
  Cfg.time_frequency_conditions cfg = None \/
  Cfg.time_frequency_conditions cfg = Some [] ->
  run_report_sensor cfg subject session report s = (inr r, s') ->
  open_figs s' ⊆ open_figs s.
Proof.
  intros Htfr. revert s r s'.
  change (on_return closes_figures (run_report_sensor cfg subject session report)).
  unfold run_report_sensor. cbn zeta.
  destruct Htfr as [-> | ->]; cbn [for_each when]; closes_auto.
Qed.

(** X10. With more than one subject, [add_decoding_grand_average] that
    returns has closed every figure it made. *)
Theorem grand_average_decoding_closes_its_figures
  (session : option string) (cfg : Cfg.t) (report : nat) (s s' : St) :
  (1 < length (get_subjects (OfCfg cfg)))%nat ->
  add_decoding_grand_average session cfg report s = (inr tt, s') ->
  open_figs s' ⊆ open_figs s.
Proof.
  intros Hn. revert s s'.
  assert (H : on_return closes_figures (add_decoding_grand_average session cfg report)).
  { unfold add_decoding_grand_average. cbn zeta.
    apply Nat.ltb_lt in Hn. rewrite Hn. cbn [when]. closes_auto. }
  intros s s' Hrun. exact (H _ _ _ Hrun).
Qed.

End Closing.
(** ** The grand-average report *)

Section Average.

Context {W : World}.

(** What a grand-average run that returns has done to the reports, to the
    saved files and to the figures. *)
Lemma run_report_average_inr
  (cfg : Cfg.t) (subject : string) (session : option string) (s s' : St) :
  run_report_average cfg subject session s = (inr tt, s') ->
  exists rep config_path,
    environ "MNE_BIDS_STUDY_CONFIG" = Some config_path /\
    saved s' = saved s ++ [(fname_report cfg subject session, finalized config_path rep)] /\
    report_title rep = report_title_of cfg subject session /\
    reports s' !! length (reports s) = Some (finalized config_path rep) /\
    open_figs s' = ∅.
Proof.
  unfold run_report_average. cbn zeta. intros H.
  apply bind_inr in H as ([] & s0 & Hlog & H). injection Hlog as <-.
  apply bind_inr in H as (report & s1 & Hnew & H). injection Hnew as <- <-.
  assert (Hmid : forall (m : M unit) sa sb,
            preserves same_saved m -> preserves report_grows m ->
            m sa = (inr tt, sb) ->
            (exists rep, reports sa !! length (reports s) = Some rep /\
                         report_title rep = report_title_of cfg subject session) ->
            saved sa = saved s ->
            (exists rep, reports sb !! length (reports s) = Some rep /\
                         report_title rep = report_title_of cfg subject session) /\
            saved sb = saved s).
  { intros m sa sb Hsaved Hgrows Hm (rep & Hrep & Htitle) Hsa. split.
    - destruct (Hgrows _ _ _ Hm _ _ Hrep) as (rep' & Hrep' & Htitle' & _).
      exists rep'. split; [assumption|congruence].
    - rewrite (Hsaved _ _ _ Hm). exact Hsa. }
  set (s1 := set_reports _ _) in H.
  assert (Hstart : (exists rep, reports s1 !! length (reports s) = Some rep /\
                      report_title rep = report_title_of cfg subject session) /\
                   saved s1 = saved s).
  { split; [|reflexivity]. eexists. split.
    - subst s1. cbn [reports set_reports set_log].
      rewrite lookup_app_r by reflexivity. rewrite Nat.sub_diag. reflexivity.
    - reflexivity. }
  clearbody s1.
  apply bind_inr in H as (evokeds & s2 & Hevokeds & H).
  assert (s2 = s1) as ->.
  { unfold read_evokeds, read in Hevokeds. apply bind_inr in Hevokeds as (a & s3 & Ha & Hb).
    destruct (fs _) as [a'|]; [|discriminate]. injection Ha as <- <-.
    destruct a'; try discriminate. injection Hb as _ <-. reflexivity. }
  apply bind_inr in H as (conditions & s3 & Hconditions & H).
  assert (s3 = s1) as ->.
  { destruct (Cfg.conditions cfg); [|discriminate]. injection Hconditions as _ <-.
    reflexivity. }
  apply bind_inr in H as ([] & s4 & Hcounts & H).
  apply Hmid in Hcounts as Hs4;
    [|unfold add_event_counts; preserves_auto ltac:(reflexivity)
     |unfold add_event_counts; preserves_auto ltac:(solve_report_grows)
     |tauto|tauto].
  apply bind_inr in H as ([] & s5 & Hevoked & H).
  apply Hmid in Hevoked as Hs5;
    [|preserves_auto ltac:(reflexivity)|preserves_auto ltac:(solve_report_grows)
     |tauto|tauto].
  apply bind_inr in H as ([] & s6 & Hdecoding & H).
  apply Hmid in Hdecoding as Hs6;
    [|preserves_auto ltac:(reflexivity)|preserves_auto ltac:(solve_report_grows)
     |tauto|tauto].
  apply bind_inr in H as ([] & s7 & Hstc & H).
  apply Hmid in Hstc as Hs7;
    [|preserves_auto ltac:(reflexivity)|preserves_auto ltac:(solve_report_grows)
     |tauto|tauto].
  destruct Hs7 as [(rep & Hrep & Htitle) Hsaved].
  apply bind_inr in H as ([] & s8 & Hinfo & H).
  apply add_system_info_inr in Hinfo as (config_path & Henv & ->).
  apply bind_inr in H as ([] & s9 & Hsave & H).
  injection H as <-.
  unfold report_save in Hsave. cbn [reports set_reports] in Hsave.
  rewrite list_lookup_alter_eq, Hrep in Hsave. cbn in Hsave. injection Hsave as <-.
  exists rep, config_path. cbn.
  rewrite list_lookup_alter_eq, Hrep, Hsaved. auto.
Qed.

(** X11. A grand-average run that returns has saved exactly one report: the
    report object it created, titled after the subject, session and task,
    with the configuration file and the system information as its last two
    items, under the name of the report of that subject and session.  No
    figure is registered with pyplot afterwards. *)
Theorem grand_average_run_saves_finalized_report
  (cfg : Cfg.t) (subject : string) (session : option string) (s s' : St) :
  run_report_average cfg subject session s = (inr tt, s') ->
  exists rep config_path,
    environ "MNE_BIDS_STUDY_CONFIG" = Some config_path /\
    saved s' = saved s ++ [(fname_report cfg subject session, finalized config_path rep)] /\
    report_title rep = report_title_of cfg subject session /\
    reports s' !! length (reports s) = Some (finalized config_path rep) /\
    open_figs s' = ∅.
Proof. apply run_report_average_inr. Qed.

End Average.

(** ** The report objects a run touches *)

#[global] Instance touches_only_preorder (n : nat) : PreOrder (touches_only n).
Proof.
  split.
  - intros s. unfold touches_only. auto.
  - intros s1 s2 s3 (Hl1 & Ho1 & Ht1) (Hl2 & Ho2 & Ht2). unfold touches_only.
    split; [congruence|]. split; [|congruence].
    intros r Hr. rewrite Ho2, Ho1 by assumption. reflexivity.
Qed.

Lemma touches_only_same (n : nat) (s s' : St) :
  reports s' = reports s -> touches_only n s s'.
Proof. intros E. unfold touches_only. rewrite E. auto. Qed.

Lemma touches_only_alter (f : Report -> Report) (n : nat) (s : St) :
  (forall rep, report_title (f rep) = report_title rep) ->
  touches_only n s (set_reports (alter f n) s).
Proof.
  intros Hf. unfold touches_only. cbn. split; [apply length_alter|]. split.
  - intros r Hr. apply list_lookup_alter_ne. congruence.
  - rewrite list_lookup_alter_eq. destruct (reports s !! n); cbn; [|reflexivity].
    rewrite Hf. reflexivity.
Qed.

Ltac solve_touches_only :=
  first
    [ apply touches_only_same; reflexivity
    | apply touches_only_alter; intros ?; reflexivity ].

Lemma preserves_bind_ret {S A B} (R : S -> S -> Prop) (a : A) (k : A -> ES S B) :
  preserves R (k a) -> preserves R (mret a ≫= k).
Proof. intros H. exact H. Qed.

(** A stage handed the report object [report]: after the first log message
    the stage works on that object. *)
Ltac stage_of_report solve_R :=
  apply preserves_bind; try (typeclasses eauto);
  [preserves_auto solve_R|intros _];
  apply preserves_bind_ret; preserves_auto solve_R.

Section Frame.

Context {W : World}.

Lemma run_report_preprocessing_touches (cfg : Cfg.t) (subject : string)
  (session : option string) (report : nat) :
  preserves (touches_only report)
    (run_report_preprocessing cfg subject session (Some report)).
Proof.
  unfold run_report_preprocessing.
  stage_of_report ltac:(solve_touches_only).
Qed.

Lemma run_report_sensor_touches (cfg : Cfg.t) (subject : string)
  (session : option string) (report : nat) :
  preserves (touches_only report)
    (run_report_sensor cfg subject session (Some report)).
Proof.
  unfold run_report_sensor.
  stage_of_report ltac:(solve_touches_only).
Qed.

Lemma run_report_source_touches (cfg : Cfg.t) (subject : string)
  (session : option string) (report : nat) :
  preserves (touches_only report)
    (run_report_source cfg subject session (Some report)).
Proof.
  unfold run_report_source.
  stage_of_report ltac:(solve_touches_only).
Qed.

Lemma touches_only_created (s s' : St) (title : string) :
  touches_only (length (reports s))
    (set_reports (fun l => l ++ [{| report_title := title; report_items := [];
                                    report_css := [] |}]) s) s' ->
  exists rep, reports s' = reports s ++ [rep] /\ report_title rep = title.
Proof.
  intros (Hlen & Hothers & Htitle). cbn in *.
  rewrite lookup_app_r, Nat.sub_diag in Htitle by reflexivity. cbn in Htitle.
  destruct (reports s' !! length (reports s)) as [rep|] eqn:Hrep; [|discriminate].
  injection Htitle as Htitle. exists rep. split; [|exact Htitle].
  apply list_eq. intros i.
  destruct (decide (i = length (reports s))) as [->|Hne].
  - rewrite Hrep, lookup_app_r, Nat.sub_diag by reflexivity. reflexivity.
  - rewrite Hothers by assumption.
    destruct (decide (i < length (reports s))%nat) as [Hlt|Hge].
    + rewrite !lookup_app_l by assumption. reflexivity.
    + rewrite !lookup_ge_None_2; [reflexivity|rewrite length_app; cbn; lia..].
Qed.

Lemma preserves_bind_yields {S A B} (R : S -> S -> Prop) `{!PreOrder R}
  (m : ES S A) (k : A -> ES S B) (v : A) :
  preserves R m -> yields m v -> preserves R (k v) -> preserves R (m ≫= k).
Proof.
  intros Hm Hv Hk s r s'. rewrite bind_run.
  destruct (m s) as [[e|a] s1] eqn:E.
  - intros [= _ <-]. exact (Hm _ _ _ E).
  - intros H. rewrite (Hv _ _ _ E) in H.
    transitivity s1; [exact (Hm _ _ _ E)|exact (Hk _ _ _ H)].
Qed.

Lemma run_report_average_touches (cfg : Cfg.t) (subject : string)
  (session : option string) (s s' : St) (r : result unit) :
  run_report_average cfg subject session s = (r, s') ->
  touches_only (length (reports s))
    (set_reports (fun l => l ++ [{| report_title := report_title_of cfg subject session;
                                    report_items := []; report_css := [] |}]) s) s'.
Proof.
  unfold run_report_average. cbn zeta. rewrite bind_run. cbn [logger_info modify].
  rewrite bind_run. unfold new_report at 1. cbn [reports set_log].
  match goal with
  | |- ?m ?s0 = _ -> _ =>
      assert (P : preserves (touches_only (length (reports s))) m)
  end.
  { preserves_auto ltac:(solve_touches_only). }
  intros H. apply P in H. destruct H as (Hlen & Hothers & Htitle).
  split; [exact Hlen|]. split; [exact Hothers|exact Htitle].
Qed.

(** X12. A subject-level run and a grand-average run each create exactly
    one report object, titled after the subject, session and task, and
    change no report object that existed before, whether they return or
    raise. *)
Theorem runs_touch_their_own_report_only
  (cfg : Cfg.t) (subject : string) (session : option string) (s : St) :
  (forall r s', run_report cfg subject session s = (r, s') ->
     exists rep, reports s' = reports s ++ [rep] /\
                 report_title rep = report_title_of cfg subject session) /\
  (forall r s', run_report_average cfg subject session s = (r, s') ->
     exists rep, reports s' = reports s ++ [rep] /\
                 report_title rep = report_title_of cfg subject session).
Proof.
  split; intros r s' H; apply touches_only_created.
  - unfold run_report, _gen_empty_report in H. rewrite bind_run in H.
    unfold new_report at 1 in H. cbn zeta in H.
    match type of H with
    | ?m ?s0 = _ =>
        assert (P : preserves (touches_only (length (reports s))) m)
    end.
    { apply (preserves_bind_yields _ _ _ (length (reports s)));
        [apply run_report_preprocessing_touches
        |apply run_report_preprocessing_yields|].
      apply (preserves_bind_yields _ _ _ (length (reports s)));
        [apply run_report_sensor_touches|apply run_report_sensor_yields|].
      apply (preserves_bind_yields _ _ _ (length (reports s)));
        [apply run_report_source_touches|apply run_report_source_yields|].
      preserves_auto ltac:(solve_touches_only). }
    exact (P _ _ _ H).
  - exact (run_report_average_touches _ _ _ _ _ _ H).
Qed.

End Frame.
(** ** The items a stage adds *)

#[global] Instance adds_only_preorder (P : item -> Prop) : PreOrder (adds_only P).
Proof.
  split.
  - intros s. split.
    + intros r rep H. exists rep, []. rewrite app_nil_r. auto.
    + intros r rep' H1 H2. congruence.
  - intros s1 s2 s3 [Hold12 Hnew12] [Hold23 Hnew23]. split.
    + intros r rep H.
      destruct (Hold12 _ _ H) as (rep2 & new2 & H2 & Hitems2 & HP2).
      destruct (Hold23 _ _ H2) as (rep3 & new3 & H3 & Hitems3 & HP3).
      exists rep3, (new2 ++ new3). split; [assumption|]. split.
      * rewrite Hitems3, Hitems2, app_assoc. reflexivity.
      * apply Forall_app. auto.
    + intros r rep3 H1 H3.
      destruct (reports s2 !! r) as [rep2|] eqn:H2.
      * destruct (Hold23 _ _ H2) as (rep3' & new3 & H3' & Hitems3 & HP3).
        rewrite H3 in H3'. injection H3' as <-. rewrite Hitems3.
        apply Forall_app. split; [exact (Hnew12 _ _ H1 H2)|exact HP3].
      * exact (Hnew23 _ _ H2 H3).
Qed.

Lemma adds_only_same (P : item -> Prop) (s s' : St) :
  reports s' = reports s -> adds_only P s s'.
Proof. intros E. unfold adds_only. rewrite E. apply adds_only_preorder. Qed.

Lemma adds_only_new (P : item -> Prop) (title : string) (s : St) :
  adds_only P s
    (set_reports (fun l => l ++ [{| report_title := title; report_items := [];
                                    report_css := [] |}]) s).
Proof.
  split.
  - intros r rep H. exists rep, []. cbn. rewrite app_nil_r.
    rewrite lookup_app_l_Some with (x := rep); auto.
  - intros r rep' Hnone H. cbn in H.
    apply lookup_app_Some in H as [H|[_ H]]; [congruence|].
    apply list_lookup_singleton_Some in H as [_ <-]. constructor.
Qed.

Lemma adds_only_item (P : item -> Prop) (it : item) (report : nat) (s : St) :
  P it -> adds_only P s (set_reports (alter (add_item it) report) s).
Proof.
  intros HP. split.
  - intros r rep H. cbn. destruct (decide (report = r)) as [->|Hne].
    + exists (add_item it rep), [it]. rewrite list_lookup_alter_eq, H. cbn. auto.
    + exists rep, []. rewrite list_lookup_alter_ne, app_nil_r by assumption. auto.
  - intros r rep' Hnone H. cbn in H.
    destruct (decide (report = r)) as [->|Hne].
    + rewrite list_lookup_alter_eq, Hnone in H. discriminate H.
    + rewrite list_lookup_alter_ne in H by assumption. congruence.
Qed.

Lemma adds_only_css (P : item -> Prop) (css : string) (report : nat) (s : St) :
  adds_only P s (set_reports (alter (add_css css) report) s).
Proof.
  split.
  - intros r rep H. cbn. destruct (decide (report = r)) as [->|Hne].
    + exists (add_css css rep), []. rewrite list_lookup_alter_eq, H, app_nil_r. cbn. auto.
    + exists rep, []. rewrite list_lookup_alter_ne, app_nil_r by assumption. auto.
  - intros r rep' Hnone H. cbn in H.
    destruct (decide (report = r)) as [->|Hne].
    + rewrite list_lookup_alter_eq, Hnone in H. discriminate H.
    + rewrite list_lookup_alter_ne in H by assumption. congruence.
Qed.

(** Closes a state update for [adds_only P], where [solve_P] proves [P] of
    the item added. *)
Ltac solve_adds_only solve_P :=
  first
    [ apply adds_only_same; reflexivity
    | apply adds_only_new
    | apply adds_only_css
    | apply adds_only_item; solve_P ].

(** Splits off the steps of a run that [tac] proves to preserve the
    relation, up to the first step that it does not. *)
Ltac preserves_steps tac :=
  repeat (apply preserves_bind; try (typeclasses eauto); [solve [tac]|intros ?]).

Section Items.

Context {W : World}.

(** X13. Whatever the source stage adds to a report as a source estimate
    belongs to a condition of [cfg.conditions] whose left-hemisphere file
    exists, and is titled after that condition: a contrast never gets a
    source estimate.  This holds of every outcome of the stage. *)
Theorem source_estimates_are_of_conditions
  (cfg : Cfg.t) (subject : string) (session : option string) (report : option nat)
  (s s' : St) (r : result nat) :
  run_report_source cfg subject session report s = (r, s') ->
  adds_only (source_estimate_of_condition cfg subject session) s s'.
Proof.
  revert s r s'.
  change (preserves (adds_only (source_estimate_of_condition cfg subject session))
            (run_report_source cfg subject session report)).
  unfold run_report_source. cbn zeta.
  preserves_steps ltac:(preserves_auto ltac:(solve_adds_only ltac:(intros ? [=]))).
  destruct (negb _);
    [preserves_auto ltac:(solve_adds_only ltac:(intros ? [=]))|].
  preserves_steps ltac:(preserves_auto ltac:(solve_adds_only ltac:(intros ? [=]))).
  apply preserves_bind; [typeclasses eauto| |intros _].
  2:{ preserves_auto ltac:(solve_adds_only ltac:(intros ? [=])). }
  apply preserves_for_each; [typeclasses eauto|]. intros condition.
  apply preserves_bind; [typeclasses eauto| |intros _].
  { preserves_auto ltac:(solve_adds_only ltac:(intros ? [=])). }
  apply preserves_bind_strong; [typeclasses eauto| |].
  { preserves_auto ltac:(solve_adds_only ltac:(intros ? [=])). }
  intros is_condition s0 s1 Hin.
  apply in_conditions_inr in Hin as (conditions & Hconditions & ->).
  destruct (bool_decide (condition ∈ conditions)) eqn:Hmem; cbn [negb].
  2:{ apply preserves_ret. typeclasses eauto. }
  apply bool_decide_eq_true in Hmem.
  unfold exists_. fold (fname_stc cfg subject session condition).
  destruct (fs (StcLh (fname_stc cfg subject session condition))) as [stc_file|] eqn:Hfs;
    cbn [when]; [|apply preserves_ret; typeclasses eauto].
  apply preserves_modify. intros s2. apply adds_only_item.
  intros stc [= <-]. exists conditions, condition. cbn.
  repeat split; auto. congruence.
Qed.

(** X14. For a resting-state task the preprocessing stage adds no events
    item to any report, whatever its outcome. *)
Theorem resting_state_preprocessing_adds_no_events
  (cfg : Cfg.t) (subject : string) (session : option string) (report : option nat)
  (s s' : St) (r : result nat) :
  Cfg.task_is_rest cfg = true ->
  run_report_preprocessing cfg subject session report s = (r, s') ->
  adds_only (fun it => item_content it <> AddEvents) s s'.
Proof.
  intros Hrest. revert s r s'.
  change (preserves (adds_only (fun it => item_content it <> AddEvents))
            (run_report_preprocessing cfg subject session report)).
  unfold run_report_preprocessing. rewrite Hrest. cbn [negb when].
  preserves_auto ltac:(solve_adds_only ltac:(cbn; discriminate)).
Qed.

Lemma elem_of_zip_seq {A} (xs : list A) (n : nat) (x : A) (i : nat) :
  (x, i) ∈ zip xs (seq 0 n) -> xs !! i = Some x.
Proof.
  intros H. apply list_elem_of_lookup in H as (j & Hj).
  apply lookup_zip_with_Some in Hj as (x' & i' & [= <- <-] & Hx & Hi).
  apply lookup_seq in Hi as [-> _]. exact Hx.
Qed.

(** X15. The sensor stage pairs the evoked responses with the names of the
    conditions and contrasts by position: whatever it adds to a report for
    evoked response number [i] of the evoked file is titled after entry [i]
    of the conditions followed by the contrasts, as a condition if that
    name is in [cfg.conditions] and as a contrast otherwise. *)
Theorem sensor_stage_titles_evokeds_by_position
  (cfg : Cfg.t) (subject : string) (session : option string) (report : option nat)
  (s s' : St) (r : result nat) :
  run_report_sensor cfg subject session report s = (r, s') ->
  adds_only (evoked_titled_by_position cfg) s s'.
Proof.
  revert s r s'.
  change (preserves (adds_only (evoked_titled_by_position cfg))
            (run_report_sensor cfg subject session report)).
  unfold run_report_sensor. cbn zeta.
  do 2 (apply preserves_bind; try (typeclasses eauto);
        [solve [preserves_auto ltac:(solve_adds_only ltac:(intros ? [=]))]|intros ?]).
  apply preserves_bind_strong; [typeclasses eauto| |].
  { preserves_auto ltac:(solve_adds_only ltac:(intros ? [=])). }
  intros evokeds s0 s1 Hevokeds.
  assert (Hseq : exists n, evokeds = seq 0 n).
  { destruct (conditions_and_contrasts cfg).
    - injection Hevokeds as <- _. exists 0%nat. reflexivity.
    - unfold read_evokeds in Hevokeds.
      apply bind_inr in Hevokeds as (file & s2 & _ & Hfile).
      destruct file; try discriminate. injection Hfile as <- _. eauto. }
  destruct Hseq as (n & ->).
  preserves_steps ltac:(preserves_auto ltac:(solve_adds_only ltac:(intros ? [=]))).
  apply preserves_bind; [typeclasses eauto| |intros _].
  2:{ preserves_auto ltac:(solve_adds_only ltac:(intros ? [=])). }
  apply preserves_for_each_in; [typeclasses eauto|]. intros [condition evoked] Hin.
  apply elem_of_zip_seq in Hin.
  apply preserves_bind_strong; [typeclasses eauto| |].
  { preserves_auto ltac:(solve_adds_only ltac:(intros ? [=])). }
  intros is_condition s2 s3 Hcond.
  apply in_conditions_inr in Hcond as (conditions & Hconditions & ->).
  apply preserves_modify. intros s4. apply adds_only_item.
  intros i [= <-]. exists conditions, condition. cbn.
  split; [assumption|]. split; [assumption|]. reflexivity.
Qed.

End Items.
(** ** Runs that fail *)

Section Failures.

Context {W : World}.

Lemma run_report_saves_only_on_return (cfg : Cfg.t) (subject : string)
  (session : option string) :
  saves_only_on_return (run_report cfg subject session).
Proof.
  unfold run_report; cbn zeta.
  apply saves_only_on_return_bind;
    [solve [preserves_auto ltac:(reflexivity)]|intros ?].
  apply saves_only_on_return_bind; [apply run_report_preprocessing_saved|intros ?].
  apply saves_only_on_return_bind; [apply run_report_sensor_saved|intros ?].
  apply saves_only_on_return_bind; [apply run_report_source_saved|intros ?].
  apply saves_only_on_return_bind;
    [solve [preserves_auto ltac:(reflexivity)]|intros ?].
  intros s e s'. unfold report_save.
  destruct (reports s !! _); [discriminate|]. intros [= _ <-]. reflexivity.
Qed.

(** X16. A report is saved by a run that returns, and by no other: when a
    subject-level run or a grand-average run raises, at whatever step, the
    saved files are those from before the run. *)
Theorem failed_runs_save_nothing
  (cfg : Cfg.t) (subject : string) (session : option string) (s s' : St) (e : exn) :
  (run_report cfg subject session s = (inl e, s') -> saved s' = saved s) /\
  (run_report_average cfg subject session s = (inl e, s') -> saved s' = saved s).
Proof.
  split.
  - apply run_report_saves_only_on_return.
  - apply run_report_average_saves_only_on_return.
Qed.

Lemma add_system_info_raises (report : nat) :
  environ "MNE_BIDS_STUDY_CONFIG" = None -> always_raises (add_system_info report).
Proof. intros Henv s. unfold add_system_info. rewrite Henv. exact I. Qed.

(** X17. Without the environment variable [MNE_BIDS_STUDY_CONFIG], neither
    a subject-level run nor a grand-average run can return: each ends in an
    exception, at the latest the [KeyError] of [add_system_info], and saves
    nothing. *)
Theorem runs_need_the_study_config_variable
  (cfg : Cfg.t) (subject : string) (session : option string) (s : St) :
  environ "MNE_BIDS_STUDY_CONFIG" = None ->
  (exists e s', run_report cfg subject session s = (inl e, s') /\ saved s' = saved s) /\
  (exists e s', run_report_average cfg subject session s = (inl e, s') /\
                saved s' = saved s).
Proof.
  intros Henv. split.
  - assert (Hraise : always_raises (run_report cfg subject session)).
    { unfold run_report. cbn zeta.
      do 4 (apply always_raises_bind_r; intros ?).
      apply always_raises_bind_l, add_system_info_raises, Henv. }
    specialize (Hraise s).
    destruct (run_report cfg subject session s) as [[e|[]] s'] eqn:E; [|destruct Hraise].
    exists e, s'. split; [reflexivity|].
    exact (run_report_saves_only_on_return _ _ _ _ _ _ E).
  - assert (Hraise : always_raises (run_report_average cfg subject session)).
    { unfold run_report_average. cbn zeta.
      do 8 (apply always_raises_bind_r; intros ?).
      apply always_raises_bind_l, add_system_info_raises, Henv. }
    specialize (Hraise s).
    destruct (run_report_average cfg subject session s) as [[e|[]] s'] eqn:E;
      [|destruct Hraise].
    exists e, s'. split; [reflexivity|].
    exact (run_report_average_saves_only_on_return _ _ _ _ _ _ E).
Qed.

(** X18. With [cfg.conditions] unset, the sensor stage cannot title an
    evoked response: if there is at least one contrast and the evoked file
    holds at least one evoked response, the stage raises [TypeError] at the
    membership test of the first of them, having added nothing to the
    report. *)
Theorem sensor_stage_needs_conditions_for_contrasts
  (cfg : Cfg.t) (subject : string) (session : option string) (report : nat)
  (s : St) (contrast : string) (contrasts : list string) (n : nat) :
  Cfg.conditions cfg = None ->
  Cfg.all_contrasts cfg = contrast :: contrasts ->
  fs (File (BIDS.update_suffix (Some "ave")
              (mk_path cfg (Some subject) session (Cfg.task cfg) None None
                 (Some ".fif")))) = Some (EvokedsFif (S n)) ->
  exists s',
    run_report_sensor cfg subject session (Some report) s = (inl TypeError, s') /\
    reports s' = reports s /\ figures s' = figures s /\ saved s' = saved s.
Proof.
  intros Hconditions Hcontrasts Hfile.
  unfold run_report_sensor, conditions_and_contrasts. cbn zeta.
  rewrite Hconditions, Hcontrasts. cbn [app].
  unfold read_evokeds, read. rewrite Hfile.
  unfold in_conditions. rewrite Hconditions.
  rewrite !bind_run. cbn [logger_info modify]. rewrite !bind_run, !ret_run.
  cbn [seq zip zip_with for_each].
  destruct (exists_ _); cbn [logger_info modify]; rewrite !bind_run;
    cbn [raise]; eexists; (split; [reflexivity|]); auto.
Qed.

(** X19. With [cfg.conditions] unset, a grand-average run always raises and
    saves nothing; when the evoked file is there, the exception is the
    [AttributeError] of copying the missing condition list, raised before
    anything is added to the report. *)
Theorem grand_average_run_needs_conditions
  (cfg : Cfg.t) (subject : string) (session : option string) (s : St) :
  Cfg.conditions cfg = None ->
  exists e s',
    run_report_average cfg subject session s = (inl e, s') /\
    saved s' = saved s /\
    (forall n,
       fs (File (mk_path cfg (Some subject) session (Cfg.task cfg) None (Some "ave")
                   (Some ".fif"))) = Some (EvokedsFif n) ->
       e = AttributeError /\
       reports s' !! length (reports s)
       = Some {| report_title := report_title_of cfg subject session;
                 report_items := []; report_css := [] |}).
Proof.
  intros Hconditions.
  assert (Hraise : always_raises (run_report_average cfg subject session)).
  { unfold run_report_average. cbn zeta.
    do 3 (apply always_raises_bind_r; intros ?).
    apply always_raises_bind_l. rewrite Hconditions. intros s0. exact I. }
  specialize (Hraise s).
  destruct (run_report_average cfg subject session s) as [[e|[]] s'] eqn:E;
    [|destruct Hraise].
  exists e, s'. split; [reflexivity|]. split.
  { exact (run_report_average_saves_only_on_return _ _ _ _ _ _ E). }
  intros n Hfile. unfold run_report_average in E. cbn zeta in E.
  rewrite Hconditions in E. unfold read_evokeds, read in E. rewrite Hfile in E.
  rewrite !bind_run in E. cbn [logger_info modify new_report] in E.
  rewrite ?bind_run, ?ret_run in E. cbn [raise] in E.
  injection E as <- <-. split; [reflexivity|].
  cbn [reports set_reports set_log].
  rewrite lookup_app_r by reflexivity. rewrite Nat.sub_diag. reflexivity.
Qed.

End Failures.
(** ** Failure of the single-subject plot *)

(** X20. The plot of the scores of one subject makes its figure before it
    looks at the time axis: with scores of at least one cross-validation
    fold but without any time point it raises the [ValueError] of the
    minimum of the empty time axis, and the figure stays registered with
    pyplot. *)
Theorem subject_plot_without_times_leaves_figure_open
  (fold : list float) (folds : list (list float)) (metric : string) (decim : Z) (s : St) :
  exists msg f,
    _plot_time_by_time_decoding_scores [] (Np.Nd2 (fold :: folds)) metric false decim s
    = (inl (ValueError msg), with_new_figure f s).
Proof.
  unfold _plot_time_by_time_decoding_scores, plt_subplots.
  cbn [Np.mean0 Np.max0 Np.min0 Np.extremum0]. eexists _, _.
  rewrite !lift_bind. cbn beta iota.
  rewrite bind_run, ret_run. cbn beta iota.
  rewrite bind_run, new_figure_run, bind_run, with_axes_new.
  draw. rewrite bind_run. unfold spans_zero. rewrite lift_bind.
  cbn [Np.vmin fst snd]. reflexivity.
Qed.

(** ** Figures left open by a subject-level run *)

#[global] Instance figures_grow_preorder : PreOrder figures_grow.
Proof.
  split; [intros s; unfold figures_grow; lia|].
  intros s1 s2 s3 H1 H2. unfold figures_grow in *. lia.
Qed.

Ltac solve_figures_grow :=
  unfold figures_grow; cbn;
  rewrite ?length_app, ?length_insert; cbn; lia.

Lemma for_each_snoc {S A} (xs : list A) (x : A) (body : A -> ES S unit) (s s' : S) :
  for_each (xs ++ [x]) body s = (inr tt, s') ->
  exists s1, for_each xs body s = (inr tt, s1) /\ body x s1 = (inr tt, s').
Proof.
  revert s. induction xs as [|y xs IH]; intros s H; cbn [app for_each] in *.
  - apply bind_inr in H as ([] & s1 & Hx & H). injection H as <-.
    exists s. split; [reflexivity|exact Hx].
  - apply bind_inr in H as ([] & s1 & Hy & H).
    apply IH in H as (s2 & Hxs & Hx). exists s2. split; [|exact Hx].
    rewrite bind_run, Hy. exact Hxs.
Qed.

Section Leaks.

Context {W : World}.

Lemma run_report_source_closes_all (cfg : Cfg.t) (subject : string)
  (session : option string) (report : option nat) (s s' : St) (r : nat) :
  fs (File (fname_trans cfg subject session)) <> None ->
  run_report_source cfg subject session report s = (inr r, s') ->
  open_figs s' = ∅.
Proof.
  intros Htrans H. unfold run_report_source in H. cbn zeta in H.
  apply bind_inr in H as ([] & s1 & _ & H).
  apply bind_inr in H as (report' & s2 & _ & H).
  fold (fname_trans cfg subject session) in H. unfold exists_ in H.
  destruct (fs (File (fname_trans cfg subject session))); [|contradiction].
  cbn [negb] in H.
  do 11 (apply bind_inr in H as (? & ? & _ & H)).
  apply bind_inr in H as ([] & s3 & Hclose & H).
  injection H as _ <-. injection Hclose as <-. reflexivity.
Qed.

(** X21. When the coregistration of the subject exists, a subject-level run
    that returns leaves no figure registered with pyplot: the source stage
    closes all figures, those the sensor stage left open included. *)
Theorem coregistered_run_leaves_no_figure_open
  (cfg : Cfg.t) (subject : string) (session : option string) (s s' : St) :
  fs (File (fname_trans cfg subject session)) <> None ->
  run_report cfg subject session s = (inr tt, s') ->
  open_figs s' = ∅.
Proof.
  intros Htrans H. unfold run_report in H.
  apply bind_inr in H as (report & s0 & _ & H). cbn zeta in H.
  apply bind_inr in H as (r1 & s1 & _ & H).
  apply bind_inr in H as (r2 & s2 & _ & H).
  apply bind_inr in H as (r3 & s3 & Hsource & H).
  apply bind_inr in H as ([] & s4 & Hinfo & H).
  apply run_report_source_closes_all in Hsource; [|exact Htrans].
  apply add_system_info_inr in Hinfo as (config_path & _ & ->).
  unfold report_save in H. destruct (reports _ !! r3); [|discriminate].
  injection H as <-. exact Hsource.
Qed.

Lemma tfr_iteration (report : nat) (condition : string) (pow itc : BIDSPath)
  (s s' : St) :
  (read_tfrs pow;;
   fig_power ← new_figure [External "power.plot_topo"];
   report_add_figure report [fig_power] ("TFR Power: " +:+ condition) None;;
   plt_close fig_power;;
   read_tfrs itc;;
   fig_itc ← new_figure [External "itc.plot_topo"];
   report_add_figure report [fig_itc] ("TFR ITC: " +:+ condition) None;;
   plt_close fig_power) s = (inr tt, s') ->
  S (length (figures s)) ∈ open_figs s' /\
  figures s' !! S (length (figures s)) = Some [External "itc.plot_topo"].
Proof.
  intros H.
  apply bind_inr in H as ([] & s1 & Hpow & H).
  assert (s1 = s) as ->.
  { unfold read_tfrs, read in Hpow. apply bind_inr in Hpow as (a & s2 & Ha & Hb).
    destruct (fs _) as [a'|]; [|discriminate]. injection Ha as <- <-.
    destruct a'; try discriminate. injection Hb as <-. reflexivity. }
  apply bind_inr in H as (fig_power & s1 & Hnew & H). injection Hnew as <- <-.
  apply bind_inr in H as ([] & s2 & Hadd & H). injection Hadd as <-.
  apply bind_inr in H as ([] & s3 & Hclose & H). injection Hclose as <-.
  apply bind_inr in H as ([] & s4 & Hitc & H).
  assert (Hs4 : s4 = _) by
    (unfold read_tfrs, read in Hitc; apply bind_inr in Hitc as (a & s5 & Ha & Hb);
     destruct (fs _) as [a'|]; [|discriminate]; injection Ha as <- <-;
     destruct a'; try discriminate; injection Hb as <-; reflexivity).
  subst s4.
  apply bind_inr in H as (fig_itc & s5 & Hnew & H). injection Hnew as <- <-.
  apply bind_inr in H as ([] & s6 & Hadd & H). injection Hadd as <-.
  injection H as <-. cbn. split.
  - rewrite length_app. cbn. set_solver by lia.
  - rewrite lookup_app_r by (rewrite length_app; cbn; lia).
    rewrite length_app. cbn.
    replace (S (length (figures s)) - (length (figures s) + 1))%nat with 0%nat by lia.
    reflexivity.
Qed.

Lemma bind_inr_rel {S A B} (R : S -> S -> Prop) (m : ES S A) (k : A -> ES S B)
  (s s' : S) (b : B) :
  preserves R m -> (m ≫= k) s = (inr b, s') ->
  exists a s1, R s s1 /\ k a s1 = (inr b, s').
Proof.
  intros Hm H. apply bind_inr in H as (a & s1 & Hma & Hk).
  exists a, s1. split; [exact (Hm _ _ _ Hma)|exact Hk].
Qed.

(** X22. Whenever there is a time-frequency condition, the sensor stage
    that returns leaves a figure open that was not open before, namely the
    figure of the inter-trial coherence of the last condition: the second
    [plt.close] of the loop closes the power figure again. *)
Theorem sensor_stage_leaves_itc_figure_open
  (cfg : Cfg.t) (subject : string) (session : option string) (report : option nat)
  (s s' : St) (r : nat) (conditions : list string) :
  Cfg.time_frequency_conditions cfg = Some conditions ->
  conditions <> [] ->
  open_figures_exist s ->
  run_report_sensor cfg subject session report s = (inr r, s') ->
  exists fig,
    fig ∈ open_figs s' /\ fig ∉ open_figs s /\
    figures s' !! fig = Some [External "itc.plot_topo"].
Proof.
  intros Htfr Hne Hexist H.
  destruct conditions as [|condition conditions _] using rev_ind; [contradiction|].
  clear Hne. unfold run_report_sensor in H. cbn zeta in H. rewrite Htfr in H.
  assert (Hgrow : figures_grow s s) by reflexivity.
  do 9 (apply (bind_inr_rel figures_grow) in H;
        [|solve [preserves_auto ltac:(solve_figures_grow)]];
        let a := fresh "a" in
        let s1 := fresh "s" in
        let Hstep := fresh "Hstep" in
        destruct H as (a & s1 & Hstep & H);
        apply (transitivity Hgrow) in Hstep; clear Hgrow; rename Hstep into Hgrow).
  apply bind_inr in H as ([] & s_end & Hloop & H). injection H as _ <-.
  apply for_each_snoc in Hloop as (s_last & Hinit & Hlast).
  match type of Hinit with
  | ?m ?s0 = _ =>
      assert (Hgrow' : preserves figures_grow m)
        by preserves_auto ltac:(solve_figures_grow);
      apply Hgrow' in Hinit; apply (transitivity Hgrow) in Hinit
  end.
  apply tfr_iteration in Hlast as [Hopen Hfig].
  exists (S (length (figures s_last))). split; [exact Hopen|]. split; [|exact Hfig].
  intros Hin. apply Hexist in Hin. unfold figures_grow in *. lia.
Qed.

End Leaks.
(** ** The grand-average decoding section of several subjects *)

Lemma report_add_figure_run (report fig : nat) (f : figure) (title : string)
  (section : option string) (s : St) :
  figures s !! fig = Some f ->
  report_add_figure report [fig] title section s
  = (inr tt, set_reports (alter (add_item (figure_item fig f title section)) report) s).
Proof.
  intros Hf. unfold report_add_figure, report_add.
  rewrite bind_run. cbn [gets]. cbn [omap list_omap]. rewrite Hf. reflexivity.
Qed.

Lemma opened_figure_lookup (m : M nat) (s s' : St) (fig : nat) :
  (forall s fig s', m s = (inr fig, s') -> fig = length (figures s) /\
                    length (figures s') = S (length (figures s))) ->
  m s = (inr fig, s') -> exists f, figures s' !! fig = Some f.
Proof.
  intros Hm H. destruct (Hm _ _ _ H) as [-> Hlen].
  apply lookup_lt_is_Some. lia.
Qed.

Section Courses.

Context {W : World}.

Lemma time_courses_stable (session : option string) (cfg : Cfg.t) (report : nat)
  (contrast : string * string) (s s' : St) :
  report_grows s s' ->
  time_courses_embedded session cfg report contrast s ->
  time_courses_embedded session cfg report contrast s'.
Proof.
  intros Hgrows (rep & d & fig & f & fig_t & f_t & s0 & s1 & s2 & s3 & Hrep & Hfs
                 & Hplot & Hf & Hplot_t & Hf_t & Hit & Hit_t).
  destruct (Hgrows _ _ Hrep) as (rep' & Hrep' & _ & Hprefix).
  exists rep', d, fig, f, fig_t, f_t, s0, s1, s2, s3.
  repeat (split; [assumption|]). destruct Hprefix as (new & ->).
  split; apply elem_of_app; left; assumption.
Qed.

Lemma loadmat_grand_average_state (fname : BIDSPath) (s s' : St)
  (d : GA.decoding_data) :
  loadmat_grand_average fname s = (inr d, s') -> s' = s.
Proof.
  unfold loadmat_grand_average, read. rewrite bind_run.
  destruct (fs (File fname)) as [[]|]; cbn; try discriminate.
  intros [= _ <-]. reflexivity.
Qed.

Lemma time_courses_of_contrast (session : option string) (cfg : Cfg.t) (report : nat)
  (contrast : string * string) (s s' : St) (rep : Report) :
  reports s !! report = Some rep ->
  (let '(cond_1, cond_2) := contrast in
   let section := "Time-by-time decoding: " +:+ cond_1 +:+ " ./. " +:+ cond_2 in
   decoding_data ← loadmat_grand_average
                     (fname_decoding cfg
                        (mk_path cfg (Some "average") session (Cfg.task cfg) None
                           (Some "ave") (Some ".fif"))
                        contrast "TimeByTime");
   fig ← _plot_time_by_time_decoding_scores_gavg cfg decoding_data;
   (report_add_figure report [fig] "Decoding performance over time" (Some section);;
    plt_close fig);;
   (fig ← plot_time_by_time_decoding_t_values decoding_data;
    report_add_figure report [fig] "t-values based on decoding scores over time"
      (Some section);;
    plt_close fig);;
   when (Cfg.decoding_time_generalization cfg) (
     fig ← _plot_decoding_time_generalization (inr decoding_data)
             (Cfg.decoding_metric cfg) grand_average;
     report_add_figure report [fig] "Time generalization" (Some section);;
     plt_close fig)) s = (inr tt, s') ->
  (exists rep', reports s' !! report = Some rep') /\
  time_courses_embedded session cfg report contrast s'.
Proof.
  intros Hrep H. destruct contrast as [cond_1 cond_2]. cbn zeta in H.
  apply bind_inr in H as (d & s1 & Hload & H).
  pose proof (loadmat_grand_average_state _ _ _ _ Hload) as ->.
  apply loadmat_grand_average_inr in Hload.
  apply bind_inr in H as (fig & s2 & Hplot & H).
  pose proof (gavg_figure _ _ _ _ _ Hplot) as Hfig.
  destruct Hfig as (? & ? & ? & ? & ? & ? & ? & ? & ? & _ & _ & _ & _ & _ & _ & _ & _
                    & _ & Hn & Hs2).
  pose proof (new_figure_lookup _ _ _ _ Hn Hs2) as Hf.
  match type of Hf with _ = Some ?F => set (f := F) in * end. clearbody f.
  apply bind_inr in H as ([] & s4 & Hadd & H).
  apply bind_inr in Hadd as ([] & s3 & Hadd & Hclose).
  rewrite (report_add_figure_run _ _ _ _ _ _ Hf) in Hadd. injection Hadd as <-.
  injection Hclose as <-.
  apply bind_inr in H as ([] & s7 & Ht & H).
  apply bind_inr in Ht as (fig_t & s5 & Hplot_t & Ht).
  match type of Hplot_t with
  | _ ?st = _ => destruct (t_values_axes d st) as (f_t & r_t & Hrun_t & _)
  end.
  pose proof Hplot_t as Hplot_t'.
  rewrite Hrun_t in Hplot_t'. destruct r_t as [|[]]; [discriminate|].
  injection Hplot_t' as <- <-.
  match type of Hplot_t with
  | _ ?s4 = (_, with_new_figure _ _) =>
      assert (Hf_t : figures (with_new_figure f_t s4) !! length (figures s4) = Some f_t)
        by (unfold with_new_figure; cbn [figures set_open_figs set_figures];
            rewrite lookup_app_r by reflexivity; rewrite Nat.sub_diag; reflexivity)
  end.
  apply bind_inr in Ht as ([] & s6 & Hadd_t & Hclose_t).
  rewrite (report_add_figure_run _ _ _ _ _ _ Hf_t) in Hadd_t. injection Hadd_t as <-.
  injection Hclose_t as <-.
  assert (Hgrows : preserves report_grows
            (when (Cfg.decoding_time_generalization cfg) (
               fig ← _plot_decoding_time_generalization (inr d)
                       (Cfg.decoding_metric cfg) grand_average;
               report_add_figure report [fig] "Time generalization"
                 (Some ("Time-by-time decoding: " +:+ cond_1 +:+ " ./. " +:+ cond_2));;
               plt_close fig)))
    by preserves_auto ltac:(solve_report_grows).
  apply Hgrows in H.
  match type of H with
  | report_grows ?s7 _ =>
      assert (Hrep7 : reports s7 !! report
                      = Some (add_item (figure_item (length (figures s2)) f_t
                                          "t-values based on decoding scores over time"
                                          (Some (decoding_section (cond_1, cond_2))))
                                (add_item (figure_item fig f
                                             "Decoding performance over time"
                                             (Some (decoding_section (cond_1, cond_2))))
                                   rep)))
  end.
  { cbn [reports set_reports set_open_figs set_figures with_new_figure].
    rewrite !list_lookup_alter_eq. subst s2. cbn [reports set_open_figs set_figures].
    rewrite Hrep. reflexivity. }
  split.
  { destruct (H _ _ Hrep7) as (rep' & Hrep' & _). eauto. }
  apply (time_courses_stable _ _ _ _ _ _ H).
  eexists _, d, fig, f, _, f_t, s, s2, _, _.
  split; [exact Hrep7|]. split; [exact Hload|]. split; [exact Hplot|].
  split; [exact Hf|]. split; [exact Hplot_t|]. split; [exact Hf_t|].
  cbn [report_items add_item]. split.
  - apply elem_of_app; left. apply elem_of_app; right. apply list_elem_of_here.
  - apply elem_of_app; right. apply list_elem_of_here.
Qed.

(** X23. With more than one subject, [add_decoding_grand_average] that
    returns has put, for every decoding contrast, the figure of the decoding
    performance over time and the figure of t-values into the report, in
    the section of the contrast; both figures are the ones the plotting
    functions make from the grand-average score file of the contrast. *)
Theorem grand_average_decoding_embeds_time_courses
  (session : option string) (cfg : Cfg.t) (report : nat) (s s' : St) (rep : Report)
  (contrast : string * string) :
  (1 < length (get_subjects (OfCfg cfg)))%nat ->
  reports s !! report = Some rep ->
  add_decoding_grand_average session cfg report s = (inr tt, s') ->
  contrast ∈ Cfg.decoding_contrasts cfg ->
  time_courses_embedded session cfg report contrast s'.
Proof.
  intros Hn Hrep H Hin. unfold add_decoding_grand_average in H. cbn zeta in H.
  apply Nat.ltb_lt in Hn. rewrite Hn in H. cbn [when] in H.
  apply bind_inr in H as (scores & s1 & Hscores & H).
  apply bind_inr in H as (fig & s2 & Hfig & H).
  apply bind_inr in H as ([] & s3 & Hadd & H).
  apply bind_inr in H as ([] & s4 & Hclose & H).
  assert (Hrep4 : exists rep, reports s4 !! report = Some rep).
  { run_preserves report_grows Hscores ltac:(preserves_auto ltac:(solve_report_grows)).
    run_preserves report_grows Hfig ltac:(preserves_auto ltac:(solve_report_grows)).
    run_preserves report_grows Hadd ltac:(preserves_auto ltac:(solve_report_grows)).
    run_preserves report_grows Hclose ltac:(preserves_auto ltac:(solve_report_grows)).
    destruct (Hscores _ _ Hrep) as (rep1 & Hrep1 & _).
    destruct (Hfig _ _ Hrep1) as (rep2 & Hrep2 & _).
    destruct (Hadd _ _ Hrep2) as (rep3 & Hrep3 & _).
    destruct (Hclose _ _ Hrep3) as (rep4 & Hrep4 & _). eauto. }
  revert contrast Hin.
  refine (for_each_establishes
            (fun st => exists rep, reports st !! report = Some rep)
            (fun contrast st => time_courses_embedded session cfg report contrast st)
            _ _ _ _ _ _ Hrep4 H).
  - intros contrast0 sa sb (rep0 & Hrep0) Hbody.
    exact (time_courses_of_contrast _ _ _ _ _ _ _ Hrep0 Hbody).
  - intros x y sa sb HQ Hbody. apply (time_courses_stable _ _ _ _ sa); [|exact HQ].
    run_preserves report_grows Hbody ltac:(preserves_auto ltac:(solve_report_grows)).
    exact Hbody.
Qed.

End Courses.
(** ** The evoked responses of the grand-average report *)

Section AverageEvokeds.

Context {W : World}.

(** X24. Whatever a grand-average run adds to a report for evoked response
    number [i] of the evoked file is titled as the average of entry [i] of
    the conditions followed by the contrasts, and that entry is a condition
    of [cfg.conditions]: the evoked response of a contrast is skipped. *)
Theorem grand_average_run_shows_conditions_only
  (cfg : Cfg.t) (subject : string) (session : option string) (s s' : St)
  (r : result unit) :
  run_report_average cfg subject session s = (r, s') ->
  adds_only (average_of_condition cfg) s s'.
Proof.
  revert s r s'.
  change (preserves (adds_only (average_of_condition cfg))
            (run_report_average cfg subject session)).
  unfold run_report_average. cbn zeta.
  do 2 (apply preserves_bind; try (typeclasses eauto);
        [solve [preserves_auto ltac:(solve_adds_only ltac:(intros ? [=]))]|intros ?]).
  apply preserves_bind_strong; [typeclasses eauto| |].
  { preserves_auto ltac:(solve_adds_only ltac:(intros ? [=])). }
  intros evokeds s0 s1 Hevokeds.
  assert (Hseq : exists n, evokeds = seq 0 n).
  { unfold read_evokeds in Hevokeds.
    apply bind_inr in Hevokeds as (file & s2 & _ & Hfile).
    destruct file; try discriminate. injection Hfile as <- _. eauto. }
  destruct Hseq as (n & ->).
  destruct (Cfg.conditions cfg) as [conditions|] eqn:Hconditions.
  2:{ preserves_auto ltac:(solve_adds_only ltac:(intros ? [=])). }
  apply preserves_bind_ret.
  apply preserves_bind; [typeclasses eauto| |intros _].
  { preserves_auto ltac:(solve_adds_only ltac:(intros ? [=])). }
  apply preserves_bind; [typeclasses eauto| |intros _].
  2:{ preserves_auto ltac:(solve_adds_only ltac:(intros ? [=])). }
  apply preserves_for_each_in; [typeclasses eauto|]. intros [condition evoked] Hin.
  apply elem_of_zip_seq in Hin.
  apply preserves_bind_strong; [typeclasses eauto| |].
  { preserves_auto ltac:(solve_adds_only ltac:(intros ? [=])). }
  intros is_condition s2 s3 Hcond.
  apply in_conditions_inr in Hcond as (conditions' & Hconditions' & ->).
  rewrite Hconditions in Hconditions'. injection Hconditions' as <-.
  destruct (bool_decide (condition ∈ conditions)) eqn:Hmem; cbn [negb].
  2:{ apply preserves_ret. typeclasses eauto. }
  apply bool_decide_eq_true in Hmem.
  apply preserves_modify. intros s4. apply adds_only_item.
  intros i [= <-]. exists conditions, condition. cbn. auto.
Qed.

End AverageEvokeds.
(** ** The figure a grand average of one subject leaves open *)

Lemma time_generalization_figure (d : SS.decoding_data + GA.decoding_data)
  (metric : string) (kind_ : kind) (s s' : St) (fig : nat) :
  _plot_decoding_time_generalization d metric kind_ s = (inr fig, s') ->
  fig = length (figures s) /\ exists f, s' = with_new_figure f s.
Proof.
  unfold _plot_decoding_time_generalization, plt_subplots. cbn zeta. intros H.
  apply bind_inr in H as (mean_scores & s1 & Hmean & H).
  assert (s1 = s) as ->.
  { destruct kind_, d; try discriminate.
    - apply lift_inr in Hmean as [_ ->]. reflexivity.
    - injection Hmean as _ <-. reflexivity. }
  apply bind_inr in H as (n & s2 & Hnew & H).
  rewrite new_figure_run in Hnew. injection Hnew as <- <-.
  apply bind_inr in H as ([] & s3 & Haxes & H). injection H as <- <-.
  rewrite with_axes_new in Haxes. injection Haxes as _ <-.
  split; [reflexivity|]. eexists. reflexivity.
Qed.

Section SingleSubject.

Context {W : World}.

Lemma single_subject_iteration (session : option string) (cfg : Cfg.t) (report : nat)
  (contrast : string * string) (s s' : St) :
  (let '(cond_1, cond_2) := contrast in
   let section := "Time-by-time decoding: " +:+ cond_1 +:+ " ./. " +:+ cond_2 in
   decoding_data ← loadmat_grand_average
                     (fname_decoding cfg
                        (mk_path cfg (Some "average") session (Cfg.task cfg) None
                           (Some "ave") (Some ".fif"))
                        contrast "TimeByTime");
   fig ← _plot_time_by_time_decoding_scores_gavg cfg decoding_data;
   mret tt;;
   mret tt;;
   when (Cfg.decoding_time_generalization cfg) (
     fig ← _plot_decoding_time_generalization (inr decoding_data)
             (Cfg.decoding_metric cfg) grand_average;
     report_add_figure report [fig] "Time generalization" (Some section);;
     plt_close fig)) s = (inr tt, s') ->
  exists d f,
    fs (grand_average_score_file cfg session contrast "TimeByTime")
    = Some (GrandAverageMat d) /\
    _plot_time_by_time_decoding_scores_gavg cfg d s
    = (inr (length (figures s)), with_new_figure f s) /\
    length (figures s) ∈ open_figs s' /\
    figures s' !! length (figures s) = Some f.
Proof.
  intros H. destruct contrast as [cond_1 cond_2]. cbn zeta in H.
  apply bind_inr in H as (d & s1 & Hload & H).
  pose proof (loadmat_grand_average_state _ _ _ _ Hload) as ->.
  apply loadmat_grand_average_inr in Hload.
  apply bind_inr in H as (fig & s2 & Hplot & H).
  pose proof (gavg_figure _ _ _ _ _ Hplot) as Hfig.
  destruct Hfig as (? & ? & ? & ? & ? & ? & ? & ? & ? & _ & _ & _ & _ & _ & _ & _ & _
                    & _ & Hn & Hs2).
  match type of Hs2 with
  | _ = set_open_figs _ (set_figures (fun l => l ++ [?F]) _) =>
      set (f := F) in Hs2; clearbody f
  end.
  subst fig s2.
  do 2 (let s3 := fresh "s" in
        let Hret := fresh "Hret" in
        apply bind_inr in H as ([] & s3 & Hret & H); injection Hret as <-).
  exists d, f. split; [exact Hload|]. split; [exact Hplot|].
  destruct (Cfg.decoding_time_generalization cfg); cbn [when] in H.
  - apply bind_inr in H as (fig' & s3 & Hgen & H).
    apply time_generalization_figure in Hgen as [-> (f' & ->)].
    apply bind_inr in H as ([] & s4 & Hadd & H).
    unfold report_add_figure, report_add in Hadd. rewrite bind_run in Hadd.
    cbn [gets modify] in Hadd. injection Hadd as <-. injection H as <-.
    cbn [figures open_figs set_open_figs set_figures set_reports with_new_figure].
    rewrite !length_app. cbn [length]. split.
    + set_solver by lia.
    + rewrite lookup_app_l by (rewrite length_app; cbn; lia).
      rewrite lookup_app_r by reflexivity. rewrite Nat.sub_diag. reflexivity.
  - injection H as <-.
    cbn [figures open_figs set_open_figs set_figures]. split; [set_solver|].
    rewrite lookup_app_r by reflexivity. rewrite Nat.sub_diag. reflexivity.
Qed.

(** X25. With at most one subject, [add_decoding_grand_average] that
    returns leaves a figure open that was not open before: the figure of
    the decoding performance over time of the last contrast, which is made
    from the score file of the contrast but neither put into the report nor
    closed. *)
Theorem single_subject_grand_average_leaves_figure_open
  (session : option string) (cfg : Cfg.t) (report : nat) (s s' : St) :
  (length (get_subjects (OfCfg cfg)) <= 1)%nat ->
  Cfg.decoding_contrasts cfg <> [] ->
  open_figures_exist s ->
  add_decoding_grand_average session cfg report s = (inr tt, s') ->
  exists contrast d fig f s0,
    contrast ∈ Cfg.decoding_contrasts cfg /\
    fs (grand_average_score_file cfg session contrast "TimeByTime")
    = Some (GrandAverageMat d) /\
    _plot_time_by_time_decoding_scores_gavg cfg d s0 = (inr fig, with_new_figure f s0) /\
    fig ∈ open_figs s' /\ fig ∉ open_figs s /\
    figures s' !! fig = Some f.
Proof.
  intros Hn Hne Hexist H.
  destruct (Cfg.decoding_contrasts cfg) as [|contrast contrasts _] eqn:Hcontrasts
    using rev_ind; [contradiction|].
  clear Hne. unfold add_decoding_grand_average in H. cbn zeta in H.
  rewrite Hcontrasts in H.
  assert (Hltb : (1 <? length (get_subjects (OfCfg cfg)))%nat = false)
    by (apply Nat.ltb_ge; exact Hn).
  rewrite Hltb in H. cbn [when] in H.
  assert (Hgrow : figures_grow s s) by reflexivity.
  do 4 (apply (bind_inr_rel figures_grow) in H;
        [|solve [preserves_auto ltac:(solve_figures_grow)]];
        let a := fresh "a" in
        let s1 := fresh "s" in
        let Hstep := fresh "Hstep" in
        destruct H as (a & s1 & Hstep & H);
        apply (transitivity Hgrow) in Hstep; clear Hgrow; rename Hstep into Hgrow).
  apply for_each_snoc in H as (s_last & Hinit & Hlast).
  match type of Hinit with
  | ?m ?s0 = _ =>
      assert (Hgrow' : preserves figures_grow m)
        by preserves_auto ltac:(solve_figures_grow);
      apply Hgrow' in Hinit; apply (transitivity Hgrow) in Hinit
  end.
  apply single_subject_iteration in Hlast as (d & f & Hfs & Hplot & Hopen & Hfig).
  exists contrast, d, (length (figures s_last)), f, s_last.
  split; [apply elem_of_app; right; apply list_elem_of_here|].
  repeat (split; [assumption|]). split; [|exact Hfig].
  intros Hin. apply Hexist in Hin. unfold figures_grow in *. lia.
Qed.

End SingleSubject.
(** ** The table of event counts *)

Section EventCounts.

Context {W : World}.

(** [add_event_counts] swallows a [ValueError] of [count_events], and no
    other exception. *)
Lemma add_event_counts_run (cfg : Cfg.t) (session : option string) (report : nat)
  (s : St) :
  match count_events (Cfg.bids_root cfg) session with
  | inl (ValueError _) =>
      add_event_counts cfg session report s
      = (inr tt, set_log (fun l => l ++ [{| log_level := WARNING;
                                            log_message := "Could not read events." |}]) s)
  | inl e => add_event_counts cfg session report s = (inl e, s)
  | inr df_events =>
      add_event_counts cfg session report s
      = (inr tt,
         set_reports
           (alter (fun rep =>
                     add_css event_counts_css
                       (add_item {| item_content := AddHtml df_events;
                                    item_title := "Event counts";
                                    item_section := None |} rep)) report) s)
  end.
Proof.
  unfold add_event_counts.
  destruct (count_events (Cfg.bids_root cfg) session) as [[]|df_events];
    try reflexivity.
  rewrite bind_run, ret_run. cbv [report_add report_add_custom_css modify mbind ES_bind].
  destruct s. unfold set_reports. cbn. do 2 f_equal.
  rewrite list_alter_alter_eq. reflexivity.
Qed.

Lemma add_event_counts_items (cfg : Cfg.t) (session : option string) (report : nat)
  (rep : Report) (s s' : St) :
  reports s !! report = Some rep ->
  add_event_counts cfg session report s = (inr tt, s') ->
  exists rep',
    reports s' !! report = Some rep' /\
    report_items rep' = report_items rep ++ event_counts_items cfg session.
Proof.
  intros Hrep H.
  pose proof (add_event_counts_run cfg session report s) as Hrun.
  unfold event_counts_items.
  destruct (count_events (Cfg.bids_root cfg) session) as [[]|df_events];
    rewrite Hrun in H; try discriminate; injection H as <-.
  - exists rep. cbn. rewrite app_nil_r. auto.
  - eexists. cbn. rewrite list_lookup_alter_eq, Hrep. cbn. split; reflexivity.
Qed.

(** X26. The report that a grand-average run saves opens with the table of
    event counts when the events could be counted, and holds no other HTML
    item.  When counting the events raised [ValueError], the run goes on
    and the saved report holds no HTML item at all. *)
Theorem grand_average_report_opens_with_event_counts
  (cfg : Cfg.t) (subject : string) (session : option string) (s s' : St) :
  run_report_average cfg subject session s = (inr tt, s') ->
  exists rep others,
    saved s' = saved s ++ [(fname_report cfg subject session, rep)] /\
    report_items rep = event_counts_items cfg session ++ others /\
    Forall not_html others.
Proof.
  intros H.
  destruct (run_report_average_inr _ _ _ _ _ H)
    as (rep0 & config_path & _ & Hsaved & _ & Hlast & _).
  exists (finalized config_path rep0).
  revert H. unfold run_report_average. cbn zeta. intros H.
  apply bind_inr in H as ([] & s0 & Hlog & H). injection Hlog as <-.
  apply bind_inr in H as (report & s1 & Hnew & H). injection Hnew as <- <-.
  set (s1 := set_reports _ _) in H.
  assert (Hstart : exists rep, reports s1 !! length (reports s) = Some rep /\
                               report_items rep = []).
  { eexists. subst s1. cbn [reports set_reports set_log].
    rewrite lookup_app_r by reflexivity. rewrite Nat.sub_diag. split; reflexivity. }
  clearbody s1. destruct Hstart as (rep1 & Hrep1 & Hitems1).
  apply bind_inr in H as (evokeds & s2 & Hevokeds & H).
  assert (s2 = s1) as ->.
  { unfold read_evokeds, read in Hevokeds. apply bind_inr in Hevokeds as (a & s3 & Ha & Hb).
    destruct (fs _) as [a'|]; [|discriminate]. injection Ha as <- <-.
    destruct a'; try discriminate. injection Hb as _ <-. reflexivity. }
  apply bind_inr in H as (conditions & s3 & Hconditions & H).
  assert (s3 = s1) as ->.
  { destruct (Cfg.conditions cfg); [|discriminate]. injection Hconditions as _ <-.
    reflexivity. }
  apply bind_inr in H as ([] & s4 & Hcounts & H).
  apply (add_event_counts_items _ _ _ _ _ _ Hrep1) in Hcounts as (rep4 & Hrep4 & Hitems4).
  rewrite Hitems1 in Hitems4. cbn in Hitems4.
  run_preserves (adds_only not_html) H
    ltac:(preserves_auto ltac:(solve_adds_only ltac:(intros ? [=]))).
  destruct H as [H _]. destruct (H _ _ Hrep4) as (rep' & others & Hrep' & Hitems' & Hothers).
  rewrite Hlast in Hrep'. injection Hrep' as <-.
  exists others. rewrite <- Hitems4. auto.
Qed.

End EventCounts.

(** * Further concrete runs *)

Module FurtherRuns.

Import Scenario Cases.

(** *** Names of score files *)

Lemma contrasts_share_score_file_witness :
  fname_decoding cfg_one (bids_path "05") ("raised_left", "raised/right") "FullEpochs"
  = fname_decoding cfg_one (bids_path "05") ("raised-left", "raisedright") "FullEpochs".
Proof.
  apply contrasts_share_score_file; vm_compute; reflexivity.
Defined.

(** *** The plotting functions *)

(** Three scores for one contrast are plotted; two score arrays of unequal
    length for two contrasts are refused. *)
Lemma full_epochs_plot_checks_total_length_witness :
  (exists column cmds,
     _plot_full_epochs_decoding_scores [contrast] [[tenths 7; tenths 8; tenths 9]]
       "roc_auc" single_subject empty_state
     = (inr 0%nat,
        with_new_figure
          (Catplot "swarm" column [tenths 7; tenths 8; tenths 9] "Score (ROC AUC)"
           :: cmds) empty_state) /\
     length column = 3%nat /\ MapAxhline Float.half ∈ cmds) /\
  _plot_full_epochs_decoding_scores [contrast; contrast] [[tenths 7; tenths 8]; [tenths 9]]
    "roc_auc" single_subject empty_state
  = (inl (ValueError "All arrays must be of the same length"), empty_state).
Proof.
  split.
  - pose proof (full_epochs_plot_checks_total_length [contrast]
                  [tenths 7; tenths 8; tenths 9] [] "roc_auc" single_subject
                  empty_state) as H.
    destruct (decide _) as [_|Hne] in H; [|exfalso; apply Hne; reflexivity].
    apply H; discriminate.
  - pose proof (full_epochs_plot_checks_total_length [contrast; contrast]
                  [tenths 7; tenths 8] [[tenths 9]] "roc_auc" single_subject
                  empty_state) as H.
    destruct (decide _) as [Heq|_] in H; [discriminate Heq|].
    apply H; discriminate.
Defined.

Lemma t_values_plot_without_values_leaves_figure_open_witness :
  exists f msg,
    plot_time_by_time_decoding_t_values scores_2d empty_state
    = (inl (ValueError msg), with_new_figure f empty_state).
Proof.
  apply t_values_plot_without_values_leaves_figure_open. reflexivity.
Defined.

(** The t-values 0, 3 and 4 touch zero: no limit is set. *)
Lemma t_values_axis_holds_zero_witness :
  exists f,
    figures t_values_run.2 !! 0%nat = Some f /\ forall l, SetYlim l ∉ f.
Proof.
  destruct (t_values_axis_holds_zero scores_1d empty_state t_values_run.2 0%nat
              (fz 0) (fz 4)) as (f & Hf & Hylim).
  - vm_compute. reflexivity.
  - vm_compute. reflexivity.
  - vm_compute. reflexivity.
  - exists f. split; [exact Hf|]. intros l Hl. apply Hylim in Hl.
    destruct Hl as [(_ & H & _)|[(_ & H & _)|(_ & H & _)]]; vm_compute in H;
      discriminate H.
Defined.

Lemma significant_clusters_labelled_once_witness :
  exists f,
    figures gavg_run.2 !! 0%nat = Some f /\
    highlight_labels f = [Some (Float.ratio 5 100)].
Proof.
  destruct (significant_clusters_labelled_once cfg_one scores_1d empty_state
              gavg_run.2 0%nat) as (f & Hf & _ & _).
  - vm_compute. reflexivity.
  - exists f. split; [exact Hf|].
    vm_compute in Hf. injection Hf as <-. vm_compute. reflexivity.
Defined.

Lemma plot_auto_scores_returns_open_figures_witness :
  open_figs auto_scores_run.2 = list_to_set [1%nat; 2%nat] ∪ open_figs busy_state.
Proof.
  destruct (proj1 (plot_auto_scores_returns_open_figures (W := world_meg) cfg_meg "05"
                     None busy_state) [1%nat; 2%nat] auto_scores_run.2) as [_ Hopen].
  - vm_compute. reflexivity.
  - exact Hopen.
Defined.

(** *** Figures closed and left open *)

Lemma preprocessing_closes_its_figures_witness :
  open_figs meg_run.2 ⊆ open_figs busy_state.
Proof.
  apply (preprocessing_closes_its_figures (W := world_meg) cfg_meg "05" None
           (Some 0%nat) busy_state meg_run.2 0%nat).
  vm_compute. reflexivity.
Defined.

Lemma sensor_stage_closes_its_decoding_figures_witness :
  open_figs sensor_done.2 ⊆ open_figs preprocessed.2.
Proof.
  apply (sensor_stage_closes_its_decoding_figures (W := world) cfg_one "05" None
           (Some 0%nat) preprocessed.2 sensor_done.2 0%nat).
  - left. reflexivity.
  - vm_compute. reflexivity.
Defined.

Lemma grand_average_decoding_closes_its_figures_witness :
  open_figs two_subjects_run.2 ⊆ open_figs started_state.
Proof.
  apply (grand_average_decoding_closes_its_figures (W := world) None cfg_two 0%nat
           started_state two_subjects_run.2).
  - vm_compute. lia.
  - vm_compute. reflexivity.
Defined.

Lemma coregistered_run_leaves_no_figure_open_witness :
  open_figs coregistered_run.2 = ∅.
Proof.
  apply (coregistered_run_leaves_no_figure_open (W := world_source) cfg_tfr "05" None
           empty_state coregistered_run.2).
  - vm_compute. discriminate.
  - vm_compute. reflexivity.
Defined.

Lemma sensor_stage_leaves_itc_figure_open_witness :
  exists fig,
    fig ∈ open_figs tfr_run.2 /\ fig ∉ open_figs started_state /\
    figures tfr_run.2 !! fig = Some [External "itc.plot_topo"].
Proof.
  apply (sensor_stage_leaves_itc_figure_open (W := world) cfg_tfr "05" None
           (Some 0%nat) started_state tfr_run.2 0%nat ["raised-left"]).
  - reflexivity.
  - discriminate.
  - intros fig Hfig. vm_compute in Hfig. set_solver.
  - vm_compute. reflexivity.
Defined.

Lemma single_subject_grand_average_leaves_figure_open_witness :
  exists fig f,
    fig ∈ open_figs single_subject_run.2 /\ fig ∉ open_figs started_state /\
    figures single_subject_run.2 !! fig = Some f.
Proof.
  destruct (single_subject_grand_average_leaves_figure_open (W := world) None cfg_one
              0%nat started_state single_subject_run.2)
    as (c & d & fig & f & s0 & _ & _ & _ & Hopen & Hnot & Hfig).
  - vm_compute. lia.
  - discriminate.
  - intros fig Hfig. vm_compute in Hfig. set_solver.
  - vm_compute. reflexivity.
  - eauto.
Defined.

(** *** Reports *)

Lemma grand_average_run_saves_finalized_report_witness :
  exists rep,
    saved average_run.2
    = [(fname_report cfg_one "average" None, finalized "config.py" rep)] /\
    open_figs average_run.2 = ∅.
Proof.
  destruct (grand_average_run_saves_finalized_report (W := world) cfg_one "average" None
              empty_state average_run.2)
    as (rep & config_path & Henv & Hsaved & _ & _ & Hopen).
  - vm_compute. reflexivity.
  - vm_compute in Henv. injection Henv as <-. exists rep. auto.
Defined.

Lemma grand_average_report_opens_with_event_counts_witness :
  exists rep others,
    saved average_run.2 = [(fname_report cfg_one "average" None, rep)] /\
    report_items rep
    = {| item_content := AddHtml "<table></table>"; item_title := "Event counts";
         item_section := None |} :: others /\
    Forall not_html others.
Proof.
  apply (grand_average_report_opens_with_event_counts (W := world) cfg_one "average" None
           empty_state average_run.2).
  vm_compute. reflexivity.
Defined.

Lemma runs_touch_their_own_report_only_witness :
  exists rep,
    reports subject_run.2 = reports empty_state ++ [rep] /\
    report_title rep = "sub-05, task-matchingpennies".
Proof.
  apply (proj1 (runs_touch_their_own_report_only (W := world) cfg_one "05" None
                  empty_state) subject_run.1 subject_run.2).
  vm_compute. reflexivity.
Defined.

Lemma source_estimates_are_of_conditions_witness :
  adds_only (source_estimate_of_condition (W := world_source) cfg_one "05" None)
    busy_state source_run.2.
Proof.
  apply (source_estimates_are_of_conditions (W := world_source) cfg_one "05" None
           (Some 0%nat) busy_state source_run.2 source_run.1).
  vm_compute. reflexivity.
Defined.

Lemma resting_state_preprocessing_adds_no_events_witness :
  adds_only (fun it => item_content it <> AddEvents) busy_state rest_preprocessing_run.2.
Proof.
  apply (resting_state_preprocessing_adds_no_events (W := world) cfg_rest "05" None
           (Some 0%nat) busy_state rest_preprocessing_run.2 rest_preprocessing_run.1).
  - reflexivity.
  - vm_compute. reflexivity.
Defined.

Lemma sensor_stage_titles_evokeds_by_position_witness :
  adds_only (evoked_titled_by_position cfg_one) preprocessed.2 sensor_done.2.
Proof.
  apply (sensor_stage_titles_evokeds_by_position (W := world) cfg_one "05" None
           (Some 0%nat) preprocessed.2 sensor_done.2 sensor_done.1).
  vm_compute. reflexivity.
Defined.

Lemma grand_average_run_shows_conditions_only_witness :
  adds_only (average_of_condition cfg_one) empty_state average_run.2.
Proof.
  apply (grand_average_run_shows_conditions_only (W := world) cfg_one "average" None
           empty_state average_run.2 average_run.1).
  vm_compute. reflexivity.
Defined.

Lemma grand_average_decoding_embeds_time_courses_witness :
  time_courses_embedded (W := world) None cfg_two 0%nat contrast two_subjects_run.2.
Proof.
  apply (grand_average_decoding_embeds_time_courses (W := world) None cfg_two 0%nat
           started_state two_subjects_run.2
           {| report_title := "sub-average"; report_items := []; report_css := [] |}).
  - vm_compute. lia.
  - reflexivity.
  - vm_compute. reflexivity.
  - apply list_elem_of_here.
Defined.

(** *** Runs that fail *)

Lemma failed_runs_save_nothing_witness :
  saved failed_average_run.2 = saved empty_state.
Proof.
  apply (proj2 (failed_runs_save_nothing (W := world_missing) cfg_one "average" None
                  empty_state failed_average_run.2
                  (FileNotFoundError
                     (grand_average_score_file cfg_one None contrast "TimeByTime")))).
  vm_compute. reflexivity.
Defined.

Lemma runs_need_the_study_config_variable_witness :
  exists e s',
    run_report (W := world_without_variable) cfg_one "05" None empty_state = (inl e, s') /\
    saved s' = saved empty_state.
Proof.
  apply (runs_need_the_study_config_variable (W := world_without_variable)).
  reflexivity.
Defined.

Lemma sensor_stage_needs_conditions_for_contrasts_witness :
  exists s',
    run_report_sensor (W := world) cfg_no_conditions "05" None (Some 0%nat) busy_state
    = (inl TypeError, s') /\
    reports s' = reports busy_state /\ figures s' = figures busy_state /\
    saved s' = saved busy_state.
Proof.
  apply (sensor_stage_needs_conditions_for_contrasts (W := world) cfg_no_conditions
           "05" None 0%nat busy_state "raised-left - raised-right" [] 2%nat).
  - reflexivity.
  - reflexivity.
  - vm_compute. reflexivity.
Defined.

Lemma grand_average_run_needs_conditions_witness :
  exists s',
    run_report_average (W := world) cfg_no_conditions "average" None empty_state
    = (inl AttributeError, s') /\
    saved s' = saved empty_state.
Proof.
  destruct (grand_average_run_needs_conditions (W := world) cfg_no_conditions "average"
              None empty_state) as (e & s' & Hrun & Hsaved & Hkind).
  - reflexivity.
  - destruct (Hkind 3%nat) as [-> _]; [vm_compute; reflexivity|].
    exists s'. auto.
Defined.

End FurtherRuns.
